(** * Email Document Assistant: the form-filling pipeline of [src/server.py]

    A shallow embedding of the six operations of the server
    ([_download_pdf], [_parse_email], [_extract_form_fields],
    [_generate_form_values], [_fill_pdf_form], [_process_email_automation])
    and the properties of the field-value normalizer and of the orchestrator.

    Conventions of the embedding.
    - A Python [str] is a Rocq [string] holding its UTF-8 encoding.  [len],
      indexing and [isdigit] work on characters (code points), each a run of
      bytes; whether a character of several bytes is a digit is a fact of the
      Unicode database of the interpreter, a collaborator.  [lower] maps the
      letters A to Z and nothing else.
    - A Python [dict] is an association list in insertion order, without
      repeated keys; [dict_set] overwrites in place or appends, as
      [d[k] = v] does.
    - An exception is [Raise msg], [msg] being [str(e)]; [try_except] is the
      [try: ... except Exception as e:] of every operation.
    - The values of a field-value mapping are strings (the generation prompt
      asks for one string per field name), on which [str(value)] is the
      identity.
    - The HTTP client, the file system, the PDF library, the text-generation
      provider, pathlib, base64 and [repr] are collaborators, gathered in
      [collaborators].  A write that raises may leave the target created,
      truncated or partly written; a widget holds what the PDF library keeps
      of the string assigned to it. *)

From Stdlib Require Import ZArith String Ascii List Lia Bool.
From stdpp Require Import base option list gmap strings pretty.

Open Scope string_scope.

(** ** Strings *)

Module Str.

(** [c.lower()] for one ASCII character. *)
Definition lower_char (c : ascii) : ascii :=
  let n := nat_of_ascii c in
  if (65 <=? n)%nat && (n <=? 90)%nat then ascii_of_nat (n + 32) else c.

(** [s.lower()] *)
Fixpoint lower (s : string) : string :=
  match s with
  | EmptyString => EmptyString
  | String c r => String (lower_char c) (lower r)
  end.

(** One of the ten characters "0" to "9". *)
Definition is_digit_char (c : ascii) : bool :=
  let n := nat_of_ascii c in (48 <=? n)%nat && (n <=? 57)%nat.

(** A byte 10xxxxxx, which continues the encoding of a character. *)
Definition is_continuation (c : ascii) : bool :=
  let n := nat_of_ascii c in (128 <=? n)%nat && (n <=? 191)%nat.

(** Whether [s] starts with a continuation byte. *)
Definition continues (s : string) : bool :=
  match s with
  | EmptyString => false
  | String c _ => is_continuation c
  end.

(** The characters of [s], in order: each is a byte that is no
    continuation byte, with the continuation bytes that follow it. *)
Fixpoint chars (s : string) : list string :=
  match s with
  | EmptyString => []
  | String c r =>
      match chars r with
      | ch :: rest =>
          if continues r then String c ch :: rest
          else String c EmptyString :: ch :: rest
      | [] => [String c EmptyString]
      end
  end.

(** [len(s)]: the number of characters. *)
Definition len (s : string) : nat := length (chars s).

(** Whether the character [ch] is a digit for [str.isdigit] (its
    [Numeric_Type] is Digit or Decimal).  Of the characters of one byte these
    are "0" to "9"; for the others the Unicode database [db] of the
    interpreter tells. *)
Definition is_digit (db : string -> bool) (ch : string) : bool :=
  match ch with
  | String c EmptyString => is_digit_char c
  | _ => db ch
  end.

(** [s.isdigit()]: every character is a digit, and there is one. *)
Definition isdigit (db : string -> bool) (s : string) : bool :=
  match chars s with
  | [] => false
  | l => forallb (is_digit db) l
  end.

(** [sub in s] *)
Fixpoint contains (sub s : string) : bool :=
  if String.prefix sub s then true
  else match s with
       | EmptyString => false
       | String _ r => contains sub r
       end.

(** [s.endswith(suffix)] *)
Fixpoint endswith (s suffix : string) : bool :=
  if String.eqb s suffix then true
  else match s with
       | EmptyString => false
       | String _ r => endswith r suffix
       end.

(** [s[i]]: the character number [i], [None] when out of range. *)
Definition index (s : string) (i : nat) : option string := chars s !! i.

(** Truth value of a string: [bool(s)]. *)
Definition truthy (s : string) : bool :=
  match s with
  | EmptyString => false
  | _ => true
  end.

(** [a or b] on strings. *)
Definition or_ (a b : string) : string := if truthy a then a else b.

(** [url.split("/")[-1]]: what follows the last slash. *)
Fixpoint last_segment (s : string) : string :=
  match s with
  | EmptyString => EmptyString
  | String c r =>
      if contains "/" r then last_segment r
      else if Ascii.eqb c "/"%char then r
      else s
  end.

End Str.

(** ** Dictionaries *)

Abbreviation dict V := (list (string * V)).

Section Dict.
Context {V : Type}.

(** [d.get(k)] *)
Fixpoint dict_get (d : dict V) (k : string) : option V :=
  match d with
  | [] => None
  | (k', v) :: r => if String.eqb k' k then Some v else dict_get r k
  end.

(** [k in d] *)
Definition dict_contains (d : dict V) (k : string) : bool :=
  match dict_get d k with
  | Some _ => true
  | None => false
  end.

(** [d.get(k, dflt)] *)
Definition dict_get_default (d : dict V) (k : string) (dflt : V) : V :=
  match dict_get d k with
  | Some v => v
  | None => dflt
  end.

(** [d[k] = v]: a key already there keeps its position. *)
Fixpoint dict_set (d : dict V) (k : string) (v : V) : dict V :=
  match d with
  | [] => [(k, v)]
  | (k', v') :: r =>
      if String.eqb k' k then (k', v) :: r else (k', v') :: dict_set r k v
  end.

(** [d.keys()] *)
Definition dict_keys (d : dict V) : list string := map fst d.

(** The keys of a Python dict are pairwise different. *)
Definition dict_wf (d : dict V) : Prop := NoDup (dict_keys d).
End Dict.

Abbreviation strdict := (dict string).

(** ** Exceptions *)

(** The outcome of a computation that may raise: [Raise msg] carries
    [str(e)]. *)
Inductive res (A : Type) : Type :=
| Ok (a : A)
| Raise (msg : string).
Arguments Ok {A} a.
Arguments Raise {A} msg.

(** ** Python values, documents and the store *)

(** The values found in decoded JSON and in the result dicts. *)
#[warnings="-register-all"]
Inductive pyval : Type :=
| VNone
| VBool (b : bool)
| VInt (n : Z)
| VStr (s : string)
| VList (items : list pyval)
| VDict (entries : list (string * pyval)).

(** The result dict every operation returns. *)
Abbreviation result := (dict pyval).

(** A form field as the PDF library shows it. *)
Record widget : Type := Widget {
  field_name : string;
  field_type_string : string;
  field_value : string
}.

(** A document is its pages, a page its widgets, in order. *)
Abbreviation page := (list widget).
Abbreviation document := (list page).

(** What a path or an HTTP body holds: bytes the PDF library opens as a
    document, or bytes it cannot open. *)
Inductive file : Type :=
| Pdf (doc : document)
| Unreadable (tag : nat).

Record response : Type := Response {
  content : file;
  json : res pyval
}.

(** The collaborators the operations call. *)
Record collaborators : Type := Collaborators {
  (** [httpx.get(url, follow_redirects=..)] then [raise_for_status()] *)
  httpx_get : bool -> string -> res response;
  (** [len(response.content)] *)
  content_length : file -> Z;
  (** [str(e)] of the exception [pymupdf.open] raises on that path *)
  open_error : string -> string;
  (** [str(e)] of the exception writing that path raises, if it does *)
  write_error : string -> option string;
  (** what a write that raises leaves at the path, from the data and what
      the path held: the file as it was, none, an empty or a partial one *)
  failed_write : string -> file -> option file -> option file;
  (** what a widget of that name and type holds once [field_value] is
      assigned that string and [update()] has run *)
  held_value : string -> string -> string -> string;
  (** the prompt, the provider call and [json.loads] of its answer *)
  chat_completion : list string -> res strdict;
  (** [str(Path(p).with_stem(Path(p).stem + "_filled"))] *)
  filled_path : string -> res string;
  (** [base64.b64encode(..).decode('utf-8')] *)
  b64encode : file -> string;
  (** [str(v)] of a value that is not a [str] *)
  py_repr : pyval -> string;
  (** whether a character of several bytes is a digit for [str.isdigit] *)
  unicode_digit : string -> bool
}.

(** The file system and the mutable mappings handed between caller and
    callee, by address. *)
Record state : Type := State {
  files : gmap string file;
  objects : list strdict
}.

(** A computation that reads and writes the state and may raise. *)
Definition M (A : Type) : Type := state -> res A * state.

Definition ret {A} (a : A) : M A := fun st => (Ok a, st).

Definition bind {A B} (m : M A) (k : A -> M B) : M B :=
  fun st =>
    match m st with
    | (Ok a, st') => k a st'
    | (Raise msg, st') => (Raise msg, st')
    end.

Definition lift {A} (r : res A) : M A := fun st => (r, st).

(** [try: body except Exception as e: handler(str(e))] *)
Definition try_except {A} (body : M A) (handler : string -> M A) : M A :=
  fun st =>
    match body st with
    | (Ok a, st') => (Ok a, st')
    | (Raise msg, st') => handler msg st'
    end.

Notation "x <- m ;; k" := (bind m (fun x => k))
  (at level 60, m at next level, right associativity).
Notation "m ;;; k" := (bind m (fun _ => k))
  (at level 60, right associativity).

Definition res_bind {A B} (r : res A) (k : A -> res B) : res B :=
  match r with
  | Ok a => k a
  | Raise msg => Raise msg
  end.

Notation "x <-? r ;; k" := (res_bind r (fun x => k))
  (at level 60, r at next level, right associativity).

(** [{}] or a decoded mapping becoming an object of the store. *)
Definition new_object (d : strdict) : M nat :=
  fun st => (Ok (length (objects st)),
             {| files := files st; objects := objects st ++ [d] |}).

(** The items of the mapping at an address. *)
Definition read_object (l : nat) : M strdict :=
  fun st => (Ok (default [] (objects st !! l)), st).

(** The assignments a block makes to the mapping at an address. *)
Definition update_object (l : nat) (f : strdict -> res strdict) : M unit :=
  fun st =>
    match f (default [] (objects st !! l)) with
    | Ok d => (Ok tt, {| files := files st; objects := <[l := d]> (objects st) |})
    | Raise msg => (Raise msg, st)
    end.

(** ** Operations of Python values *)

Module Py.

Definition type_name (v : pyval) : string :=
  match v with
  | VNone => "NoneType"
  | VBool _ => "bool"
  | VInt _ => "int"
  | VStr _ => "str"
  | VList _ => "list"
  | VDict _ => "dict"
  end.

Definition no_attribute {A} (v : pyval) (attr : string) : res A :=
  Raise ("'" ++ type_name v ++ "' object has no attribute '" ++ attr ++ "'").

(** [v.get(k, dflt)] *)
Definition get (v : pyval) (k : string) (dflt : pyval) : res pyval :=
  match v with
  | VDict d => Ok (dict_get_default d k dflt)
  | _ => no_attribute v "get"
  end.

(** [v.keys()] *)
Definition keys (v : pyval) : res (list string) :=
  match v with
  | VDict d => Ok (dict_keys d)
  | _ => no_attribute v "keys"
  end.

Fixpoint chars (s : string) : list pyval :=
  match s with
  | EmptyString => []
  | String c r => VStr (String c EmptyString) :: chars r
  end.

(** The elements [for x in v] runs over. *)
Definition iter (v : pyval) : res (list pyval) :=
  match v with
  | VList l => Ok l
  | VStr s => Ok (chars s)
  | VDict d => Ok (map VStr (dict_keys d))
  | _ => Raise ("'" ++ type_name v ++ "' object is not iterable")
  end.

(** [v.endswith(suffix)] *)
Definition endswith (v : pyval) (suffix : string) : res bool :=
  match v with
  | VStr s => Ok (Str.endswith s suffix)
  | _ => no_attribute v "endswith"
  end.

(** [bool(v)] *)
Definition truthy (v : pyval) : bool :=
  match v with
  | VNone => false
  | VBool b => b
  | VInt n => negb (n =? 0)%Z
  | VStr s => Str.truthy s
  | VList l => match l with [] => false | _ => true end
  | VDict d => match d with [] => false | _ => true end
  end.

(** [v != s] for a string literal [s] *)
Definition ne_str (v : pyval) (s : string) : bool :=
  match v with
  | VStr s' => negb (String.eqb s' s)
  | _ => true
  end.

(** [v == n] for an integer literal [n] *)
Definition eq_int (v : pyval) (n : Z) : bool :=
  match v with
  | VInt m => (m =? n)%Z
  | VBool b => (Z.b2z b =? n)%Z
  | _ => false
  end.

(** [d[k]] on a result dict: [KeyError] when the key is missing. *)
Definition getitem (d : result) (k : string) : res pyval :=
  match dict_get d k with
  | Some v => Ok v
  | None => Raise ("'" ++ k ++ "'")
  end.

(** [v[k]] for a string [k] *)
Definition subscript (v : pyval) (k : string) : res pyval :=
  match v with
  | VDict d => getitem d k
  | VStr _ => Raise "string indices must be integers, not 'str'"
  | VList _ => Raise "list indices must be integers or slices, not str"
  | _ => Raise ("'" ++ type_name v ++ "' object is not subscriptable")
  end.

(** [v[0]] *)
Definition first (v : pyval) : res pyval :=
  match v with
  | VList (x :: _) => Ok x
  | VList [] => Raise "list index out of range"
  | VStr (String c _) => Ok (VStr (String c EmptyString))
  | VStr EmptyString => Raise "string index out of range"
  | VDict _ => Raise "0"
  | _ => Raise ("'" ++ type_name v ++ "' object is not subscriptable")
  end.

(** An entry a stage stored as a [str], read back as one. *)
Definition as_str (v : pyval) : res string :=
  match v with
  | VStr s => Ok s
  | _ => Raise ("expected str, got " ++ type_name v)
  end.

(** The string-valued mapping a stage stored, read back as one. *)
Fixpoint as_strdict_entries (entries : list (string * pyval)) : res strdict :=
  match entries with
  | [] => Ok []
  | (k, v) :: rest =>
      s <-? as_str v ;;
      d <-? as_strdict_entries rest ;;
      Ok ((k, s) :: d)
  end.

Definition as_strdict (v : pyval) : res strdict :=
  match v with
  | VDict entries => as_strdict_entries entries
  | _ => Raise ("expected dict, got " ++ type_name v)
  end.

End Py.

(** ** The storage-provider links of a part

    [re.findall(r'https://drive\.google\.com/[^\s\'dq]+', part_str)],
    [dq] standing for the double quote: every match, left to right, a match
    resuming the search where it ends. *)

Module Links.

Definition link_prefix : string := "https://drive.google.com/".

(** The characters [\s] and the two quotes end a link. *)
Definition ends_link (c : ascii) : bool :=
  let n := nat_of_ascii c in
  ((9 <=? n)%nat && (n <=? 13)%nat) || ((28 <=? n)%nat && (n <=? 32)%nat)
  || (n =? 34)%nat || (n =? 39)%nat.

Fixpoint link_chars (s : string) : string :=
  match s with
  | EmptyString => EmptyString
  | String c r => if ends_link c then EmptyString else String c (link_chars r)
  end.

Fixpoint drop (n : nat) (s : string) : string :=
  match n, s with
  | O, _ => s
  | S k, String _ r => drop k r
  | S _, EmptyString => EmptyString
  end.

(** The match that starts at the head of [s], if there is one. *)
Definition match_here (s : string) : option string :=
  if String.prefix link_prefix s then
    match link_chars (drop (String.length link_prefix) s) with
    | EmptyString => None
    | tail => Some (link_prefix ++ tail)
    end
  else None.

(** [skip] characters belong to the match just found. *)
Fixpoint findall_from (s : string) (skip : nat) : list string :=
  match s with
  | EmptyString => []
  | String _ r =>
      match skip with
      | S k => findall_from r k
      | O =>
          match match_here s with
          | Some url => url :: findall_from r (String.length url - 1)
          | None => findall_from r 0
          end
      end
  end.

Definition findall (s : string) : list string := findall_from s 0.

End Links.

(** ** The field-value normalizer of [_fill_pdf_form]

    Each pass is the body of one block of the function, acting on the local
    [processed_values]. *)

Module Normalizer.

(** [str(value)] on a value that is a [str]. *)
Definition str (value : string) : string := value.

Definition month_map : strdict :=
  [ ("january", "01"); ("february", "02"); ("march", "03"); ("april", "04");
    ("may", "05"); ("june", "06"); ("july", "07"); ("august", "08");
    ("september", "09"); ("october", "10"); ("november", "11");
    ("december", "12") ].

(** The value stored for one pair of [field_values]: the month number when
    ["month" in key.lower() and str(value).lower() in month_map], the value
    itself otherwise. *)
Definition month_value (key value : string) : string :=
  if Str.contains "month" (Str.lower key)
     && dict_contains month_map (Str.lower (str value))
  then dict_get_default month_map (Str.lower (str value)) value
  else value.

(** [for key, value in field_values.items(): processed_values[key] = ...] *)
Definition normalize_months (field_values processed_values : strdict) : strdict :=
  fold_left (fun pv '(key, value) => dict_set pv key (month_value key value))
            field_values processed_values.

(** The test guarding [current_year = str(value)]. *)
Definition is_year_key (key : string) : bool :=
  Str.contains "yr" (Str.lower key) || Str.contains "year" (Str.lower key).

Section Year.
Variable C : collaborators.

(** [len(str(value)) == 4 and str(value).isdigit()] *)
Definition is_year_value (value : string) : bool :=
  (Str.len (str value) =? 4)%nat && Str.isdigit (unicode_digit C) (str value).

(** The loop over [processed_values.items()] that ends at the first hit
    ([break]). *)
Fixpoint scan_year (items : strdict) (current_year : string) : string :=
  match items with
  | [] => current_year
  | (key, value) :: rest =>
      if is_year_key key then
        if is_year_value value then str value
        else scan_year rest current_year
      else scan_year rest current_year
  end.

(** [current_year[i]]; an index out of range raises [IndexError]. *)
Definition year_char (current_year : string) (i : nat) : res string :=
  match Str.index current_year i with
  | Some c => Ok c
  | None => Raise "string index out of range"
  end.

(** The year split: the scan, then the four assignments. *)
Definition split_year (processed_values : strdict) : res strdict :=
  let current_year := scan_year processed_values "2025" in
  match year_char current_year 0 with
  | Raise msg => Raise msg
  | Ok c0 =>
      let pv := dict_set processed_values "Year-1" c0 in
      match year_char current_year 1 with
      | Raise msg => Raise msg
      | Ok c1 =>
          let pv := dict_set pv "Year-2" c1 in
          match year_char current_year 2 with
          | Raise msg => Raise msg
          | Ok c2 =>
              let pv := dict_set pv "Year-3" c2 in
              match year_char current_year 3 with
              | Raise msg => Raise msg
              | Ok c3 => Ok (dict_set pv "Year-4" c3)
              end
          end
      end
  end.
End Year.

Definition defaults : strdict :=
  [ ("Month", "03"); ("Day", "15");
    ("Seller State", "CA"); ("Buyer State", "CA");
    ("Sell zip", "90210"); ("Buyer zip", "90210");
    ("Sell date 1", "03/15/2025"); ("Sell date 2", "") ].

(** [not processed_values.get(field)] *)
Definition not_get (processed_values : strdict) (field : string) : bool :=
  match dict_get processed_values field with
  | None => true
  | Some v => negb (Str.truthy v)
  end.

(** One turn of [for field, default_value in defaults.items()]. *)
Definition backfill_step (pv : strdict) (entry : string * string) : strdict :=
  let '(field, default_value) := entry in
  if negb (dict_contains pv field) || not_get pv field
  then dict_set pv field default_value
  else pv.

Definition backfill_defaults (processed_values : strdict) : strdict :=
  fold_left backfill_step defaults processed_values.

Definition first_seller (pv : strdict) : string :=
  Str.or_ (dict_get_default pv "Print seller's name" "")
          (dict_get_default pv "Seller print name 1" "").

Definition second_seller (pv : strdict) : string :=
  dict_get_default pv "Seller print name 2" "".

(** [not second_seller or second_seller == first_seller] *)
Definition duplicate_row (pv : strdict) : bool :=
  negb (Str.truthy (second_seller pv))
  || String.eqb (second_seller pv) (first_seller pv).

(** [for key in list(processed_values.keys()): if key.endswith(" 2"): ...] *)
Definition clear_second_row (keys : list string) (pv : strdict) : strdict :=
  fold_left (fun pv key => if Str.endswith key " 2" then dict_set pv key "" else pv)
            keys pv.

Definition clear_duplicate_seller (processed_values : strdict) : strdict :=
  if duplicate_row processed_values
  then clear_second_row (dict_keys processed_values) processed_values
  else processed_values.

End Normalizer.

Section Operations.
Variable C : collaborators.

(** [pymupdf.open(pdf_path)] *)
Definition pymupdf_open (pdf_path : string) : M document :=
  fun st =>
    match files st !! pdf_path with
    | Some (Pdf doc) => (Ok doc, st)
    | _ => (Raise (open_error C pdf_path), st)
    end.

(** [filepath.write_bytes(..)], [doc.save(..)]: a write that raises has
    touched no other path. *)
Definition write_file (path : string) (f : file) : M unit :=
  fun st =>
    match write_error C path with
    | Some msg =>
        (Raise msg,
         {| files := partial_alter (failed_write C path f) path (files st);
            objects := objects st |})
    | None => (Ok tt, {| files := <[path := f]> (files st); objects := objects st |})
    end.

(** [open(path, 'rb').read()] *)
Definition read_file (path : string) : M file :=
  fun st =>
    match files st !! path with
    | Some f => (Ok f, st)
    | None => (Raise ("[Errno 2] No such file or directory: '" ++ path ++ "'"), st)
    end.

Definition error_result (what msg : string) : result :=
  [("status", VStr "error"); ("message", VStr (what ++ msg))].

(** [str(v)] *)
Definition py_str (v : pyval) : string :=
  match v with
  | VStr s => s
  | VInt n => pretty n
  | _ => py_repr C v
  end.

(** *** [_download_pdf] *)

Definition WORK_DIR : string := "/tmp/mcp_pdfs".

Definition download_filename (url : string) : string :=
  let filename := Str.or_ (Str.last_segment url) "downloaded.pdf" in
  if negb (Str.endswith filename ".pdf") then filename ++ ".pdf" else filename.

Definition _download_pdf (url : string) : M result :=
  try_except
    (response <- lift (httpx_get C true url) ;;
     let filename := download_filename url in
     let filepath := WORK_DIR ++ "/" ++ filename in
     write_file filepath (content response) ;;;
     ret [("status", VStr "success");
          ("message", VStr ("Downloaded PDF to " ++ filepath));
          ("filepath", VStr filepath);
          ("size_bytes", VInt (content_length C (content response)))])
    (fun e => ret (error_result "Failed to download PDF: " e)).

(** *** [_parse_email] *)

(** The loop over the parts, extending [pdf_urls]. *)
Fixpoint scan_parts (parts : list pyval) (pdf_urls : list string)
  : res (list string) :=
  match parts with
  | [] => Ok pdf_urls
  | part :: rest =>
      filename <-? Py.get part "filename" (VStr "") ;;
      is_pdf <-? Py.endswith filename ".pdf" ;;
      if is_pdf then
        if Str.contains "drive.google.com" (py_str part) then
          let part_str := py_str part in
          let drive_links := Links.findall part_str in
          scan_parts rest (pdf_urls ++ drive_links)
        else scan_parts rest pdf_urls
      else scan_parts rest pdf_urls
  end.

(** The body of the [try] once the payload is decoded. *)
Definition parse_email_data (email_data : pyval) : res result :=
  sender <-? Py.get email_data "sender" (VDict []) ;;
  subject <-? Py.get email_data "subject" (VStr "") ;;
  payload <-? Py.get email_data "payload" (VDict []) ;;
  parts <-? Py.get payload "parts" (VList []) ;;
  part_list <-? Py.iter parts ;;
  pdf_urls <-? scan_parts part_list [] ;;
  sender_email <-? Py.get sender "email" (VStr "") ;;
  Ok [("status", VStr "success");
      ("sender", sender_email);
      ("subject", subject);
      ("pdf_count", VInt (Z.of_nat (length pdf_urls)));
      ("pdf_urls", VList (map VStr pdf_urls))].

Definition _parse_email (email_json_url : string) : M result :=
  try_except
    (response <- lift (httpx_get C false email_json_url) ;;
     email_data <- lift (json response) ;;
     lift (parse_email_data email_data))
    (fun e => ret (error_result "Failed to parse email: " e)).

(** *** [_extract_form_fields] *)

(** [fields[widget.field_name] = {...}] *)
Definition record_widget (page_num : nat) (fields : dict pyval) (w : widget)
  : dict pyval :=
  dict_set fields (field_name w)
    (VDict [("type", VStr (field_type_string w));
            ("value", VStr (Str.or_ (field_value w) ""));
            ("page", VInt (Z.of_nat page_num))]).

(** [for page_num in range(len(doc))], from page [page_num] on. *)
Fixpoint inspect_pages (pages : list page) (page_num : nat)
                       (fields : dict pyval) : dict pyval :=
  match pages with
  | [] => fields
  | widgets :: rest =>
      inspect_pages rest (S page_num)
                    (fold_left (record_widget page_num) widgets fields)
  end.

Definition _extract_form_fields (pdf_path : string) : M result :=
  try_except
    (doc <- pymupdf_open pdf_path ;;
     let fields := inspect_pages doc 0 [] in
     ret [("status", VStr "success");
          ("filepath", VStr pdf_path);
          ("num_fields", VInt (Z.of_nat (length fields)));
          ("fields", VDict fields)])
    (fun e => ret (error_result "Failed to extract form fields: " e)).

(** *** [_generate_form_values] *)

Definition _generate_form_values (field_names : list string) : M result :=
  try_except
    (values <- lift (chat_completion C field_names) ;;
     ret [("status", VStr "success");
          ("generated_values", VDict (map (fun '(k, v) => (k, VStr v)) values));
          ("fields_filled", VInt (Z.of_nat (length values)))])
    (fun e => ret (error_result "Failed to generate values: " e)).

(** *** [_fill_pdf_form] *)

(** [widget.field_value = v; widget.update()] *)
Definition set_field_value (w : widget) (v : string) : widget :=
  {| field_name := field_name w;
     field_type_string := field_type_string w;
     field_value := held_value C (field_name w) (field_type_string w) v |}.

(** The widgets of one page: those named in [processed_values] get its
    value, and are counted. *)
Fixpoint fill_page (processed_values : strdict) (widgets : page)
                   (fields_filled : nat) : page * nat :=
  match widgets with
  | [] => ([], fields_filled)
  | w :: rest =>
      match dict_get processed_values (field_name w) with
      | Some v =>
          let '(rest', n) := fill_page processed_values rest (S fields_filled) in
          (set_field_value w (Normalizer.str v) :: rest', n)
      | None =>
          let '(rest', n) := fill_page processed_values rest fields_filled in
          (w :: rest', n)
      end
  end.

Fixpoint fill_pages (processed_values : strdict) (pages : list page)
                    (fields_filled : nat) : document * nat :=
  match pages with
  | [] => ([], fields_filled)
  | widgets :: rest =>
      let '(widgets', n) := fill_page processed_values widgets fields_filled in
      let '(rest', n') := fill_pages processed_values rest n in
      (widgets' :: rest', n')
  end.

(** [field_values] is the address of the caller's mapping. *)
Definition _fill_pdf_form (pdf_path : string) (field_values : nat) : M result :=
  try_except
    (doc <- pymupdf_open pdf_path ;;
     processed_values <- new_object [] ;;
     items <- read_object field_values ;;
     update_object processed_values
       (fun pv => Ok (Normalizer.normalize_months items pv)) ;;;
     update_object processed_values (Normalizer.split_year C) ;;;
     update_object processed_values
       (fun pv => Ok (Normalizer.backfill_defaults pv)) ;;;
     update_object processed_values
       (fun pv => Ok (Normalizer.clear_duplicate_seller pv)) ;;;
     pv <- read_object processed_values ;;
     let '(doc', fields_filled) := fill_pages pv doc 0 in
     output_path <- lift (filled_path C pdf_path) ;;
     write_file output_path (Pdf doc') ;;;
     saved <- read_file output_path ;;
     let pdf_base64 := b64encode C saved in
     ret [("status", VStr "success");
          ("message", VStr ("Filled " ++ pretty fields_filled ++ " fields"));
          ("output_path", VStr output_path);
          ("fields_filled", VInt (Z.of_nat fields_filled));
          ("pdf_base64", VStr pdf_base64);
          ("download_instructions",
           VStr "Decode pdf_base64 from base64 and save as .pdf")])
    (fun e => ret (error_result "Failed to fill PDF: " e)).

(** *** [_process_email_automation] *)

Definition excluded_patterns : list string :=
  ["Year-1"; "Year-2"; "Year-3"; "Year-4"].

(** The names kept by the comprehension of step 4. *)
Fixpoint select_field_names (fields : pyval) (names : list string)
  : res (list string) :=
  match names with
  | [] => Ok []
  | name :: rest =>
      field <-? Py.subscript fields name ;;
      type <-? Py.subscript field "type" ;;
      selected <-? select_field_names fields rest ;;
      if Py.ne_str type "Button"
         && negb (existsb (String.eqb name) excluded_patterns)
      then Ok (name :: selected)
      else Ok selected
  end.

Definition no_pdf_result : result :=
  [("status", VStr "error"); ("message", VStr "No PDF found in email")].

Definition no_fields_result : result :=
  [("status", VStr "info"); ("message", VStr "PDF has no fillable form fields")].

Definition _process_email_automation (email_json_url : string) : M result :=
  try_except
    ((* Step 1: Parse email *)
     email_result <- _parse_email email_json_url ;;
     status <- lift (Py.getitem email_result "status") ;;
     if Py.ne_str status "success"
        || negb (Py.truthy (dict_get_default email_result "pdf_urls" VNone))
     then ret no_pdf_result
     else
       pdf_urls <- lift (Py.getitem email_result "pdf_urls") ;;
       pdf_url <- lift (Py.first pdf_urls) ;;
       pdf_url <- lift (Py.as_str pdf_url) ;;
       (* Step 2: Download PDF *)
       download_result <- _download_pdf pdf_url ;;
       status <- lift (Py.getitem download_result "status") ;;
       if Py.ne_str status "success" then ret download_result
       else
         pdf_path <- lift (Py.getitem download_result "filepath") ;;
         pdf_path <- lift (Py.as_str pdf_path) ;;
         (* Step 3: Extract form fields *)
         extract_result <- _extract_form_fields pdf_path ;;
         status <- lift (Py.getitem extract_result "status") ;;
         if Py.ne_str status "success" then ret extract_result
         else
           num_fields <- lift (Py.getitem extract_result "num_fields") ;;
           if Py.eq_int num_fields 0 then ret no_fields_result
           else
             (* Step 4: Generate values with AI *)
             fields <- lift (Py.getitem extract_result "fields") ;;
             names <- lift (Py.keys fields) ;;
             field_names <- lift (select_field_names fields names) ;;
             gen_result <- _generate_form_values field_names ;;
             status <- lift (Py.getitem gen_result "status") ;;
             if Py.ne_str status "success" then ret gen_result
             else
               (* Step 5: Fill PDF *)
               generated_values <- lift (Py.getitem gen_result "generated_values") ;;
               generated_values <- lift (Py.as_strdict generated_values) ;;
               field_values <- new_object generated_values ;;
               fill_result <- _fill_pdf_form pdf_path field_values ;;
               subject <- lift (Py.getitem email_result "subject") ;;
               output_path <- lift (Py.getitem fill_result "output_path") ;;
               fields_filled <- lift (Py.getitem fill_result "fields_filled") ;;
               fields_filled' <- lift (Py.getitem fill_result "fields_filled") ;;
               ret [("status", VStr "success");
                    ("email_subject", subject);
                    ("original_pdf", VStr pdf_path);
                    ("filled_pdf", output_path);
                    ("fields_filled", fields_filled);
                    ("pdf_base64",
                     dict_get_default fill_result "pdf_base64" (VStr ""));
                    ("download_instructions",
                     dict_get_default fill_result "download_instructions" (VStr ""));
                    ("message",
                     VStr ("✅ Successfully filled " ++ py_str fields_filled'
                           ++ " fields!"))])
    (fun e => ret (error_result "Processing failed: " e)).

End Operations.

(** ** Vocabulary of the properties *)

Module Spec.

(** The full English month names, January first. *)
Definition full_month_names : list string :=
  [ "january"; "february"; "march"; "april"; "may"; "june"; "july";
    "august"; "september"; "october"; "november"; "december" ].

(** The 2-digit form of a month number. *)
Definition two_digits (n : nat) : string :=
  if (n <? 10)%nat then "0" ++ pretty n else pretty n.

(** A name that contains "yr" or "year", whatever the case. *)
Definition year_like (name : string) : Prop :=
  Str.contains "yr" (Str.lower name) = true
  \/ Str.contains "year" (Str.lower name) = true.

Definition decimal_digits : list ascii :=
  [ "0"; "1"; "2"; "3"; "4"; "5"; "6"; "7"; "8"; "9" ]%char.

(** A digit: one of "0" to "9", or a character of several bytes that the
    Unicode database lists as a digit. *)
Definition digit (C : collaborators) (ch : string) : Prop :=
  (exists c, ch = String c EmptyString /\ c ∈ decimal_digits)
  \/ (1 < String.length ch /\ unicode_digit C ch = true).

(** A 4-digit all-numeric string: four characters, each a digit. *)
Definition four_digit (C : collaborators) (value : string) : Prop :=
  exists a b c d,
    Str.chars value = [a; b; c; d]
    /\ digit C a /\ digit C b /\ digit C c /\ digit C d.

(** A pair the year scan stops at. *)
Definition year_pair (C : collaborators) (name value : string) : Prop :=
  year_like name /\ four_digit C value.

Definition year_fields : list string := ["Year-1"; "Year-2"; "Year-3"; "Year-4"].

(** What the backfill leaves under a field of the table of defaults. *)
Definition backfilled (pv : strdict) (field default_value : string) : string :=
  match dict_get pv field with
  | Some v => if Str.truthy v then v else default_value
  | None => default_value
  end.

(** The widget number [j] of page [i]. *)
Definition widget_at (doc : document) (i j : nat) : option widget :=
  match doc !! i with
  | Some widgets => widgets !! j
  | None => None
  end.

(** The field names of a document. *)
Definition field_names (doc : document) : list string :=
  map field_name (concat doc).

(** What the commit makes of one widget: a widget named in the mapping
    holds what the library keeps of the value assigned to it. *)
Definition committed (C : collaborators) (pv : strdict) (w : widget) : widget :=
  match dict_get pv (field_name w) with
  | Some v =>
      {| field_name := field_name w;
         field_type_string := field_type_string w;
         field_value := held_value C (field_name w) (field_type_string w) v |}
  | None => w
  end.

(** The library keeps the string [v] as it is on the widget [w]. *)
Definition keeps (C : collaborators) (w : widget) (v : string) : Prop :=
  held_value C (field_name w) (field_type_string w) v = v.

(** The number of widgets whose name is a key of the mapping. *)
Definition updates (pv : strdict) (doc : document) : nat :=
  length (List.filter (fun w => dict_contains pv (field_name w)) (concat doc)).

(** *** The email payload *)

Definition is_dict (v : pyval) : bool :=
  match v with
  | VDict _ => true
  | _ => false
  end.

(** A part is a mapping whose filename, when it has one, is a string. *)
Definition is_part (part : pyval) : bool :=
  match part with
  | VDict q =>
      match dict_get_default q "filename" (VStr "") with
      | VStr _ => true
      | _ => false
      end
  | _ => false
  end.

(** A part is a PDF attachment when its filename ends in ".pdf". *)
Definition is_pdf_part (part : pyval) : bool :=
  match part with
  | VDict q =>
      match dict_get_default q "filename" (VStr "") with
      | VStr filename => Str.endswith filename ".pdf"
      | _ => false
      end
  | _ => false
  end.

(** The parts of a payload: what its "parts" entry runs over, an absent
    "payload" or "parts" standing for no part at all. *)
Definition payload_parts (email_data : pyval) : option (list pyval) :=
  match email_data with
  | VDict d =>
      match dict_get_default d "payload" (VDict []) with
      | VDict p =>
          match Py.iter (dict_get_default p "parts" (VList [])) with
          | Ok parts => Some parts
          | Raise _ => None
          end
      | _ => None
      end
  | _ => None
  end.

(** The structure the parser requires of a decoded payload: a mapping,
    whose sender and payload, when given, are mappings, and whose parts are
    a sequence of parts. *)
Definition well_formed (email_data : pyval) : bool :=
  match email_data with
  | VDict d =>
      is_dict (dict_get_default d "sender" (VDict []))
      && match payload_parts email_data with
         | Some parts => forallb is_part parts
         | None => false
         end
  | _ => false
  end.

Definition has_pdf_attachment (email_data : pyval) : bool :=
  match payload_parts email_data with
  | Some parts => existsb is_pdf_part parts
  | None => false
  end.

(** *** Results *)

(** A result whose status is "success". *)
Definition succeeded (r : result) : Prop :=
  dict_get r "status" = Some (VStr "success").

(** A result whose status is "error". *)
Definition failed (r : result) : Prop :=
  dict_get r "status" = Some (VStr "error").

End Spec.

(** ** A sample run: one email, one form *)

Module Example.

Definition email_url : string := "https://mail.example/email.json".

Definition drive_link : string :=
  "https://drive.google.com/uc?id=1AbC/contract.pdf".

(** [str(part)] for a part whose entries are strings. *)
Definition show_part (v : pyval) : string :=
  match v with
  | VDict entries =>
      "{" ++ fold_right (fun '(k, x) rest =>
                           "'" ++ k ++ "': '"
                           ++ match x with VStr s => s | _ => "" end
                           ++ "', " ++ rest) "}" entries
  | _ => ""
  end.

Definition email : pyval :=
  VDict [("sender", VDict [("email", VStr "agent@example.com")]);
         ("subject", VStr "Bill of sale");
         ("payload",
          VDict [("parts",
                  VList [VDict [("filename", VStr "contract.pdf");
                                ("link", VStr drive_link)]])])].

Definition form : document :=
  [ [ Widget "Print seller's name" "Text" "";
      Widget "Month" "Text" "";
      Widget "Notes" "Text" "keep" ];
    [ Widget "Seller print name 2" "Text" "";
      Widget "Year-1" "Text" "";
      Widget "Submit" "Button" "" ] ].

Definition blank : document := [ []; [] ].

Definition answers : strdict :=
  [("Print seller's name", "Jane Doe");
   ("Month", "March");
   ("Seller print name 2", "Jane Doe");
   ("Sale year", "2024")].

(** The digits of the Arabic-Indic script, U+0660 to U+0669: the
    characters of several bytes that the database of the sample run lists
    as digits. *)
Definition arabic_indic_digits : list string :=
  ["٠"; "١"; "٢"; "٣"; "٤"; "٥"; "٦"; "٧"; "٨"; "٩"].

(** The collaborators of the run: the email is served when [mail_up], the
    link yields the file [attachment], the provider answers when [llm_up]
    and the output can be written when [disk_ok]; a write that fails leaves
    a truncated file.  A check box is on when assigned "Yes" and off
    otherwise; the other widgets keep what they are assigned. *)
Definition world (mail_up : bool) (attachment : file) (llm_up disk_ok : bool)
  : collaborators :=
  {| httpx_get := fun follow_redirects url =>
       if String.eqb url email_url then
         if mail_up
         then Ok {| content := Unreadable 0; json := Ok email |}
         else Raise "timed out"
       else if String.eqb url drive_link then
         Ok {| content := attachment; json := Raise "not JSON" |}
       else Raise "connection refused";
     content_length := fun _ => 2048%Z;
     open_error := fun path => "cannot open " ++ path;
     write_error := fun path =>
       if Str.endswith path "_filled.pdf" && negb disk_ok
       then Some "No space left on device"
       else None;
     failed_write := fun path data old => Some (Unreadable 1);
     held_value := fun name type v =>
       if String.eqb type "CheckBox"
       then if String.eqb v "Yes" then "Yes" else "Off"
       else v;
     chat_completion := fun names =>
       if llm_up then Ok answers else Raise "rate limited";
     filled_path := fun path =>
       if Str.endswith path ".pdf"
       then Ok (substring 0 (String.length path - 4) path ++ "_filled.pdf")
       else Raise "invalid name";
     b64encode := fun _ => "JVBERi0xLjc=";
     py_repr := show_part;
     unicode_digit := fun ch => existsb (String.eqb ch) arabic_indic_digits |}.

Definition start : state := {| files := ∅; objects := [] |}.

(** A store that holds a caller's mapping and the form. *)
Definition office : state :=
  {| files := {[ "/tmp/mcp_pdfs/contract.pdf" := Pdf form ]};
     objects := [answers] |}.

Definition pdf_path : string := "/tmp/mcp_pdfs/contract.pdf".

(** A form with a check box, and a store that holds it with a caller's
    mapping for it. *)
Definition receipt : document :=
  [ [ Widget "Buyer" "Text" ""; Widget "Paid in full" "CheckBox" "Off" ] ].

Definition ticks : strdict :=
  [("Buyer", "John Roe"); ("Paid in full", "true")].

Definition till : state :=
  {| files := {[ pdf_path := Pdf receipt ]}; objects := [ticks] |}.

(** The file system once the attachment is downloaded. *)
Definition downloaded (attachment : file) : state :=
  {| files := <[pdf_path := attachment]> ∅; objects := [] |}.

(** The result of a stage of the run, [error] standing for a raise. *)
Definition result_of (run : res result * state) : result :=
  match fst run with
  | Ok r => r
  | Raise msg => [("raised", VStr msg)]
  end.

Definition happy : collaborators := world true (Pdf form) true true.

Definition parsed : result :=
  Eval vm_compute in result_of (_parse_email happy email_url start).

Definition fetched : result :=
  Eval vm_compute in result_of (_download_pdf happy drive_link start).

Definition inspected : result :=
  Eval vm_compute in
    result_of (_extract_form_fields happy pdf_path (downloaded (Pdf form))).

Definition inspected_fields : pyval :=
  Eval vm_compute in dict_get_default inspected "fields" VNone.

Definition names_to_fill : list string :=
  ["Print seller's name"; "Month"; "Notes"; "Seller print name 2"].

End Example.

(** ** Vocabulary of the further properties *)

Module Props.

(** Every character of [s] passes the test [p]. *)
Fixpoint all_chars (p : ascii -> bool) (s : string) : bool :=
  match s with
  | EmptyString => true
  | String c r => p c && all_chars p r
  end.

(** One of the letters a to z. *)
Definition lower_letter (x : ascii) : bool :=
  let n := nat_of_ascii x in (97 <=? n)%nat && (n <=? 122)%nat.

(** A storage-provider link: the prefix, then at least one character, none
    of them white space or a quote. *)
Definition is_link (url : string) : Prop :=
  exists tail,
    url = Links.link_prefix ++ tail
    /\ tail <> ""
    /\ all_chars (fun c => negb (Links.ends_link c)) tail = true.

(** What follows a link in the text: nothing, or white space or a quote. *)
Definition stops (post : string) : Prop :=
  match post with
  | EmptyString => True
  | String c _ => Links.ends_link c = true
  end.

(** The links one part contributes: those of its text, when it is a PDF
    attachment and its text mentions the storage provider. *)
Definition part_links (C : collaborators) (part : pyval) : list string :=
  if Spec.is_pdf_part part
     && Str.contains "drive.google.com" (py_str C part)
  then Links.findall (py_str C part)
  else [].

(** [w], at place [j] of page [i], is the last widget of that name in page
    order. *)
Definition last_named (doc : document) (name : string)
    (i j : nat) (w : widget) : Prop :=
  Spec.widget_at doc i j = Some w
  /\ field_name w = name
  /\ forall i' j' w',
       Spec.widget_at doc i' j' = Some w' -> field_name w' = name ->
       i' < i \/ (i' = i /\ j' <= j).

(** The test of the comprehension of step 4 on one name. *)
Definition fillable (fields : dict pyval) (name : string) : bool :=
  match dict_get fields name with
  | Some (VDict entry) =>
      match dict_get entry "type" with
      | Some type => Py.ne_str type "Button"
      | None => false
      end
  | _ => false
  end
  && negb (existsb (String.eqb name) excluded_patterns).

(** [pv] is the mapping [_fill_pdf_form] commits for the items of the
    caller's mapping: the outcome of the four passes, in order. *)
Definition normalized (C : collaborators) (items pv : strdict) : Prop :=
  exists pv1,
    Normalizer.split_year C (Normalizer.normalize_months items []) = Ok pv1
    /\ pv = Normalizer.clear_duplicate_seller (Normalizer.backfill_defaults pv1).

(** [d'] has the keys of [d], in their order, before any other. *)
Definition keeps_keys (d d' : strdict) : Prop :=
  exists extra, dict_keys d' = (dict_keys d ++ extra)%list.

(** What a caller of [_process_email_automation] can rely on: a status
    among "success", "error" and "info", a message, and on success the path
    of the filled document, the number of fields and the subject. *)
Definition reportable (r : result) : Prop :=
  (exists status,
      dict_get r "status" = Some (VStr status)
      /\ status ∈ ["success"; "error"; "info"])
  /\ is_Some (dict_get r "message")
  /\ (Spec.succeeded r ->
      is_Some (dict_get r "filled_pdf")
      /\ is_Some (dict_get r "fields_filled")
      /\ is_Some (dict_get r "email_subject")).

(** An error result, as every operation builds it. *)
Definition is_error (r : result) : Prop :=
  exists what msg, r = error_result what msg.

(** The subject of a decoded payload, empty when absent. *)
Definition subject_of (email_data : pyval) : pyval :=
  match email_data with
  | VDict d => dict_get_default d "subject" (VStr "")
  | _ => VStr ""
  end.

(** [m] returns only values that satisfy [Q]. *)
Definition returns {A} (m : M A) (Q : A -> Prop) : Prop :=
  forall st a st', m st = (Ok a, st') -> Q a.

End Props.

(** * Properties *)

(** ** Dictionaries *)

Section DictFacts.
Context {V : Type}.
Implicit Types (d : dict V) (k : string) (v : V).

Lemma dict_get_set_eq d k v : dict_get (dict_set d k v) k = Some v.
Proof.
  induction d as [|[k' v'] r IH]; simpl.
  - now rewrite String.eqb_refl.
  - destruct (String.eqb k' k) eqn:E; simpl; rewrite E; auto.
Qed.

Lemma dict_get_set_ne d k k' v :
  k <> k' -> dict_get (dict_set d k v) k' = dict_get d k'.
Proof.
  intros Hne. induction d as [|[k0 v0] r IH]; simpl.
  - apply String.eqb_neq in Hne. now rewrite Hne.
  - destruct (String.eqb k0 k) eqn:E; simpl.
    + apply String.eqb_eq in E. subst k0.
      apply String.eqb_neq in Hne. now rewrite Hne.
    + destruct (String.eqb k0 k'); auto.
Qed.

Lemma dict_get_set d k k' v :
  dict_get (dict_set d k v) k'
  = if String.eqb k k' then Some v else dict_get d k'.
Proof.
  destruct (String.eqb_spec k k') as [->|Hne].
  - apply dict_get_set_eq.
  - now apply dict_get_set_ne.
Qed.

Lemma dict_keys_cons k v d : dict_keys ((k, v) :: d) = k :: dict_keys d.
Proof. reflexivity. Qed.

Lemma dict_get_None d k : dict_get d k = None <-> k ∉ dict_keys d.
Proof.
  induction d as [|[k' v'] r IH]; cbn [dict_get].
  - unfold dict_keys; simpl. rewrite elem_of_nil. tauto.
  - rewrite dict_keys_cons, not_elem_of_cons.
    destruct (String.eqb_spec k' k) as [->|Hne].
    + split; [discriminate | tauto].
    + rewrite IH. split; [auto | tauto].
Qed.

Lemma dict_get_Some_elem d k v : dict_get d k = Some v -> (k, v) ∈ d.
Proof.
  induction d as [|[k' v'] r IH]; simpl; [discriminate|].
  rewrite elem_of_cons.
  destruct (String.eqb_spec k' k) as [->|Hne].
  - intros [= ->]. now left.
  - intros H. right. now apply IH.
Qed.

Lemma elem_dict_keys d k v : (k, v) ∈ d -> k ∈ dict_keys d.
Proof.
  intros H. unfold dict_keys.
  apply list_elem_of_In in H. apply list_elem_of_In.
  change (In (fst (k, v)) (map fst d)). now apply in_map.
Qed.

Lemma dict_get_elem d k v : dict_wf d -> (k, v) ∈ d -> dict_get d k = Some v.
Proof.
  unfold dict_wf.
  induction d as [|[k' v'] r IH]; cbn [dict_get].
  - rewrite elem_of_nil. tauto.
  - rewrite dict_keys_cons, NoDup_cons, elem_of_cons.
    intros [Hnotin Hnd] [Heq|Hin].
    + injection Heq as -> ->. now rewrite String.eqb_refl.
    + destruct (String.eqb_spec k' k) as [->|Hne].
      * exfalso. apply Hnotin. eapply elem_dict_keys; eauto.
      * now apply IH.
Qed.

Lemma dict_contains_elem d k : dict_contains d k = true <-> k ∈ dict_keys d.
Proof.
  unfold dict_contains. destruct (dict_get d k) eqn:E.
  - split; [intros _|reflexivity].
    eapply elem_dict_keys, dict_get_Some_elem; eauto.
  - apply dict_get_None in E. split; [discriminate|tauto].
Qed.

Lemma dict_set_fresh d k v :
  k ∉ dict_keys d -> dict_set d k v = (d ++ [(k, v)])%list.
Proof.
  induction d as [|[k' v'] r IH]; cbn [dict_set]; [reflexivity|].
  rewrite dict_keys_cons, not_elem_of_cons. intros [Hne Hnotin].
  destruct (String.eqb_spec k' k) as [->|_]; [congruence|].
  simpl. f_equal. now apply IH.
Qed.

Lemma dict_keys_set_present d k v :
  k ∈ dict_keys d -> dict_keys (dict_set d k v) = dict_keys d.
Proof.
  induction d as [|[k' v'] r IH]; cbn [dict_set].
  - unfold dict_keys; simpl. rewrite elem_of_nil. tauto.
  - rewrite dict_keys_cons, elem_of_cons. intros Hin.
    destruct (String.eqb_spec k' k) as [->|Hne]; [reflexivity|].
    rewrite !dict_keys_cons. f_equal. apply IH.
    destruct Hin; [congruence|assumption].
Qed.

Lemma dict_keys_set d k v :
  dict_keys (dict_set d k v)
  = if dict_contains d k then dict_keys d else (dict_keys d ++ [k])%list.
Proof.
  destruct (dict_contains d k) eqn:E.
  - apply dict_keys_set_present. now apply dict_contains_elem.
  - rewrite dict_set_fresh.
    + unfold dict_keys. now rewrite map_app.
    + intros Hin. apply dict_contains_elem in Hin. congruence.
Qed.

Lemma dict_set_wf d k v : dict_wf d -> dict_wf (dict_set d k v).
Proof.
  unfold dict_wf. intros Hwf. rewrite dict_keys_set.
  destruct (dict_contains d k) eqn:E; [assumption|].
  apply NoDup_app. repeat split; auto.
  - intros x Hx ->%list_elem_of_singleton.
    apply dict_contains_elem in Hx. congruence.
  - apply NoDup_singleton.
Qed.
End DictFacts.

(** ** Month normalization *)

Section MonthFacts.
Import Normalizer.

Lemma fold_dict_set_fresh {V} (f : string -> V -> V) (l acc : dict V) :
  NoDup (dict_keys acc ++ dict_keys l)%list ->
  fold_left (fun pv '(key, value) => dict_set pv key (f key value)) l acc
  = (acc ++ map (fun '(key, value) => (key, f key value)) l)%list.
Proof.
  revert acc. induction l as [|[k v] l IH]; intros acc Hnd; simpl.
  - now rewrite app_nil_r.
  - rewrite dict_keys_cons in Hnd.
    assert (Hk : k ∉ dict_keys acc).
    { apply NoDup_app in Hnd as (_ & Hdisj & _).
      intros Hin. apply (Hdisj _ Hin). now left. }
    rewrite (dict_set_fresh acc k _ Hk), IH.
    + now rewrite <- app_assoc.
    + unfold dict_keys in *. rewrite map_app. simpl.
      rewrite <- app_assoc. exact Hnd.
Qed.

Lemma normalize_months_map (field_values : strdict) :
  dict_wf field_values ->
  normalize_months field_values []
  = map (fun '(key, value) => (key, month_value key value)) field_values.
Proof.
  intros Hwf. unfold normalize_months.
  now rewrite (fold_dict_set_fresh month_value).
Qed.

Lemma month_map_keys : dict_keys month_map = Spec.full_month_names.
Proof. reflexivity. Qed.

Lemma month_name_cases (s : string) :
  s ∈ Spec.full_month_names ->
  s = "january" \/ s = "february" \/ s = "march" \/ s = "april"
  \/ s = "may" \/ s = "june" \/ s = "july" \/ s = "august"
  \/ s = "september" \/ s = "october" \/ s = "november" \/ s = "december".
Proof.
  unfold Spec.full_month_names.
  rewrite !elem_of_cons, elem_of_nil. tauto.
Qed.

Lemma month_value_hit key value i :
  Str.contains "month" (Str.lower key) = true ->
  Spec.full_month_names !! i = Some (Str.lower value) ->
  month_value key value = Spec.two_digits (S i).
Proof.
  intros Hk Hi. unfold month_value, str. rewrite Hk.
  do 12 (destruct i as [|i]; [injection Hi as <-; reflexivity|]).
  discriminate.
Qed.

Lemma month_value_miss key value :
  Str.contains "month" (Str.lower key) = false
  \/ Str.lower value ∉ Spec.full_month_names ->
  month_value key value = value.
Proof.
  intros [Hk|Hv]; unfold month_value, str.
  - now rewrite Hk.
  - destruct (dict_contains month_map (Str.lower value)) eqn:E.
    + apply dict_contains_elem in E. rewrite month_map_keys in E. tauto.
    + now rewrite andb_false_r.
Qed.

Lemma month_value_idem key value :
  month_value key (month_value key value) = month_value key value.
Proof.
  unfold month_value at 2. unfold str.
  destruct (Str.contains "month" (Str.lower key)) eqn:Hk; simpl.
  - destruct (dict_contains month_map (Str.lower value)) eqn:E.
    + apply dict_contains_elem in E. rewrite month_map_keys in E.
      apply month_name_cases in E.
      unfold month_value, str. rewrite Hk.
      repeat (destruct E as [E|E]; [rewrite E; reflexivity|]).
      rewrite E; reflexivity.
    + unfold month_value, str. now rewrite Hk, E.
  - unfold month_value. now rewrite Hk.
Qed.

Lemma map_month_keys (d : strdict) :
  dict_keys (map (fun '(key, value) => (key, month_value key value)) d)
  = dict_keys d.
Proof.
  unfold dict_keys. rewrite map_map. apply map_ext. now intros [k v].
Qed.
End MonthFacts.

(** C5. On a mapping [field_values], the month pass keeps the keys and their
    order; a pair whose name contains "month" (whatever the case) and whose
    lower-cased value is the [i]-th full English month name gets the 2-digit
    number of that month; every other pair keeps its value; running the pass
    on its own output changes nothing. *)
Theorem month_normalization (field_values : strdict) :
  dict_wf field_values ->
  let out := Normalizer.normalize_months field_values [] in
  dict_keys out = dict_keys field_values
  /\ (forall name value, (name, value) ∈ field_values ->
        (forall i, Str.contains "month" (Str.lower name) = true ->
                   Spec.full_month_names !! i = Some (Str.lower value) ->
                   dict_get out name = Some (Spec.two_digits (S i)))
        /\ (Str.contains "month" (Str.lower name) = false
            \/ Str.lower value ∉ Spec.full_month_names ->
            dict_get out name = Some value))
  /\ Normalizer.normalize_months out [] = out.
Proof.
  intros Hwf out. subst out.
  rewrite (normalize_months_map _ Hwf).
  assert (Hwf' : dict_wf (map (fun '(key, value) =>
                                 (key, Normalizer.month_value key value))
                              field_values)).
  { unfold dict_wf. now rewrite map_month_keys. }
  split; [apply map_month_keys|]. split.
  - intros name value Hin.
    assert (Hget : dict_get
                     (map (fun '(key, value) =>
                             (key, Normalizer.month_value key value))
                          field_values) name
                   = Some (Normalizer.month_value name value)).
    { apply dict_get_elem; [exact Hwf'|].
      apply list_elem_of_In, in_map_iff. exists (name, value).
      split; [reflexivity|]. now apply list_elem_of_In. }
    split.
    + intros i Hk Hi. rewrite Hget. f_equal. now apply month_value_hit.
    + intros Hmiss. rewrite Hget. f_equal. now apply month_value_miss.
  - rewrite (normalize_months_map _ Hwf'), map_map.
    apply map_ext. intros [k v]. now rewrite month_value_idem.
Qed.

(** The scenario of the specification: ["Month": "March"] becomes
    ["Month": "03"]. *)
Lemma month_normalization_witness :
  let fv := [("Month", "March"); ("Seller", "May")] in
  dict_wf fv
  /\ Normalizer.normalize_months fv [] = [("Month", "03"); ("Seller", "May")]
  /\ Normalizer.normalize_months (Normalizer.normalize_months fv []) []
     = Normalizer.normalize_months fv [].
Proof.
  assert (Hwf : dict_wf [("Month", "March"); ("Seller", "May")]).
  { unfold dict_wf. apply NoDup_ListNoDup. simpl.
    repeat constructor; simpl; intuition discriminate. }
  split; [exact Hwf|]. split; [reflexivity|].
  exact (proj2 (proj2 (month_normalization _ Hwf))).
Defined.
(** ** Characters of a string *)

Section CharFacts.
Lemma append_empty_r s : s ++ "" = s.
Proof.
  induction s as [|c s IH]; [reflexivity|].
  change (String c s ++ "") with (String c (s ++ "")). now rewrite IH.
Qed.

Lemma chars_nil s : Str.chars s = [] -> s = "".
Proof.
  destruct s as [|c r]; [reflexivity|]. cbn [Str.chars].
  destruct (Str.chars r) as [|ch rest]; [discriminate|].
  now destruct (Str.continues r).
Qed.

(** The characters of a string are its bytes, cut into runs. *)
Lemma chars_join s : fold_right append "" (Str.chars s) = s.
Proof.
  induction s as [|c r IH]; [reflexivity|]. cbn [Str.chars].
  destruct (Str.chars r) as [|ch rest] eqn:E.
  - now rewrite (chars_nil r E).
  - cbn [fold_right] in IH.
    destruct (Str.continues r); cbn [fold_right]; now rewrite <- IH.
Qed.

Lemma chars_nonempty s ch : ch ∈ Str.chars s -> ch <> "".
Proof.
  revert ch. induction s as [|c r IH]; intros ch; cbn [Str.chars].
  - now intros ?%elem_of_nil.
  - destruct (Str.chars r) as [|ch' rest].
    + intros ->%list_elem_of_singleton. discriminate.
    + destruct (Str.continues r).
      * intros [->|Hin]%elem_of_cons; [discriminate|].
        apply IH. now right.
      * intros [->|Hin]%elem_of_cons; [discriminate|]. now apply IH.
Qed.
End CharFacts.

(** ** Year decomposition *)

Section YearFacts.
Import Normalizer.
Variable C : collaborators.

Lemma is_year_key_spec key : is_year_key key = true <-> Spec.year_like key.
Proof. unfold is_year_key, Spec.year_like. apply orb_true_iff. Qed.

Lemma is_digit_char_spec c :
  Str.is_digit_char c = true <-> c ∈ Spec.decimal_digits.
Proof.
  unfold Spec.decimal_digits. rewrite !elem_of_cons, elem_of_nil.
  destruct c as [[] [] [] [] [] [] [] []]; vm_compute;
    (split; [first [discriminate | tauto] | ]);
    intuition discriminate.
Qed.

Lemma is_digit_spec ch :
  ch <> "" ->
  Str.is_digit (unicode_digit C) ch = true <-> Spec.digit C ch.
Proof.
  intros Hne. unfold Spec.digit.
  destruct ch as [|c [|c' r]]; [congruence| |]; cbn [Str.is_digit].
  - rewrite is_digit_char_spec. split.
    + intros Hc. left. now exists c.
    + intros [(c0 & [= <-] & Hc) | [Hlen _]]; [exact Hc|].
      cbn in Hlen. lia.
  - split.
    + intros Hdb. right. split; [cbn; lia | exact Hdb].
    + intros [(c0 & [=] & _) | [_ Hdb]]. exact Hdb.
Qed.

Lemma is_year_value_spec value :
  is_year_value C value = true <-> Spec.four_digit C value.
Proof.
  unfold is_year_value, str, Spec.four_digit, Str.len, Str.isdigit.
  pose proof (chars_nonempty value) as Hne. split.
  - intros [Hlen Hdig]%andb_true_iff. apply Nat.eqb_eq in Hlen.
    destruct (Str.chars value) as [|a [|b [|c [|d [|e r]]]]];
      try discriminate.
    cbn [forallb] in Hdig.
    apply andb_true_iff in Hdig as [Ha Hdig].
    apply andb_true_iff in Hdig as [Hb Hdig].
    apply andb_true_iff in Hdig as [Hc Hdig].
    apply andb_true_iff in Hdig as [Hd _].
    exists a, b, c, d. split; [reflexivity|].
    rewrite <- !is_digit_spec by (apply Hne; set_solver). auto.
  - intros (a & b & c & d & Hchars & Ha & Hb & Hc & Hd).
    rewrite Hchars in *.
    apply is_digit_spec in Ha, Hb, Hc, Hd; try (apply Hne; set_solver).
    cbn [length forallb]. now rewrite Ha, Hb, Hc, Hd.
Qed.

Lemma scan_year_hit key value rest current_year :
  Spec.year_pair C key value ->
  scan_year C ((key, value) :: rest) current_year = value.
Proof.
  intros [Hk Hv]. cbn [scan_year].
  apply is_year_key_spec in Hk. apply is_year_value_spec in Hv.
  now rewrite Hk, Hv.
Qed.

Lemma scan_year_skip before rest current_year :
  (forall n v, (n, v) ∈ before -> ~ Spec.year_pair C n v) ->
  scan_year C (before ++ rest)%list current_year
  = scan_year C rest current_year.
Proof.
  induction before as [|[k v] before IH]; intros Hnone; [reflexivity|].
  cbn [app scan_year].
  assert (Hrest : scan_year C (before ++ rest)%list current_year
                  = scan_year C rest current_year).
  { apply IH. intros n w Hin. apply Hnone. now right. }
  destruct (is_year_key k) eqn:Hk; [|exact Hrest].
  destruct (is_year_value C v) eqn:Hv; [|exact Hrest].
  exfalso. apply (Hnone k v); [now left|].
  split; [now apply is_year_key_spec | now apply is_year_value_spec].
Qed.

Lemma scan_year_four_digit items current_year :
  Spec.four_digit C current_year ->
  Spec.four_digit C (scan_year C items current_year).
Proof.
  intros Hd. induction items as [|[k v] items IH]; cbn [scan_year];
    [exact Hd|].
  destruct (is_year_key k); [|exact IH].
  destruct (is_year_value C v) eqn:Hv; [|exact IH].
  now apply is_year_value_spec.
Qed.

Lemma default_year_four_digit : Spec.four_digit C "2025".
Proof. apply is_year_value_spec. reflexivity. Qed.

Lemma split_year_chars pv a b c d :
  Str.chars (scan_year C pv "2025") = [a; b; c; d] ->
  split_year C pv
  = Ok (dict_set (dict_set (dict_set (dict_set pv
          "Year-1" a) "Year-2" b) "Year-3" c) "Year-4" d).
Proof.
  intros H. unfold split_year, year_char, Str.index. now rewrite H.
Qed.

Lemma split_year_total pv : exists out, split_year C pv = Ok out.
Proof.
  destruct (scan_year_four_digit pv "2025" default_year_four_digit)
    as (a & b & c & d & HY & _).
  eexists. apply split_year_chars. exact HY.
Qed.
End YearFacts.

(** C2. The year pass on a mapping [pv]: the canonical year [Y] is the value
    of the first pair, in the order of the mapping, whose name contains "yr"
    or "year" (whatever the case) and whose value is a 4-digit all-numeric
    string, and "2025" when there is no such pair; [Y] is made of four
    characters; the pass does not raise, sets [Year-1] .. [Year-4] to these
    characters in order whatever the keys held, and leaves every other key
    as it was. *)
Theorem year_decomposition (C : collaborators) (pv : strdict) :
  exists a b c d out,
    let Y := Normalizer.scan_year C pv "2025" in
    Str.chars Y = [a; b; c; d]
    /\ Y = a ++ b ++ c ++ d
    /\ (forall before name value after,
          pv = (before ++ (name, value) :: after)%list ->
          Spec.year_pair C name value ->
          (forall n v, (n, v) ∈ before -> ~ Spec.year_pair C n v) ->
          Y = value)
    /\ ((forall n v, (n, v) ∈ pv -> ~ Spec.year_pair C n v) -> Y = "2025")
    /\ Normalizer.split_year C pv = Ok out
    /\ dict_get out "Year-1" = Some a
    /\ dict_get out "Year-2" = Some b
    /\ dict_get out "Year-3" = Some c
    /\ dict_get out "Year-4" = Some d
    /\ (forall k, k ∉ Spec.year_fields -> dict_get out k = dict_get pv k).
Proof.
  destruct (scan_year_four_digit C pv "2025" (default_year_four_digit C))
    as (a & b & c & d & HY & _).
  exists a, b, c, d. eexists. cbn zeta.
  split; [exact HY|]. split; [|split; [|split; [|split]]].
  - rewrite <- (chars_join (Normalizer.scan_year C pv "2025")) at 1.
    rewrite HY. cbn [fold_right]. now rewrite append_empty_r.
  - intros before name value after -> Hpair Hnone.
    rewrite scan_year_skip by exact Hnone.
    now apply scan_year_hit.
  - intros Hnone.
    rewrite <- (app_nil_r pv), scan_year_skip by exact Hnone. reflexivity.
  - apply split_year_chars. exact HY.
  - rewrite !dict_get_set. cbn. repeat split.
    intros k Hk. unfold Spec.year_fields in Hk.
    rewrite !not_elem_of_cons in Hk. destruct Hk as (H1 & H2 & H3 & H4 & _).
    rewrite !dict_get_set.
    apply not_eq_sym, String.eqb_neq in H1, H2, H3, H4.
    now rewrite H1, H2, H3, H4.
Qed.

(** A year written in the digits of another script is taken as well, and
    split into its characters. *)
Example year_decomposition_arabic_indic :
  Normalizer.split_year Example.happy [("Sale year", "٢٠٣١"); ("Year", "2024")]
  = Ok [("Sale year", "٢٠٣١"); ("Year", "2024");
        ("Year-1", "٢"); ("Year-2", "٠"); ("Year-3", "٣"); ("Year-4", "١")].
Proof. reflexivity. Qed.

(** ** Default backfill *)

Section BackfillFacts.
Import Normalizer.

Lemma backfill_step_get pv field default_value k :
  dict_get (backfill_step pv (field, default_value)) k
  = if String.eqb field k then Some (Spec.backfilled pv field default_value)
    else dict_get pv k.
Proof.
  unfold backfill_step, Spec.backfilled, not_get, dict_contains.
  destruct (dict_get pv field) as [v|] eqn:E; simpl.
  - destruct (Str.truthy v); simpl.
    + destruct (String.eqb_spec field k) as [<-|_]; [exact E|reflexivity].
    + apply dict_get_set.
  - apply dict_get_set.
Qed.

Lemma truthy_nonempty v : v <> "" -> Str.truthy v = true.
Proof. destruct v; [congruence|reflexivity]. Qed.

Lemma backfilled_missing pv field default_value :
  dict_get pv field = None \/ dict_get pv field = Some "" ->
  Spec.backfilled pv field default_value = default_value.
Proof. unfold Spec.backfilled. now intros [-> | ->]. Qed.

Lemma backfilled_present pv field default_value v :
  dict_get pv field = Some v -> v <> "" ->
  Spec.backfilled pv field default_value = v.
Proof.
  unfold Spec.backfilled. intros -> Hv. now rewrite truthy_nonempty.
Qed.
End BackfillFacts.

(** C4. For every mapping and every entry of the table of defaults, after
    the backfill the field holds the default when the mapping had no entry or
    an empty value for it, and holds the value it had when that value was
    present and not empty; keys outside the table are not touched.  The
    table is the one of Month, Day, Seller State, Buyer State, Sell zip,
    Buyer zip, Sell date 1 and Sell date 2. *)
Theorem default_backfill (pv : strdict) (field default_value : string) :
  (field, default_value) ∈ Normalizer.defaults ->
  let out := Normalizer.backfill_defaults pv in
  (dict_get pv field = None \/ dict_get pv field = Some "" ->
   dict_get out field = Some default_value)
  /\ (forall v, dict_get pv field = Some v -> v <> "" ->
                dict_get out field = Some v)
  /\ (forall k, k ∉ dict_keys Normalizer.defaults ->
                dict_get out k = dict_get pv k)
  /\ dict_keys Normalizer.defaults
     = [ "Month"; "Day"; "Seller State"; "Buyer State"; "Sell zip";
         "Buyer zip"; "Sell date 1"; "Sell date 2" ].
Proof.
  intros Hin out. subst out.
  assert (Hfield : dict_get (Normalizer.backfill_defaults pv) field
                   = Some (Spec.backfilled pv field default_value)).
  { unfold Normalizer.backfill_defaults, Normalizer.defaults in *.
    rewrite !elem_of_cons, elem_of_nil in Hin. cbn [fold_left].
    unfold Spec.backfilled.
    repeat (destruct Hin as [Hin|Hin];
            [injection Hin as -> ->;
             rewrite !backfill_step_get; cbn [String.eqb Ascii.eqb Bool.eqb];
             unfold Spec.backfilled; rewrite ?backfill_step_get;
             cbn [String.eqb Ascii.eqb Bool.eqb]; reflexivity|]).
    contradiction. }
  split; [|split; [|split]].
  - intros H. rewrite Hfield. f_equal. now apply backfilled_missing.
  - intros v Hv Hne. rewrite Hfield. f_equal. now apply backfilled_present.
  - intros k Hk. unfold Normalizer.backfill_defaults, Normalizer.defaults in *.
    cbn [dict_keys map fst] in Hk. rewrite !not_elem_of_cons in Hk.
    cbn [fold_left]. rewrite !backfill_step_get.
    repeat (destruct Hk as [Hne Hk];
            apply not_eq_sym, String.eqb_neq in Hne; rewrite Hne; clear Hne).
    reflexivity.
  - reflexivity.
Qed.

(** A mapping with an empty month and a day already given. *)
Lemma default_backfill_witness :
  let pv := [("Month", ""); ("Day", "07")] in
  ("Month", "03") ∈ Normalizer.defaults
  /\ dict_get (Normalizer.backfill_defaults pv) "Month" = Some "03"
  /\ dict_get (Normalizer.backfill_defaults pv) "Day" = Some "07".
Proof.
  assert (Hin : ("Month", "03") ∈ Normalizer.defaults) by (now left).
  split; [exact Hin|]. split.
  - apply (proj1 (default_backfill [("Month", ""); ("Day", "07")] _ _ Hin)).
    now right.
  - reflexivity.
Defined.

(** ** Duplicate-row suppression *)

Section SuffixFacts.
Lemma endswith_unfold s suffix :
  Str.endswith s suffix
  = if String.eqb s suffix then true
    else match s with
         | EmptyString => false
         | String _ r => Str.endswith r suffix
         end.
Proof. destruct s; reflexivity. Qed.

Lemma endswith_spec s suffix :
  Str.endswith s suffix = true <-> exists stem, s = stem ++ suffix.
Proof.
  split.
  - induction s as [|c r IH]; rewrite endswith_unfold.
    + destruct (String.eqb_spec "" suffix) as [<-|_]; [|discriminate].
      intros _. now exists "".
    + destruct (String.eqb_spec (String c r) suffix) as [<-|_].
      * intros _. now exists "".
      * intros [stem ->]%IH. now exists (String c stem).
  - intros [stem ->]. induction stem as [|c stem IH]; rewrite endswith_unfold.
    + change ("" ++ suffix) with suffix. now rewrite String.eqb_refl.
    + change (String c stem ++ suffix) with (String c (stem ++ suffix)).
      destruct (String.eqb (String c (stem ++ suffix)) suffix); [reflexivity|].
      exact IH.
Qed.
End SuffixFacts.

Section DuplicateFacts.
Import Normalizer.

Lemma clear_second_row_get keys pv k :
  dict_get (clear_second_row keys pv) k
  = if existsb (String.eqb k) keys && Str.endswith k " 2" then Some ""
    else dict_get pv k.
Proof.
  unfold clear_second_row.
  revert pv. induction keys as [|key rest IH]; intros pv; simpl; [reflexivity|].
  rewrite IH.
  destruct (String.eqb_spec k key) as [->|Hne]; simpl.
  - destruct (Str.endswith key " 2") eqn:He.
    + rewrite andb_true_r, dict_get_set_eq. now destruct (existsb _ rest).
    + now rewrite andb_false_r.
  - destruct (existsb (String.eqb k) rest && Str.endswith k " 2");
      [reflexivity|].
    destruct (Str.endswith key " 2"); [|reflexivity].
    apply dict_get_set_ne. congruence.
Qed.

Lemma clear_second_row_keys keys pv :
  (forall k, k ∈ keys -> k ∈ dict_keys pv) ->
  dict_keys (clear_second_row keys pv) = dict_keys pv.
Proof.
  unfold clear_second_row.
  revert pv. induction keys as [|key rest IH]; intros pv Hsub; simpl;
    [reflexivity|].
  assert (Hkey : key ∈ dict_keys pv) by (apply Hsub; now left).
  assert (Hrest : forall k, k ∈ rest -> k ∈ dict_keys pv)
    by (intros k Hk; apply Hsub; now right).
  destruct (Str.endswith key " 2").
  - rewrite IH; rewrite dict_keys_set_present; auto.
  - now apply IH.
Qed.

Lemma existsb_eqb_elem k keys :
  k ∈ keys -> existsb (String.eqb k) keys = true.
Proof.
  intros Hin. apply existsb_exists. exists k.
  split; [now apply list_elem_of_In | apply String.eqb_refl].
Qed.

Lemma duplicate_row_spec pv :
  duplicate_row pv = true
  <-> second_seller pv = "" \/ second_seller pv = first_seller pv.
Proof.
  unfold duplicate_row. rewrite orb_true_iff, String.eqb_eq.
  destruct (second_seller pv); simpl; intuition discriminate.
Qed.
End DuplicateFacts.

(** C3. Let [secondary] be the value under "Seller print name 2" (empty when
    absent) and [primary] the value under "Print seller's name", or under
    "Seller print name 1" when the former is empty or absent.  When
    [secondary] is empty or equal to [primary], the pass keeps the keys, sets
    every key that ends with " 2" to the empty string whatever it held, and
    leaves the other keys as they were; otherwise it changes nothing. *)
Theorem duplicate_row_suppression (pv : strdict) :
  let secondary := dict_get_default pv "Seller print name 2" "" in
  let primary :=
    match dict_get_default pv "Print seller's name" "" with
    | EmptyString => dict_get_default pv "Seller print name 1" ""
    | name => name
    end in
  let out := Normalizer.clear_duplicate_seller pv in
  (secondary = "" \/ secondary = primary ->
   dict_keys out = dict_keys pv
   /\ forall k, k ∈ dict_keys pv ->
        ((exists stem, k = stem ++ " 2") -> dict_get out k = Some "")
        /\ ((~ exists stem, k = stem ++ " 2") -> dict_get out k = dict_get pv k))
  /\ (secondary <> "" /\ secondary <> primary -> out = pv).
Proof.
  intros secondary primary out.
  assert (Hprimary : primary = Normalizer.first_seller pv).
  { subst primary. unfold Normalizer.first_seller, Str.or_.
    now destruct (dict_get_default pv "Print seller's name" ""). }
  assert (Hdup : Normalizer.duplicate_row pv = true
                 <-> secondary = "" \/ secondary = primary).
  { rewrite Hprimary. apply duplicate_row_spec. }
  subst out. unfold Normalizer.clear_duplicate_seller. split.
  - intros Hcond. apply Hdup in Hcond. rewrite Hcond. split.
    + now apply clear_second_row_keys.
    + intros k Hk. rewrite clear_second_row_get, (existsb_eqb_elem _ _ Hk).
      simpl. split.
      * intros Hends%endswith_spec. now rewrite Hends.
      * intros Hends. destruct (Str.endswith k " 2") eqn:E; [|reflexivity].
        exfalso. apply Hends. now apply endswith_spec.
  - intros [Hne1 Hne2].
    destruct (Normalizer.duplicate_row pv); [|reflexivity].
    destruct (proj1 Hdup eq_refl); contradiction.
Qed.

(** ** The commit of [_fill_pdf_form] *)

Section CommitFacts.
Variable C : collaborators.

Lemma fill_page_spec pv widgets n :
  fill_page C pv widgets n
  = (map (Spec.committed C pv) widgets,
     n + length (List.filter (fun w => dict_contains pv (field_name w)) widgets)).
Proof.
  revert n. induction widgets as [|w rest IH]; intros n; simpl.
  - f_equal. lia.
  - unfold Spec.committed at 1, dict_contains at 1, set_field_value,
      Normalizer.str.
    destruct (dict_get pv (field_name w)); rewrite IH; simpl; f_equal; lia.
Qed.

Lemma fill_pages_spec pv doc n :
  fill_pages C pv doc n
  = (map (map (Spec.committed C pv)) doc, n + Spec.updates pv doc).
Proof.
  unfold Spec.updates.
  revert n. induction doc as [|widgets rest IH]; intros n; simpl.
  - f_equal. lia.
  - rewrite fill_page_spec, IH. f_equal.
    rewrite List.filter_app, length_app. lia.
Qed.

Lemma lookup_map {A B} (f : A -> B) (l : list A) (i : nat) :
  map f l !! i = f <$> l !! i.
Proof.
  revert i. induction l as [|x l IH]; intros [|i]; simpl; auto.
Qed.

Lemma widget_at_committed pv doc i j :
  Spec.widget_at (map (map (Spec.committed C pv)) doc) i j
  = Spec.committed C pv <$> Spec.widget_at doc i j.
Proof.
  unfold Spec.widget_at. rewrite lookup_map.
  destruct (doc !! i) as [widgets|]; simpl; [|reflexivity].
  apply lookup_map.
Qed.
End CommitFacts.

(** ** Runs of [_fill_pdf_form] *)

Section FillRun.
Variable C : collaborators.

Lemma lookup_new_object (l : list strdict) (d : strdict) :
  (l ++ [d])%list !! length l = Some d.
Proof. rewrite lookup_app_r by lia. now rewrite Nat.sub_diag. Qed.

Lemma insert_new_object (l : list strdict) (d d' : strdict) :
  <[length l := d']> (l ++ [d])%list = (l ++ [d'])%list.
Proof.
  rewrite insert_app_r_alt by lia. now rewrite Nat.sub_diag.
Qed.

Lemma read_past_new_object (l : list strdict) (fv : nat) :
  default [] ((l ++ [[]])%list !! fv) = default [] (l !! fv).
Proof.
  destruct (decide (fv < length l)) as [Hlt|Hge].
  - now rewrite lookup_app_l.
  - rewrite (lookup_ge_None_2 l fv) by lia.
    rewrite lookup_app_r by lia.
    destruct (fv - length l) as [|n]; [reflexivity|].
    now destruct n.
Qed.


(** A run on a readable document whose output can be written: the mapping
    committed is the outcome of the four passes on the items of the
    caller's mapping, held by a new object of the store. *)
Lemma fill_pdf_form_run st pdf_path field_values doc output_path :
  files st !! pdf_path = Some (Pdf doc) ->
  filled_path C pdf_path = Ok output_path ->
  write_error C output_path = None ->
  exists pv1 pv,
    Normalizer.split_year C
      (Normalizer.normalize_months (default [] (objects st !! field_values)) [])
    = Ok pv1
    /\ pv = Normalizer.clear_duplicate_seller (Normalizer.backfill_defaults pv1)
    /\ _fill_pdf_form C pdf_path field_values st
       = (Ok [("status", VStr "success");
              ("message",
               VStr ("Filled " ++ pretty (Spec.updates pv doc) ++ " fields"));
              ("output_path", VStr output_path);
              ("fields_filled", VInt (Z.of_nat (Spec.updates pv doc)));
              ("pdf_base64",
               VStr (b64encode C (Pdf (map (map (Spec.committed C pv)) doc))));
              ("download_instructions",
               VStr "Decode pdf_base64 from base64 and save as .pdf")],
          {| files := <[output_path := Pdf (map (map (Spec.committed C pv)) doc)]>
                        (files st);
             objects := (objects st ++ [pv])%list |}).
Proof.
  intros Hfile Hpath Hwrite.
  destruct (split_year_total C
              (Normalizer.normalize_months
                 (default [] (objects st !! field_values)) []))
    as [pv1 Hpv1].
  exists pv1. eexists. split; [exact Hpv1|]. split; [reflexivity|].
  unfold _fill_pdf_form, try_except, bind, pymupdf_open.
  rewrite Hfile.
  unfold new_object, read_object, update_object, lift, write_file, read_file, ret.
  cbn [files objects].
  rewrite read_past_new_object, lookup_new_object. cbn [from_option id].
  rewrite insert_new_object, lookup_new_object. cbn [from_option id].
  rewrite Hpv1.
  cbn [files objects].
  rewrite insert_new_object, lookup_new_object. cbn [from_option id].
  rewrite insert_new_object, lookup_new_object. cbn [from_option id].
  rewrite insert_new_object, lookup_new_object. cbn [from_option id].
  rewrite fill_pages_spec, Hpath, Hwrite.
  cbn [files objects]. rewrite lookup_insert_eq.
  reflexivity.
Qed.
End FillRun.

Section FillObjects.
Variable C : collaborators.

(** Whatever the outcome, the store afterwards is the store before with
    new objects after it. *)
Lemma fill_pdf_form_objects st pdf_path field_values :
  exists extra,
    objects (snd (_fill_pdf_form C pdf_path field_values st))
    = (objects st ++ extra)%list.
Proof.
  unfold _fill_pdf_form, try_except, bind, pymupdf_open.
  destruct (files st !! pdf_path) as [[doc|tag]|];
    [|exists []; cbn; now rewrite app_nil_r ..].
  destruct (split_year_total C
              (Normalizer.normalize_months
                 (default [] (objects st !! field_values)) []))
    as [pv1 Hpv1].
  unfold new_object, read_object, update_object, lift, write_file, read_file, ret.
  cbn [files objects].
  rewrite read_past_new_object, lookup_new_object. cbn [from_option id].
  rewrite insert_new_object, lookup_new_object. cbn [from_option id].
  rewrite Hpv1.
  cbn [files objects].
  rewrite insert_new_object, lookup_new_object. cbn [from_option id].
  rewrite insert_new_object, lookup_new_object. cbn [from_option id].
  rewrite insert_new_object, lookup_new_object. cbn [from_option id].
  rewrite fill_pages_spec.
  destruct (filled_path C pdf_path) as [output_path|msg]; [|cbn; eauto].
  destruct (write_error C output_path) as [msg|]; [cbn; eauto|].
  cbn [files objects]. rewrite lookup_insert_eq. cbn. eauto.
Qed.
End FillObjects.

(** C8. On a readable document whose output can be written, [_fill_pdf_form]
    succeeds and saves under the output path a document with a widget exactly
    where the source has one; a widget whose name is not a key of the
    mapping after normalization (the new object [pv] of the store) is there
    as it was, so a widget that differs has its name among the keys. *)
Theorem commit_frame (C : collaborators) (st : state)
    (pdf_path : string) (field_values : nat)
    (doc : document) (output_path : string) :
  files st !! pdf_path = Some (Pdf doc) ->
  filled_path C pdf_path = Ok output_path ->
  write_error C output_path = None ->
  exists r st' pv doc',
    _fill_pdf_form C pdf_path field_values st = (Ok r, st')
    /\ dict_get r "status" = Some (VStr "success")
    /\ dict_get r "output_path" = Some (VStr output_path)
    /\ objects st' = (objects st ++ [pv])%list
    /\ files st' !! output_path = Some (Pdf doc')
    /\ forall i j,
         (Spec.widget_at doc' i j = None <-> Spec.widget_at doc i j = None)
         /\ forall w, Spec.widget_at doc i j = Some w ->
              (field_name w ∉ dict_keys pv -> Spec.widget_at doc' i j = Some w)
              /\ (Spec.widget_at doc' i j <> Some w ->
                  field_name w ∈ dict_keys pv).
Proof.
  intros Hfile Hpath Hwrite.
  destruct (fill_pdf_form_run C st pdf_path field_values doc output_path
              Hfile Hpath Hwrite) as (pv1 & pv & _ & _ & Hrun).
  eexists _, _, pv, _. split; [exact Hrun|].
  split; [reflexivity|]. split; [reflexivity|]. split; [reflexivity|].
  split; [cbn [files]; apply lookup_insert_eq|].
  intros i j. rewrite widget_at_committed. split.
  - destruct (Spec.widget_at doc i j); simpl; split; congruence.
  - intros w Hw. rewrite Hw. simpl. unfold Spec.committed.
    destruct (dict_get pv (field_name w)) as [v|] eqn:E.
    + split.
      * intros Hnot. apply dict_get_None in Hnot. congruence.
      * intros _. eapply elem_dict_keys, dict_get_Some_elem, E.
    + split; [reflexivity | congruence].
Qed.

(** ** Inspection of a document *)

Section InspectFacts.
Variable name : string.
Variable Q : pyval -> Prop.

Let entry_ok (fields : dict pyval) : Prop :=
  forall e, dict_get fields name = Some e -> Q e.

Lemma record_widget_inv n w fields :
  (field_name w = name -> forall e, dict_get (record_widget n [] w) name = Some e -> Q e) ->
  entry_ok fields -> entry_ok (record_widget n fields w).
Proof.
  unfold entry_ok, record_widget. intros Hw Hf e.
  rewrite dict_get_set.
  destruct (String.eqb_spec (field_name w) name) as [Heq|Hne].
  - intros He. apply (Hw Heq). cbn [dict_set dict_get].
    apply String.eqb_eq in Heq. now rewrite Heq.
  - apply Hf.
Qed.

Lemma record_fold_inv n widgets fields :
  (forall w, w ∈ widgets -> field_name w = name ->
             forall e, dict_get (record_widget n [] w) name = Some e -> Q e) ->
  entry_ok fields -> entry_ok (fold_left (record_widget n) widgets fields).
Proof.
  revert fields. induction widgets as [|w rest IH]; intros fields Hw Hf;
    cbn [fold_left]; [exact Hf|].
  apply IH.
  - intros w' Hin. apply Hw. now right.
  - apply record_widget_inv; [|exact Hf]. apply Hw. now left.
Qed.

Lemma inspect_pages_inv pages n fields :
  (forall m w, w ∈ concat pages -> field_name w = name ->
               forall e, dict_get (record_widget m [] w) name = Some e -> Q e) ->
  entry_ok fields -> entry_ok (inspect_pages pages n fields).
Proof.
  revert n fields. induction pages as [|widgets rest IH]; intros n fields Hw Hf;
    cbn [inspect_pages]; [exact Hf|].
  apply IH.
  - intros m w Hin. apply Hw. cbn [concat]. apply elem_of_app. now right.
  - apply record_fold_inv; [|exact Hf].
    intros w Hin. apply Hw. cbn [concat]. apply elem_of_app. now left.
Qed.

End InspectFacts.

Section InspectKeys.
Variable name : string.

Lemma record_fold_some n widgets fields :
  name ∈ map field_name widgets \/ is_Some (dict_get fields name) ->
  is_Some (dict_get (fold_left (record_widget n) widgets fields) name).
Proof.
  revert fields. induction widgets as [|w rest IH]; intros fields;
    cbn [fold_left map].
  - rewrite elem_of_nil. tauto.
  - rewrite elem_of_cons. intros H. apply IH.
    unfold record_widget. rewrite dict_get_set.
    destruct (String.eqb_spec (field_name w) name) as [Heq|Hne]; [right; eauto|].
    destruct H as [[Heq|Hin]|Hsome]; [congruence|now left|now right].
Qed.

Lemma inspect_pages_some pages n fields :
  name ∈ map field_name (concat pages) \/ is_Some (dict_get fields name) ->
  is_Some (dict_get (inspect_pages pages n fields) name).
Proof.
  revert n fields. induction pages as [|widgets rest IH]; intros n fields;
    cbn [inspect_pages concat map].
  - rewrite elem_of_nil. tauto.
  - rewrite map_app, elem_of_app. intros H. apply IH.
    destruct H as [[Hin|Hin]|Hsome]; [right|now left|right];
      apply record_fold_some; auto.
Qed.
End InspectKeys.

Section RoundTripFacts.
Variable C : collaborators.

Lemma extract_form_fields_run st pdf_path doc :
  files st !! pdf_path = Some (Pdf doc) ->
  _extract_form_fields C pdf_path st
  = (Ok [("status", VStr "success");
         ("filepath", VStr pdf_path);
         ("num_fields", VInt (Z.of_nat (length (inspect_pages doc 0 []))));
         ("fields", VDict (inspect_pages doc 0 []))],
     st).
Proof.
  intros Hfile. unfold _extract_form_fields, try_except, bind, pymupdf_open.
  now rewrite Hfile.
Qed.

Lemma or_empty v : Str.or_ v "" = v.
Proof. now destruct v. Qed.

(** Inspecting a committed document: a field named in the mapping, on
    whose widgets the library keeps the value of the mapping, shows that
    value. *)
Lemma inspect_committed pv doc name v :
  name ∈ Spec.field_names doc ->
  dict_get pv name = Some v ->
  (forall w, w ∈ concat doc -> field_name w = name -> Spec.keeps C w v) ->
  exists entry,
    dict_get (inspect_pages (map (map (Spec.committed C pv)) doc) 0 []) name
    = Some (VDict entry)
    /\ dict_get entry "value" = Some (VStr v).
Proof.
  intros Hin Hpv Hkeeps.
  set (doc' := map (map (Spec.committed C pv)) doc).
  assert (Hnames : map field_name (concat doc') = Spec.field_names doc).
  { unfold Spec.field_names, doc'. clear.
    induction doc as [|widgets rest IH]; [reflexivity|].
    cbn [map concat]. rewrite !map_app, IH. f_equal.
    rewrite map_map. apply map_ext. intros w. unfold Spec.committed.
    now destruct (dict_get pv (field_name w)). }
  destruct (inspect_pages_some name doc' 0 []) as [e He].
  { left. now rewrite Hnames. }
  assert (HQ : exists entry,
             e = VDict entry /\ dict_get entry "value" = Some (VStr v)).
  { revert e He.
    apply (inspect_pages_inv name
             (fun e => exists entry,
                  e = VDict entry
                  /\ dict_get entry "value" = Some (VStr v)) doc' 0 []);
      [|cbn; discriminate].
    intros m w' Hw' Hname e.
    unfold record_widget. cbn [dict_set dict_get].
    apply String.eqb_eq in Hname as Heqb. rewrite Heqb. intros [= <-].
    eexists. split; [reflexivity|]. cbn [dict_get String.eqb Ascii.eqb Bool.eqb].
    do 2 f_equal. rewrite or_empty.
    assert (Hcom : exists w, w ∈ concat doc /\ w' = Spec.committed C pv w).
    { unfold doc' in Hw'. clear -Hw'.
      induction doc as [|widgets rest IH]; cbn [map concat] in Hw'.
      - now apply elem_of_nil in Hw'.
      - cbn [concat]. apply elem_of_app in Hw' as [Hw'|Hw'].
        + apply list_elem_of_In, in_map_iff in Hw' as (w & <- & Hw).
          exists w. split; [|reflexivity].
          apply elem_of_app. left. now apply list_elem_of_In.
        + destruct (IH Hw') as (w & Hw & ->). exists w.
          split; [|reflexivity]. apply elem_of_app. now right. }
    destruct Hcom as (w & Hw & ->). unfold Spec.committed in *.
    destruct (dict_get pv (field_name w)) as [v'|] eqn:E; cbn in *.
    - rewrite Hname in E. assert (v' = v) as -> by congruence.
      apply (Hkeeps w Hw Hname).
    - congruence. }
  destruct HQ as (entry & -> & Hval). now exists entry.
Qed.
End RoundTripFacts.

(** C9, as the code has it.  On a readable document whose output can be
    written, the mapping [pv] committed is the outcome of the four passes on
    the caller's mapping.  Every widget whose name is a key of [pv] is
    assigned exactly the value of [pv] and holds, in the document saved
    under the output path, what the library keeps of it: exactly that value
    where the library keeps the string as it is.  The result reports as
    [fields_filled] the number of widgets updated.  Inspecting the saved
    document shows that value for every field name of the document that is a
    key of [pv] and on whose widgets the library keeps it. *)
Theorem commit_round_trip (C : collaborators) (st : state)
    (pdf_path : string) (field_values : nat) (items : strdict)
    (doc : document) (output_path : string) :
  files st !! pdf_path = Some (Pdf doc) ->
  objects st !! field_values = Some items ->
  filled_path C pdf_path = Ok output_path ->
  write_error C output_path = None ->
  exists r st' pv doc' fields,
    _fill_pdf_form C pdf_path field_values st = (Ok r, st')
    /\ Props.normalized C items pv
    /\ objects st' = (objects st ++ [pv])%list
    /\ files st' !! output_path = Some (Pdf doc')
    /\ (forall i j w v,
          Spec.widget_at doc i j = Some w ->
          dict_get pv (field_name w) = Some v ->
          Spec.widget_at doc' i j = Some (set_field_value C w v)
          /\ (Spec.keeps C w v ->
              Spec.widget_at doc' i j
              = Some {| field_name := field_name w;
                        field_type_string := field_type_string w;
                        field_value := v |}))
    /\ dict_get r "fields_filled" = Some (VInt (Z.of_nat (Spec.updates pv doc)))
    /\ _extract_form_fields C output_path st'
       = (Ok [("status", VStr "success");
              ("filepath", VStr output_path);
              ("num_fields", VInt (Z.of_nat (length fields)));
              ("fields", VDict fields)],
          st')
    /\ (forall name v,
          name ∈ Spec.field_names doc ->
          dict_get pv name = Some v ->
          (forall w, w ∈ concat doc -> field_name w = name ->
                     Spec.keeps C w v) ->
          exists entry,
            dict_get fields name = Some (VDict entry)
            /\ dict_get entry "value" = Some (VStr v)).
Proof.
  intros Hfile Hitems Hpath Hwrite.
  destruct (fill_pdf_form_run C st pdf_path field_values doc output_path
              Hfile Hpath Hwrite) as (pv1 & pv & Hpv1 & Hpv & Hrun).
  rewrite Hitems in Hpv1. cbn [from_option id] in Hpv1.
  eexists _, _, pv, _, _. split; [exact Hrun|].
  split; [now exists pv1|].
  split; [reflexivity|].
  split; [cbn [files]; apply lookup_insert_eq|].
  split; [|split; [reflexivity|split]].
  - intros i j w v Hw Hv. rewrite widget_at_committed, Hw. cbn [fmap option_fmap option_map].
    unfold Spec.committed, set_field_value, Spec.keeps. rewrite Hv.
    split; [reflexivity|]. now intros ->.
  - apply extract_form_fields_run. cbn [files]. apply lookup_insert_eq.
  - intros name v. apply inspect_committed.
Qed.

(** C10. Whatever [_fill_pdf_form] returns, success or error, every mapping
    the store held before the call is the same after it, the caller's
    [field_values] among them: the passes write to an object of their
    own. *)
Theorem fill_keeps_caller_mapping (C : collaborators) (st : state)
    (pdf_path : string) (field_values : nat) (d : strdict) :
  objects st !! field_values = Some d ->
  let '(r, st') := _fill_pdf_form C pdf_path field_values st in
  (exists res, r = Ok res)
  /\ objects st' !! field_values = Some d
  /\ forall l d', objects st !! l = Some d' -> objects st' !! l = Some d'.
Proof.
  intros Hfv.
  destruct (fill_pdf_form_objects C st pdf_path field_values) as [extra Hext].
  destruct (_fill_pdf_form C pdf_path field_values st) as [r st'] eqn:Hrun.
  cbn [snd] in Hext.
  assert (Hkeep : forall l d', objects st !! l = Some d' ->
                               objects st' !! l = Some d').
  { intros l d' Hl. rewrite Hext. now apply lookup_app_l_Some. }
  split; [|split; [now apply Hkeep | exact Hkeep]].
  revert Hrun. unfold _fill_pdf_form, try_except.
  match goal with
  | |- context [match ?body st with _ => _ end] => destruct (body st) as [[a|msg] s]
  end; intros [= <- _]; eauto.
Qed.

(** ** Parsing the email payload *)

Section ParseFacts.
Variable C : collaborators.

Lemma scan_parts_well_formed parts pdf_urls :
  forallb Spec.is_part parts = true ->
  exists urls,
    scan_parts C parts pdf_urls = Ok urls
    /\ (existsb Spec.is_pdf_part parts = false -> urls = pdf_urls).
Proof.
  revert pdf_urls. induction parts as [|part rest IH]; intros pdf_urls; cbn.
  - eauto.
  - intros [Hpart Hrest]%andb_true_iff.
    destruct part as [| | | | |q]; try discriminate. cbn in *.
    destruct (dict_get_default q "filename" (VStr "")) as [| | |filename| |];
      try discriminate. cbn.
    destruct (Str.endswith filename ".pdf"); cbn.
    + destruct (Str.contains "drive.google.com" (py_repr C (VDict q))).
      * destruct (IH (pdf_urls ++ Links.findall_from (py_repr C (VDict q)) 0)%list
                     Hrest)
          as (urls & -> & _).
        exists urls. split; [reflexivity|discriminate].
      * destruct (IH pdf_urls Hrest) as (urls & -> & _).
        exists urls. split; [reflexivity|discriminate].
    + apply IH, Hrest.
Qed.

Lemma scan_parts_malformed parts pdf_urls :
  forallb Spec.is_part parts = false ->
  exists msg, scan_parts C parts pdf_urls = Raise msg.
Proof.
  revert pdf_urls. induction parts as [|part rest IH]; intros pdf_urls; cbn;
    [discriminate|].
  intros Hbad.
  destruct part as [| | | | |q]; try (eexists; reflexivity). cbn in *.
  destruct (dict_get_default q "filename" (VStr "")) as [| | |filename| |];
    try (eexists; reflexivity). cbn in *.
  destruct (Str.endswith filename ".pdf"); cbn; [|now apply IH].
  destruct (Str.contains "drive.google.com" (py_repr C (VDict q)));
    now apply IH.
Qed.

Lemma parse_email_data_malformed email_data :
  Spec.well_formed email_data = false ->
  exists msg, parse_email_data C email_data = Raise msg.
Proof.
  unfold Spec.well_formed, Spec.payload_parts, parse_email_data.
  destruct email_data as [| | | | |d]; try (eexists; reflexivity). cbn.
  destruct (dict_get_default d "payload" (VDict [])) as [| | | | |p];
    try (eexists; reflexivity). cbn.
  destruct (Py.iter (dict_get_default p "parts" (VList []))) as [parts|msg];
    [|eexists; reflexivity]. cbn.
  destruct (forallb Spec.is_part parts) eqn:Hparts.
  - destruct (scan_parts_well_formed parts [] Hparts) as (urls & -> & _). cbn.
    destruct (dict_get_default d "sender" (VDict [])); try discriminate;
      eexists; reflexivity.
  - intros _. destruct (scan_parts_malformed parts [] Hparts) as [msg ->].
    eexists; reflexivity.
Qed.

Lemma parse_email_data_well_formed email_data :
  Spec.well_formed email_data = true ->
  exists sender subject urls,
    parse_email_data C email_data
    = Ok [("status", VStr "success");
          ("sender", sender);
          ("subject", subject);
          ("pdf_count", VInt (Z.of_nat (length urls)));
          ("pdf_urls", VList (map VStr urls))]
    /\ (Spec.has_pdf_attachment email_data = false -> urls = []).
Proof.
  unfold Spec.well_formed, Spec.has_pdf_attachment, Spec.payload_parts,
    parse_email_data.
  destruct email_data as [| | | | |d]; try discriminate. cbn.
  destruct (dict_get_default d "payload" (VDict [])) as [| | | | |p];
    try (rewrite andb_false_r; discriminate). cbn.
  destruct (Py.iter (dict_get_default p "parts" (VList []))) as [parts|msg];
    [|rewrite andb_false_r; discriminate]. cbn.
  intros [Hsender Hparts]%andb_true_iff.
  destruct (scan_parts_well_formed parts [] Hparts) as (urls & -> & Hnone). cbn.
  destruct (dict_get_default d "sender" (VDict [])) as [| | | | |s];
    try discriminate. cbn.
  eexists _, _, urls. split; [reflexivity|exact Hnone].
Qed.

Lemma parse_email_run email_json_url st :
  _parse_email C email_json_url st
  = (Ok match httpx_get C false email_json_url with
        | Raise msg => error_result "Failed to parse email: " msg
        | Ok response =>
            match json response with
            | Raise msg => error_result "Failed to parse email: " msg
            | Ok email_data =>
                match parse_email_data C email_data with
                | Raise msg => error_result "Failed to parse email: " msg
                | Ok r => r
                end
            end
        end, st).
Proof.
  unfold _parse_email, try_except, bind, lift, ret.
  destruct (httpx_get C false email_json_url) as [response|msg]; [|reflexivity].
  destruct (json response) as [email_data|msg]; [|reflexivity].
  now destruct (parse_email_data C email_data).
Qed.
End ParseFacts.

(** C6. [_parse_email] on a payload that cannot be fetched or decoded, or
    that lacks the structure the parser requires, returns an error result
    whose message is "Failed to parse email: " followed by the reason; on a
    well-formed payload it returns a success result, and when the payload
    holds no PDF attachment the sequence of URLs is empty and the count
    0. *)
Theorem parse_email_outcomes (C : collaborators) (email_json_url : string)
    (st : state) :
  let run := _parse_email C email_json_url st in
  (forall msg,
      httpx_get C false email_json_url = Raise msg ->
      run = (Ok (error_result "Failed to parse email: " msg), st))
  /\ (forall response msg,
        httpx_get C false email_json_url = Ok response ->
        json response = Raise msg ->
        run = (Ok (error_result "Failed to parse email: " msg), st))
  /\ (forall response email_data,
        httpx_get C false email_json_url = Ok response ->
        json response = Ok email_data ->
        Spec.well_formed email_data = false ->
        exists msg, run = (Ok (error_result "Failed to parse email: " msg), st))
  /\ (forall response email_data,
        httpx_get C false email_json_url = Ok response ->
        json response = Ok email_data ->
        Spec.well_formed email_data = true ->
        exists sender subject urls,
          run = (Ok [("status", VStr "success");
                     ("sender", sender);
                     ("subject", subject);
                     ("pdf_count", VInt (Z.of_nat (length urls)));
                     ("pdf_urls", VList (map VStr urls))], st)
          /\ (Spec.has_pdf_attachment email_data = false -> urls = [])).
Proof.
  intros run. subst run. rewrite parse_email_run.
  split; [|split; [|split]].
  - now intros msg ->.
  - now intros response msg -> ->.
  - intros response email_data -> -> Hbad.
    destruct (parse_email_data_malformed C email_data Hbad) as [msg ->].
    now exists msg.
  - intros response email_data -> -> Hwf.
    destruct (parse_email_data_well_formed C email_data Hwf)
      as (sender & subject & urls & -> & Hnone).
    now exists sender, subject, urls.
Qed.

(** ** Runs of the stages *)

Section StageRuns.
Variable C : collaborators.

Lemma download_pdf_run url st :
  _download_pdf C url st
  = match httpx_get C true url with
    | Raise msg => (Ok (error_result "Failed to download PDF: " msg), st)
    | Ok response =>
        let filepath := WORK_DIR ++ "/" ++ download_filename url in
        match write_error C filepath with
        | Some msg =>
            (Ok (error_result "Failed to download PDF: " msg),
             {| files := partial_alter
                           (failed_write C filepath (content response))
                           filepath (files st);
                objects := objects st |})
        | None =>
            (Ok [("status", VStr "success");
                 ("message", VStr ("Downloaded PDF to " ++ filepath));
                 ("filepath", VStr filepath);
                 ("size_bytes", VInt (content_length C (content response)))],
             {| files := <[filepath := content response]> (files st);
                objects := objects st |})
        end
    end.
Proof.
  unfold _download_pdf, try_except, bind, lift, write_file, ret.
  destruct (httpx_get C true url) as [response|msg]; [|reflexivity].
  cbn zeta.
  now destruct (write_error C (WORK_DIR ++ "/" ++ download_filename url)).
Qed.

Lemma extract_form_fields_unreadable st pdf_path :
  (forall doc, files st !! pdf_path <> Some (Pdf doc)) ->
  _extract_form_fields C pdf_path st
  = (Ok (error_result "Failed to extract form fields: " (open_error C pdf_path)),
     st).
Proof.
  intros Hno. unfold _extract_form_fields, try_except, bind, pymupdf_open.
  destruct (files st !! pdf_path) as [[doc|tag]|]; try reflexivity.
  now destruct (Hno doc).
Qed.

Lemma generate_form_values_run field_names st :
  _generate_form_values C field_names st
  = (Ok match chat_completion C field_names with
        | Raise msg => error_result "Failed to generate values: " msg
        | Ok values =>
            [("status", VStr "success");
             ("generated_values",
              VDict (map (fun '(k, v) => (k, VStr v)) values));
             ("fields_filled", VInt (Z.of_nat (length values)))]
        end, st).
Proof.
  unfold _generate_form_values, try_except, bind, lift, ret.
  now destruct (chat_completion C field_names).
Qed.

(** Every stage returns a result, with status "success" or "error". *)
Lemma parse_email_data_succeeded email_data r :
  parse_email_data C email_data = Ok r -> Spec.succeeded r.
Proof.
  unfold parse_email_data, res_bind.
  repeat case_match; try discriminate. now intros [= <-].
Qed.

Lemma parse_email_status email_json_url st r st' :
  _parse_email C email_json_url st = (Ok r, st') ->
  Spec.succeeded r \/ Spec.failed r.
Proof.
  rewrite parse_email_run. intros [= <- _].
  destruct (httpx_get C false email_json_url) as [response|msg]; [|now right].
  destruct (json response) as [email_data|msg]; [|now right].
  destruct (parse_email_data C email_data) as [r|msg] eqn:E; [|now right].
  left. eapply parse_email_data_succeeded, E.
Qed.

Lemma download_pdf_status url st r st' :
  _download_pdf C url st = (Ok r, st') ->
  Spec.succeeded r \/ Spec.failed r.
Proof.
  rewrite download_pdf_run.
  destruct (httpx_get C true url) as [response|msg];
    [|intros [= <- _]; now right].
  cbn zeta.
  destruct (write_error C (WORK_DIR ++ "/" ++ download_filename url));
    intros [= <- _]; [now right|now left].
Qed.

Lemma extract_form_fields_status pdf_path st r st' :
  _extract_form_fields C pdf_path st = (Ok r, st') ->
  Spec.succeeded r \/ Spec.failed r.
Proof.
  unfold _extract_form_fields, try_except, bind, pymupdf_open.
  destruct (files st !! pdf_path) as [[doc|tag]|];
    intros [= <- _]; [now left|now right|now right].
Qed.

Lemma generate_form_values_status field_names st r st' :
  _generate_form_values C field_names st = (Ok r, st') ->
  Spec.succeeded r \/ Spec.failed r.
Proof.
  rewrite generate_form_values_run. intros [= <- _].
  destruct (chat_completion C field_names); [now left|now right].
Qed.

(** The test [r["status"] != "success"] of the orchestrator. *)
Lemma status_test r :
  Spec.succeeded r \/ Spec.failed r ->
  exists status,
    Py.getitem r "status" = Ok status
    /\ (Py.ne_str status "success" = false <-> Spec.succeeded r).
Proof.
  unfold Spec.succeeded, Spec.failed, Py.getitem.
  intros [-> | ->]; eexists; (split; [reflexivity|]); cbn;
    split; congruence.
Qed.
End StageRuns.

(** ** Runs of the orchestrator *)

Section MonadRuns.
Context {A B : Type}.

Lemma run_bind_ok (m : M A) (k : A -> M B) st a st' :
  m st = (Ok a, st') -> bind m k st = k a st'.
Proof. unfold bind. now intros ->. Qed.

Lemma run_bind_raise (m : M A) (k : A -> M B) st msg st' :
  m st = (Raise msg, st') -> bind m k st = (Raise msg, st').
Proof. unfold bind. now intros ->. Qed.

Lemma run_bind_lift (r : res A) (k : A -> M B) st a :
  r = Ok a -> bind (lift r) k st = k a st.
Proof. unfold bind, lift. now intros ->. Qed.

Lemma run_bind_lift_raise (r : res A) (k : A -> M B) st msg :
  r = Raise msg -> bind (lift r) k st = (Raise msg, st).
Proof. unfold bind, lift. now intros ->. Qed.

Lemma run_try_ok (body : M A) handler st a st' :
  body st = (Ok a, st') -> try_except body handler st = (Ok a, st').
Proof. unfold try_except. now intros ->. Qed.

Lemma run_try_raise (body : M A) handler st msg st' :
  body st = (Raise msg, st') -> try_except body handler st = handler msg st'.
Proof. unfold try_except. now intros ->. Qed.
End MonadRuns.

Section Pipeline.
Variable C : collaborators.
Variable email_json_url : string.
Variable st : state.

Let run := _process_email_automation C email_json_url st.

(** Step 1 has run. *)
Variable email_result : result.
Variable st1 : state.
Hypothesis Hparse : _parse_email C email_json_url st = (Ok email_result, st1).

Ltac status_step Hstatus Htest :=
  let s := fresh "status" in
  let Hget := fresh "Hget" in
  destruct (status_test _ Hstatus) as (s & Hget & Htest);
  rewrite (run_bind_lift _ _ _ _ Hget); clear Hget.

Ltac not_success Htest Hfail :=
  match type of Htest with
  | ?b = false <-> _ =>
      let E := fresh "E" in
      destruct b eqn:E; [| exfalso; apply Hfail, Htest; reflexivity]
  end.

Ltac is_success Htest Hok :=
  match type of Htest with
  | ?b = false <-> _ => rewrite (proj2 Htest Hok)
  end.

Ltac after_parse Htest :=
  rewrite (run_bind_ok _ _ _ _ _ Hparse);
  status_step (parse_email_status C _ _ _ _ Hparse) Htest.

Lemma orchestrate_no_pdf :
  ~ Spec.succeeded email_result
  \/ Py.truthy (dict_get_default email_result "pdf_urls" VNone) = false ->
  run = (Ok no_pdf_result, st1).
Proof using Hparse.
  intros Hcond. subst run. unfold _process_email_automation.
  apply run_try_ok. after_parse Htest.
  destruct Hcond as [Hfail|Hempty].
  - not_success Htest Hfail. reflexivity.
  - rewrite Hempty. now rewrite orb_true_r.
Qed.

(** Step 1 has found a link. *)
Variable pdf_url : string.
Variable more_urls : list pyval.
Hypothesis Hparsed : Spec.succeeded email_result.
Hypothesis Hurls :
  dict_get email_result "pdf_urls" = Some (VList (VStr pdf_url :: more_urls)).

(** Step 2 has run. *)
Variable download_result : result.
Variable st2 : state.
Hypothesis Hdownload : _download_pdf C pdf_url st1 = (Ok download_result, st2).

Ltac after_download Htest :=
  let Htest1 := fresh "Htest" in
  after_parse Htest1; is_success Htest1 Hparsed; clear Htest1;
  unfold dict_get_default; rewrite Hurls; cbn [Py.truthy negb orb];
  rewrite (run_bind_lift _ _ _ (VList (VStr pdf_url :: more_urls)))
    by (unfold Py.getitem; now rewrite Hurls);
  rewrite (run_bind_lift _ _ _ (VStr pdf_url)) by reflexivity;
  rewrite (run_bind_lift _ _ _ pdf_url) by reflexivity;
  rewrite (run_bind_ok _ _ _ _ _ Hdownload);
  status_step (download_pdf_status C _ _ _ _ Hdownload) Htest.

Lemma orchestrate_download_failed :
  ~ Spec.succeeded download_result ->
  run = (Ok download_result, st2).
Proof using Hparse Hparsed Hurls Hdownload.
  intros Hfail. subst run. unfold _process_email_automation.
  apply run_try_ok. after_download Htest.
  not_success Htest Hfail. reflexivity.
Qed.

(** Step 2 has stored the file. *)
Variable pdf_path : string.
Hypothesis Hdownloaded : Spec.succeeded download_result.
Hypothesis Hpath : dict_get download_result "filepath" = Some (VStr pdf_path).

(** Step 3 has run. *)
Variable extract_result : result.
Variable st3 : state.
Hypothesis Hextract :
  _extract_form_fields C pdf_path st2 = (Ok extract_result, st3).

Ltac after_extract Htest :=
  let Htest2 := fresh "Htest" in
  after_download Htest2; is_success Htest2 Hdownloaded; clear Htest2;
  rewrite (run_bind_lift _ _ _ (VStr pdf_path))
    by (unfold Py.getitem; now rewrite Hpath);
  rewrite (run_bind_lift _ _ _ pdf_path) by reflexivity;
  rewrite (run_bind_ok _ _ _ _ _ Hextract);
  status_step (extract_form_fields_status C _ _ _ _ Hextract) Htest.

Lemma orchestrate_extract_failed :
  ~ Spec.succeeded extract_result ->
  run = (Ok extract_result, st3).
Proof using Hparse Hparsed Hurls Hdownload Hdownloaded Hpath Hextract.
  intros Hfail. subst run. unfold _process_email_automation.
  apply run_try_ok. after_extract Htest.
  not_success Htest Hfail. reflexivity.
Qed.

Lemma orchestrate_no_fields :
  Spec.succeeded extract_result ->
  dict_get extract_result "num_fields" = Some (VInt 0) ->
  run = (Ok no_fields_result, st3).
Proof using Hparse Hparsed Hurls Hdownload Hdownloaded Hpath Hextract.
  intros Hok Hzero. subst run. unfold _process_email_automation.
  apply run_try_ok. after_extract Htest. is_success Htest Hok.
  rewrite (run_bind_lift _ _ _ (VInt 0))
    by (unfold Py.getitem; now rewrite Hzero).
  reflexivity.
Qed.

(** Step 3 has found fields, and the names to fill. *)
Variable num_fields fields : pyval.
Variable names field_names : list string.
Hypothesis Hextracted : Spec.succeeded extract_result.
Hypothesis Hnum : dict_get extract_result "num_fields" = Some num_fields.
Hypothesis Hsome : Py.eq_int num_fields 0 = false.
Hypothesis Hfields : dict_get extract_result "fields" = Some fields.
Hypothesis Hkeys : Py.keys fields = Ok names.
Hypothesis Hselect : select_field_names fields names = Ok field_names.

(** Step 4 has run. *)
Variable gen_result : result.
Variable st4 : state.
Hypothesis Hgenerate :
  _generate_form_values C field_names st3 = (Ok gen_result, st4).

Ltac after_generate Htest :=
  let Htest3 := fresh "Htest" in
  after_extract Htest3; is_success Htest3 Hextracted; clear Htest3;
  rewrite (run_bind_lift _ _ _ num_fields)
    by (unfold Py.getitem; now rewrite Hnum);
  rewrite Hsome;
  rewrite (run_bind_lift _ _ _ fields)
    by (unfold Py.getitem; now rewrite Hfields);
  rewrite (run_bind_lift _ _ _ _ Hkeys);
  rewrite (run_bind_lift _ _ _ _ Hselect);
  rewrite (run_bind_ok _ _ _ _ _ Hgenerate);
  status_step (generate_form_values_status C _ _ _ _ Hgenerate) Htest.

Lemma orchestrate_generate_failed :
  ~ Spec.succeeded gen_result ->
  run = (Ok gen_result, st4).
Proof using Hparse Hparsed Hurls Hdownload Hdownloaded Hpath Hextract
            Hextracted Hnum Hsome Hfields Hkeys Hselect Hgenerate.
  intros Hfail. subst run. unfold _process_email_automation.
  apply run_try_ok. after_generate Htest.
  not_success Htest Hfail. reflexivity.
Qed.

(** Step 4 has produced values, and step 5 has run on them. *)
Variable generated_values : pyval.
Variable values : strdict.
Hypothesis Hgenerated : Spec.succeeded gen_result.
Hypothesis Hvalues :
  dict_get gen_result "generated_values" = Some generated_values.
Hypothesis Hstrings : Py.as_strdict generated_values = Ok values.

Variable fill_result : result.
Variable st5 : state.
Hypothesis Hfill :
  _fill_pdf_form C pdf_path (length (objects st4))
    {| files := files st4; objects := (objects st4 ++ [values])%list |}
  = (Ok fill_result, st5).

Variable subject : pyval.
Hypothesis Hsubject : dict_get email_result "subject" = Some subject.

Ltac after_fill :=
  let Htest4 := fresh "Htest" in
  after_generate Htest4; is_success Htest4 Hgenerated; clear Htest4;
  rewrite (run_bind_lift _ _ _ generated_values)
    by (unfold Py.getitem; now rewrite Hvalues);
  rewrite (run_bind_lift _ _ _ _ Hstrings);
  rewrite (run_bind_ok _ _ _ (length (objects st4))
             {| files := files st4;
                objects := (objects st4 ++ [values])%list |})
    by reflexivity;
  rewrite (run_bind_ok _ _ _ _ _ Hfill);
  rewrite (run_bind_lift _ _ _ subject)
    by (unfold Py.getitem; now rewrite Hsubject).

(** A result of step 5 without an output path: the [KeyError] is caught
    by the orchestrator's own handler. *)
Lemma orchestrate_fill_failed :
  dict_get fill_result "output_path" = None ->
  run = (Ok (error_result "Processing failed: " "'output_path'"), st5).
Proof using Hparse Hparsed Hurls Hdownload Hdownloaded Hpath Hextract
            Hextracted Hnum Hsome Hfields Hkeys Hselect Hgenerate
            Hgenerated Hvalues Hstrings Hfill Hsubject.
  intros Hnone. subst run. unfold _process_email_automation.
  erewrite run_try_raise; [reflexivity|]. after_fill.
  apply run_bind_lift_raise. unfold Py.getitem. now rewrite Hnone.
Qed.

Lemma orchestrate_filled output_path fields_filled :
  dict_get fill_result "output_path" = Some output_path ->
  dict_get fill_result "fields_filled" = Some fields_filled ->
  run
  = (Ok [("status", VStr "success");
         ("email_subject", subject);
         ("original_pdf", VStr pdf_path);
         ("filled_pdf", output_path);
         ("fields_filled", fields_filled);
         ("pdf_base64", dict_get_default fill_result "pdf_base64" (VStr ""));
         ("download_instructions",
          dict_get_default fill_result "download_instructions" (VStr ""));
         ("message",
          VStr ("✅ Successfully filled " ++ py_str C fields_filled
                ++ " fields!"))],
     st5).
Proof using Hparse Hparsed Hurls Hdownload Hdownloaded Hpath Hextract
            Hextracted Hnum Hsome Hfields Hkeys Hselect Hgenerate
            Hgenerated Hvalues Hstrings Hfill Hsubject.
  intros Hout Hcount. subst run. unfold _process_email_automation.
  apply run_try_ok. after_fill.
  rewrite (run_bind_lift _ _ _ output_path)
    by (unfold Py.getitem; now rewrite Hout).
  rewrite (run_bind_lift _ _ _ fields_filled)
    by (unfold Py.getitem; now rewrite Hcount).
  rewrite (run_bind_lift _ _ _ fields_filled)
    by (unfold Py.getitem; now rewrite Hcount).
  reflexivity.
Qed.
End Pipeline.

(** ** The orchestrator stops at the first stage that fails *)

(** C1, as the code has it.  A parse result that is not a success, or that
    holds no URL, ends the run with the fixed "No PDF found in email" error
    and not with the parser's own result; a download, inspection or
    generation result that is not a success is returned as it is.  In each
    case the state is the one the failing stage left: no later stage has
    run. *)
Theorem short_circuit (C : collaborators) (email_json_url : string)
    (st : state) (email_result : result) (st1 : state) :
  _parse_email C email_json_url st = (Ok email_result, st1) ->
  let run := _process_email_automation C email_json_url st in
  (~ Spec.succeeded email_result
   \/ Py.truthy (dict_get_default email_result "pdf_urls" VNone) = false ->
   run = (Ok no_pdf_result, st1))
  /\ forall pdf_url more_urls download_result st2,
       Spec.succeeded email_result ->
       dict_get email_result "pdf_urls"
       = Some (VList (VStr pdf_url :: more_urls)) ->
       _download_pdf C pdf_url st1 = (Ok download_result, st2) ->
       (~ Spec.succeeded download_result -> run = (Ok download_result, st2))
       /\ forall pdf_path extract_result st3,
            Spec.succeeded download_result ->
            dict_get download_result "filepath" = Some (VStr pdf_path) ->
            _extract_form_fields C pdf_path st2 = (Ok extract_result, st3) ->
            (~ Spec.succeeded extract_result ->
             run = (Ok extract_result, st3))
            /\ forall num_fields fields names field_names gen_result st4,
                 Spec.succeeded extract_result ->
                 dict_get extract_result "num_fields" = Some num_fields ->
                 Py.eq_int num_fields 0 = false ->
                 dict_get extract_result "fields" = Some fields ->
                 Py.keys fields = Ok names ->
                 select_field_names fields names = Ok field_names ->
                 _generate_form_values C field_names st3 = (Ok gen_result, st4) ->
                 ~ Spec.succeeded gen_result ->
                 run = (Ok gen_result, st4).
Proof.
  intros Hparse run. subst run. split.
  - now apply orchestrate_no_pdf.
  - intros pdf_url more_urls download_result st2 Hparsed Hurls Hdownload. split.
    + now apply (orchestrate_download_failed C email_json_url st email_result
                   st1 Hparse pdf_url more_urls).
    + intros pdf_path extract_result st3 Hdownloaded Hpath Hextract. split.
      * now apply (orchestrate_extract_failed C email_json_url st email_result
                     st1 Hparse pdf_url more_urls Hparsed Hurls
                     download_result st2 Hdownload pdf_path).
      * intros num_fields fields names field_names gen_result st4
          Hextracted Hnum Hsome Hfields Hkeys Hselect Hgenerate.
        now apply (orchestrate_generate_failed C email_json_url st email_result
                     st1 Hparse pdf_url more_urls Hparsed Hurls
                     download_result st2 Hdownload pdf_path Hdownloaded Hpath
                     extract_result st3 Hextract num_fields fields names
                     field_names).
Qed.

(** The provider is down: the run ends with the result of the generation
    stage. *)
Lemma short_circuit_witness :
  let W := Example.world true (Pdf Example.form) false true in
  _parse_email W Example.email_url Example.start
  = (Ok Example.parsed, Example.start)
  /\ _process_email_automation W Example.email_url Example.start
     = (Ok (error_result "Failed to generate values: " "rate limited"),
        Example.downloaded (Pdf Example.form)).
Proof.
  intros W.
  assert (Hparse : _parse_email W Example.email_url Example.start
                   = (Ok Example.parsed, Example.start))
    by (vm_compute; reflexivity).
  split; [exact Hparse|].
  destruct (short_circuit W Example.email_url Example.start _ _ Hparse)
    as [_ Hdownload].
  destruct (Hdownload Example.drive_link [] Example.fetched
              (Example.downloaded (Pdf Example.form)))
    as [_ Hextract]; [vm_compute; reflexivity ..|].
  destruct (Hextract Example.pdf_path Example.inspected
              (Example.downloaded (Pdf Example.form)))
    as [_ Hgenerate]; [vm_compute; reflexivity ..|].
  apply (Hgenerate (VInt 6) Example.inspected_fields
           (Example.names_to_fill ++ ["Year-1"; "Submit"])%list
           Example.names_to_fill);
    try (vm_compute; reflexivity).
  vm_compute. discriminate.
Defined.

(** C1 fails as stated at the first and at the last stage.  With the mail
    server down, the parser returns its own error and the orchestrator
    another one.  With a full disk, [_fill_pdf_form] returns its error for
    the call the orchestrator makes, and the orchestrator returns the
    "Processing failed" error of its own handler. *)
Lemma short_circuit_counterexample :
  (let W := Example.world false (Pdf Example.form) true true in
   exists parse_result,
     _parse_email W Example.email_url Example.start
     = (Ok parse_result, Example.start)
     /\ ~ Spec.succeeded parse_result
     /\ fst (_process_email_automation W Example.email_url Example.start)
        <> Ok parse_result)
  /\ (let W := Example.world true (Pdf Example.form) true false in
      exists fill_result st5,
        _fill_pdf_form W Example.pdf_path 0
          {| files := files (Example.downloaded (Pdf Example.form));
             objects := [Example.answers] |}
        = (Ok fill_result, st5)
        /\ ~ Spec.succeeded fill_result
        /\ _process_email_automation W Example.email_url Example.start
           = (Ok (error_result "Processing failed: " "'output_path'"), st5)
        /\ error_result "Processing failed: " "'output_path'" <> fill_result).
Proof.
  split.
  - eexists. split; [vm_compute; reflexivity|].
    split; vm_compute; discriminate.
  - eexists _, _. split; [vm_compute; reflexivity|].
    split; [vm_compute; discriminate|].
    split; [vm_compute; reflexivity | vm_compute; discriminate].
Qed.

(** ** Documents without fields *)

Section NoFields.
Lemma inspect_pages_empty (doc : document) n (fields : dict pyval) :
  concat doc = [] -> inspect_pages doc n fields = fields.
Proof.
  revert n. induction doc as [|widgets rest IH]; intros n; cbn [concat];
    [reflexivity|].
  intros [-> Hrest]%app_eq_nil. cbn. now apply IH.
Qed.
End NoFields.

(** C7. On a readable document none of whose pages has a widget,
    [_extract_form_fields] returns a success with [num_fields] 0 and no
    field; and when the email yields a link and the download stores such a
    document, [_process_email_automation] ends with the "info" result of the
    no-fillable-fields outcome, in the state the download left. *)
Theorem no_fillable_fields (C : collaborators) :
  (forall st pdf_path (doc : document),
      files st !! pdf_path = Some (Pdf doc) ->
      concat doc = [] ->
      _extract_form_fields C pdf_path st
      = (Ok [("status", VStr "success");
             ("filepath", VStr pdf_path);
             ("num_fields", VInt 0);
             ("fields", VDict [])],
         st))
  /\ (forall email_json_url st email_result st1 pdf_url more_urls
             download_result st2 pdf_path (doc : document),
        _parse_email C email_json_url st = (Ok email_result, st1) ->
        Spec.succeeded email_result ->
        dict_get email_result "pdf_urls"
        = Some (VList (VStr pdf_url :: more_urls)) ->
        _download_pdf C pdf_url st1 = (Ok download_result, st2) ->
        Spec.succeeded download_result ->
        dict_get download_result "filepath" = Some (VStr pdf_path) ->
        files st2 !! pdf_path = Some (Pdf doc) ->
        concat doc = [] ->
        _process_email_automation C email_json_url st
        = (Ok [("status", VStr "info");
               ("message", VStr "PDF has no fillable form fields")],
           st2)).
Proof.
  assert (Hextract : forall st pdf_path (doc : document),
             files st !! pdf_path = Some (Pdf doc) ->
             concat doc = [] ->
             _extract_form_fields C pdf_path st
             = (Ok [("status", VStr "success");
                    ("filepath", VStr pdf_path);
                    ("num_fields", VInt 0);
                    ("fields", VDict [])],
                st)).
  { intros st pdf_path doc Hfile Hempty.
    rewrite (extract_form_fields_run C st pdf_path doc Hfile).
    now rewrite (inspect_pages_empty doc 0 [] Hempty). }
  split; [exact Hextract|].
  intros email_json_url st email_result st1 pdf_url more_urls
    download_result st2 pdf_path doc
    Hparse Hparsed Hurls Hdownload Hdownloaded Hpath Hfile Hempty.
  apply (orchestrate_no_fields C email_json_url st email_result st1 Hparse
           pdf_url more_urls Hparsed Hurls download_result st2 Hdownload
           pdf_path Hdownloaded Hpath _ st2 (Hextract st2 pdf_path doc Hfile Hempty));
    reflexivity.
Qed.

(** The attachment is a document of two pages without a widget. *)
Lemma no_fillable_fields_witness :
  let W := Example.world true (Pdf Example.blank) true true in
  concat Example.blank = []
  /\ _process_email_automation W Example.email_url Example.start
     = (Ok [("status", VStr "info");
            ("message", VStr "PDF has no fillable form fields")],
        Example.downloaded (Pdf Example.blank)).
Proof.
  intros W. split; [reflexivity|].
  apply (proj2 (no_fillable_fields W) Example.email_url Example.start
           Example.parsed Example.start Example.drive_link []
           Example.fetched (Example.downloaded (Pdf Example.blank))
           Example.pdf_path Example.blank);
    vm_compute; reflexivity.
Defined.

(** ** The sample run *)

(** "Print seller's name" is "Jane Doe" and no second seller is given: the
    keys that end with " 2" are emptied. *)
Lemma duplicate_row_suppression_witness :
  let pv := [("Print seller's name", "Jane Doe");
             ("Buyer print name 2", "John Roe");
             ("Sell date 2", "01/02/2024")] in
  dict_get (Normalizer.clear_duplicate_seller pv) "Buyer print name 2" = Some ""
  /\ dict_get (Normalizer.clear_duplicate_seller pv) "Sell date 2" = Some ""
  /\ dict_get (Normalizer.clear_duplicate_seller pv) "Print seller's name"
     = Some "Jane Doe".
Proof.
  intros pv.
  destruct (duplicate_row_suppression pv) as [Hclear _].
  destruct Hclear as [_ Hkeys]; [now left|].
  split; [|split].
  - destruct (Hkeys "Buyer print name 2") as [Hends _];
      [vm_compute; set_solver|].
    apply Hends. now exists "Buyer print name".
  - destruct (Hkeys "Sell date 2") as [Hends _]; [vm_compute; set_solver|].
    apply Hends. now exists "Sell date".
  - reflexivity.
Defined.

Lemma commit_frame_witness :
  files Example.office !! Example.pdf_path = Some (Pdf Example.form)
  /\ filled_path Example.happy Example.pdf_path
     = Ok "/tmp/mcp_pdfs/contract_filled.pdf"
  /\ write_error Example.happy "/tmp/mcp_pdfs/contract_filled.pdf" = None
  /\ exists r st' pv doc',
       _fill_pdf_form Example.happy Example.pdf_path 0 Example.office
       = (Ok r, st')
       /\ dict_get r "status" = Some (VStr "success")
       /\ dict_get r "output_path"
          = Some (VStr "/tmp/mcp_pdfs/contract_filled.pdf")
       /\ objects st' = (objects Example.office ++ [pv])%list
       /\ files st' !! "/tmp/mcp_pdfs/contract_filled.pdf" = Some (Pdf doc')
       /\ forall i j,
            (Spec.widget_at doc' i j = None
             <-> Spec.widget_at Example.form i j = None)
            /\ forall w, Spec.widget_at Example.form i j = Some w ->
                 (field_name w ∉ dict_keys pv ->
                  Spec.widget_at doc' i j = Some w)
                 /\ (Spec.widget_at doc' i j <> Some w ->
                     field_name w ∈ dict_keys pv).
Proof.
  assert (H1 : files Example.office !! Example.pdf_path = Some (Pdf Example.form))
    by (vm_compute; reflexivity).
  assert (H2 : filled_path Example.happy Example.pdf_path
               = Ok "/tmp/mcp_pdfs/contract_filled.pdf")
    by (vm_compute; reflexivity).
  assert (H3 : write_error Example.happy "/tmp/mcp_pdfs/contract_filled.pdf"
               = None)
    by (vm_compute; reflexivity).
  split; [exact H1|]. split; [exact H2|]. split; [exact H3|].
  exact (commit_frame Example.happy Example.office Example.pdf_path 0
           Example.form _ H1 H2 H3).
Defined.

(** The sample form is made of text fields: once filled from the sample
    answers, its inspection shows "03" for the month. *)
Lemma commit_round_trip_witness :
  exists r st' fields entry,
    _fill_pdf_form Example.happy Example.pdf_path 0 Example.office
    = (Ok r, st')
    /\ dict_get r "fields_filled" = Some (VInt 4)
    /\ _extract_form_fields Example.happy
         "/tmp/mcp_pdfs/contract_filled.pdf" st'
       = (Ok [("status", VStr "success");
              ("filepath", VStr "/tmp/mcp_pdfs/contract_filled.pdf");
              ("num_fields", VInt (Z.of_nat (length fields)));
              ("fields", VDict fields)],
          st')
    /\ dict_get fields "Month" = Some (VDict entry)
    /\ dict_get entry "value" = Some (VStr "03").
Proof.
  destruct (commit_round_trip Example.happy Example.office Example.pdf_path 0
              Example.answers Example.form
              "/tmp/mcp_pdfs/contract_filled.pdf")
    as (r & st' & pv & doc' & fields & Hrun & Hnorm & _ & _ & _ & Hcount
        & Hinspect & Hshown);
    [vm_compute; reflexivity ..|].
  destruct Hnorm as (pv1 & Hpv1 & Hpv).
  vm_compute in Hpv1. injection Hpv1 as <-. vm_compute in Hpv. subst pv.
  destruct (Hshown "Month" "03") as (entry & Hentry & Hvalue).
  - apply list_elem_of_In. vm_compute. tauto.
  - reflexivity.
  - intros w Hin _. apply list_elem_of_In in Hin. vm_compute in Hin.
    repeat (destruct Hin as [<-|Hin]; [reflexivity|]). contradiction.
  - exists r, st', fields, entry. split; [exact Hrun|].
    split; [exact Hcount|]. split; [exact Hinspect|]. now split.
Defined.

(** C9 fails as stated on a check box.  The mapping gives "true" for the
    box "Paid in full" of the receipt; the call succeeds, and the inspection
    of the saved document does not show "true" for that field. *)
Lemma commit_round_trip_counterexample :
  exists r st' pv fields entry,
    _fill_pdf_form Example.happy Example.pdf_path 0 Example.till = (Ok r, st')
    /\ Spec.succeeded r
    /\ objects st' = (objects Example.till ++ [pv])%list
    /\ "Paid in full" ∈ Spec.field_names Example.receipt
    /\ dict_get pv "Paid in full" = Some "true"
    /\ _extract_form_fields Example.happy
         "/tmp/mcp_pdfs/contract_filled.pdf" st'
       = (Ok [("status", VStr "success");
              ("filepath", VStr "/tmp/mcp_pdfs/contract_filled.pdf");
              ("num_fields", VInt (Z.of_nat (length fields)));
              ("fields", VDict fields)],
          st')
    /\ dict_get fields "Paid in full" = Some (VDict entry)
    /\ dict_get entry "value" <> Some (VStr "true").
Proof.
  pose (doc' := [ [ Widget "Buyer" "Text" "John Roe";
                    Widget "Paid in full" "CheckBox" "Off" ] ]).
  eexists _, _, _, (inspect_pages doc' 0 []), _.
  split; [vm_compute; reflexivity|].
  split; [reflexivity|].
  split; [reflexivity|].
  split; [apply list_elem_of_In; vm_compute; tauto|].
  split; [reflexivity|].
  split; [apply extract_form_fields_run; vm_compute; reflexivity|].
  split; [reflexivity | discriminate].
Qed.

(** The caller's mapping is object 0 of the store; the disk is full, and the
    call returns an error. *)
Lemma fill_keeps_caller_mapping_witness :
  let W := Example.world true (Pdf Example.form) true false in
  objects Example.office !! 0 = Some Example.answers
  /\ let '(r, st') := _fill_pdf_form W Example.pdf_path 0 Example.office in
     (exists res, r = Ok res)
     /\ objects st' !! 0 = Some Example.answers
     /\ forall l d', objects Example.office !! l = Some d' ->
                     objects st' !! l = Some d'.
Proof.
  intros W.
  assert (H : objects Example.office !! 0 = Some Example.answers)
    by reflexivity.
  split; [exact H|].
  exact (fill_keeps_caller_mapping W Example.office Example.pdf_path 0
           Example.answers H).
Defined.

(** * Further properties of the operations *)

(** ** [_download_pdf]: where the file goes *)

Section SegmentFacts.
Lemma contains_slash_cons c r :
  Str.contains "/" (String c r)
  = if Ascii.eqb c "/"%char then true else Str.contains "/" r.
Proof.
  cbn [Str.contains String.prefix].
  destruct (ascii_dec "/"%char c) as [<-|Hne].
  - now destruct r.
  - destruct (Ascii.eqb_spec c "/"%char) as [->|_]; [congruence|].
    reflexivity.
Qed.

Lemma contains_slash_app a b :
  Str.contains "/" (a ++ b) = Str.contains "/" a || Str.contains "/" b.
Proof.
  induction a as [|c a IH].
  - reflexivity.
  - change (String c a ++ b) with (String c (a ++ b)).
    rewrite !contains_slash_cons, IH. now destruct (Ascii.eqb c "/"%char).
Qed.

Lemma last_segment_no_slash s : Str.contains "/" (Str.last_segment s) = false.
Proof.
  induction s as [|c r IH]; [reflexivity|].
  cbn [Str.last_segment].
  destruct (Str.contains "/" r) eqn:Hr; [exact IH|].
  destruct (Ascii.eqb c "/"%char) eqn:Hc; [exact Hr|].
  now rewrite contains_slash_cons, Hc.
Qed.

Lemma last_segment_whole s :
  Str.contains "/" s = false -> Str.last_segment s = s.
Proof.
  destruct s as [|c r]; [reflexivity|].
  rewrite contains_slash_cons. cbn [Str.last_segment].
  destruct (Ascii.eqb c "/"%char); [discriminate|]. now intros ->.
Qed.

Lemma last_segment_after_slash pre seg :
  Str.contains "/" seg = false ->
  Str.last_segment (pre ++ "/" ++ seg) = seg.
Proof.
  intros Hseg. induction pre as [|c pre IH].
  - change ("" ++ "/" ++ seg) with (String "/"%char seg).
    cbn [Str.last_segment]. now rewrite Hseg.
  - change (String c pre ++ "/" ++ seg) with (String c (pre ++ "/" ++ seg)).
    cbn [Str.last_segment].
    rewrite contains_slash_app.
    change ("/" ++ seg) with (String "/"%char seg).
    rewrite (contains_slash_cons "/"%char seg). cbn [Ascii.eqb Bool.eqb].
    rewrite orb_true_r. exact IH.
Qed.

Lemma endswith_self_suffix s suffix : Str.endswith (s ++ suffix) suffix = true.
Proof. apply endswith_spec. now exists s. Qed.
End SegmentFacts.

(** X1. The name [_download_pdf] stores a body under always ends with
    ".pdf" and holds no slash, so the file lies directly in the working
    directory.  It is what follows the last slash of the URL (the whole URL
    when there is none), with ".pdf" appended unless it already ends so, and
    "downloaded.pdf" when nothing follows the last slash. *)
Theorem download_filename_shape (url : string) :
  let name := download_filename url in
  Str.endswith name ".pdf" = true
  /\ Str.contains "/" name = false
  /\ (forall pre seg,
        url = pre ++ "/" ++ seg -> Str.contains "/" seg = false ->
        name = match seg with
               | EmptyString => "downloaded.pdf"
               | _ => if Str.endswith seg ".pdf" then seg else seg ++ ".pdf"
               end)
  /\ (Str.contains "/" url = false -> url <> "" ->
      name = if Str.endswith url ".pdf" then url else url ++ ".pdf").
Proof.
  cbn zeta. unfold download_filename.
  assert (Hshape : forall f,
             Str.contains "/" f = false ->
             let name := if negb (Str.endswith f ".pdf") then f ++ ".pdf" else f in
             Str.endswith name ".pdf" = true /\ Str.contains "/" name = false).
  { intros f Hf. cbn zeta. destruct (Str.endswith f ".pdf") eqn:E; cbn [negb].
    - now split.
    - split; [apply endswith_self_suffix|].
      rewrite contains_slash_app, Hf. reflexivity. }
  assert (Hor : Str.contains "/" (Str.or_ (Str.last_segment url) "downloaded.pdf")
                = false).
  { unfold Str.or_. destruct (Str.truthy (Str.last_segment url));
      [apply last_segment_no_slash | reflexivity]. }
  destruct (Hshape _ Hor) as [Hends Hslash].
  split; [exact Hends|]. split; [exact Hslash|]. split.
  - intros pre seg -> Hseg. rewrite (last_segment_after_slash pre seg Hseg).
    destruct seg as [|c seg]; [reflexivity|].
    unfold Str.or_. cbn [Str.truthy].
    now destruct (Str.endswith (String c seg) ".pdf").
  - intros Hnone Hne. rewrite (last_segment_whole url Hnone).
    destruct url as [|c url]; [congruence|].
    unfold Str.or_. cbn [Str.truthy].
    now destruct (Str.endswith (String c url) ".pdf").
Qed.

(** X2. [_download_pdf] succeeds exactly when the body is fetched and the
    file can be written.  Then the file under the working directory holds the
    body, no other path changes, and the result carries that path and the
    length of the body.  Otherwise the result is an error whose message
    starts with "Failed to download PDF: ": nothing is written when the fetch
    fails, and when the write fails no path but the target has changed. *)
Theorem download_outcomes (C : collaborators) (url : string) (st : state) :
  let filepath := WORK_DIR ++ "/" ++ download_filename url in
  (forall response,
      httpx_get C true url = Ok response ->
      write_error C filepath = None ->
      exists st',
        _download_pdf C url st
        = (Ok [("status", VStr "success");
               ("message", VStr ("Downloaded PDF to " ++ filepath));
               ("filepath", VStr filepath);
               ("size_bytes", VInt (content_length C (content response)))],
           st')
        /\ files st' !! filepath = Some (content response)
        /\ (forall path, path <> filepath -> files st' !! path = files st !! path)
        /\ objects st' = objects st)
  /\ (forall msg,
        httpx_get C true url = Raise msg ->
        _download_pdf C url st
        = (Ok (error_result "Failed to download PDF: " msg), st))
  /\ (forall response msg,
        httpx_get C true url = Ok response ->
        write_error C filepath = Some msg ->
        exists st',
          _download_pdf C url st
          = (Ok (error_result "Failed to download PDF: " msg), st')
          /\ (forall path, path <> filepath ->
                           files st' !! path = files st !! path)
          /\ objects st' = objects st).
Proof.
  cbn zeta. rewrite download_pdf_run. split; [|split].
  - intros response -> Hwrite. cbn zeta. rewrite Hwrite.
    eexists. split; [reflexivity|]. cbn [files objects].
    split; [apply lookup_insert_eq|]. split; [|reflexivity].
    intros path Hne. now apply lookup_insert_ne.
  - now intros msg ->.
  - intros response msg -> Hwrite. cbn zeta. rewrite Hwrite.
    eexists. split; [reflexivity|]. cbn [files objects].
    split; [|reflexivity].
    intros path Hne. now apply lookup_partial_alter_ne.
Qed.

(** The attachment of the sample email is fetched and stored. *)
Lemma download_outcomes_witness :
  exists response st',
    httpx_get Example.happy true Example.drive_link = Ok response
    /\ write_error Example.happy
         (WORK_DIR ++ "/" ++ download_filename Example.drive_link) = None
    /\ fst (_download_pdf Example.happy Example.drive_link Example.start)
       = Ok Example.fetched
    /\ snd (_download_pdf Example.happy Example.drive_link Example.start) = st'
    /\ files st' !! Example.pdf_path = Some (Pdf Example.form).
Proof.
  destruct (proj1 (download_outcomes Example.happy Example.drive_link
                     Example.start)
              {| content := Pdf Example.form; json := Raise "not JSON" |})
    as (st' & Hrun & Hfile & _); [vm_compute; reflexivity ..|].
  eexists _, st'. split; [vm_compute; reflexivity|].
  split; [vm_compute; reflexivity|].
  rewrite Hrun. split; [reflexivity|]. split; [reflexivity|]. exact Hfile.
Defined.

(** ** [_parse_email]: the links of a part *)

Section LinkFacts.
Lemma append_cons a s t : String a s ++ t = String a (s ++ t).
Proof. reflexivity. Qed.

Lemma prefix_split p s :
  String.prefix p s = true -> s = p ++ Links.drop (String.length p) s.
Proof.
  revert s. induction p as [|a p IH]; intros s; [reflexivity|].
  destruct s as [|b s]; cbn [String.prefix]; [discriminate|].
  destruct (ascii_dec a b) as [<-|_]; [|discriminate].
  intros H. cbn [String.length Links.drop]. rewrite append_cons.
  f_equal. now apply IH.
Qed.

Lemma link_chars_split s :
  exists post,
    s = Links.link_chars s ++ post
    /\ Props.all_chars (fun c => negb (Links.ends_link c)) (Links.link_chars s)
       = true
    /\ Props.stops post.
Proof.
  induction s as [|c s (post & Hs & Hall & Hstop)]; cbn [Links.link_chars].
  - now exists "".
  - destruct (Links.ends_link c) eqn:Hc.
    + exists (String c s). now repeat split.
    + exists post. rewrite append_cons. cbn [Props.all_chars].
      rewrite Hc, Hall. repeat split; [now f_equal | exact Hstop].
Qed.

Lemma match_here_spec s url :
  Links.match_here s = Some url ->
  Props.is_link url /\ exists post, s = url ++ post /\ Props.stops post.
Proof.
  unfold Links.match_here.
  destruct (String.prefix Links.link_prefix s) eqn:Hp; [|discriminate].
  apply prefix_split in Hp.
  destruct (link_chars_split (Links.drop (String.length Links.link_prefix) s))
    as (post & Hrest & Hall & Hstop).
  destruct (Links.link_chars (Links.drop (String.length Links.link_prefix) s))
    as [|c tail] eqn:Htail; [discriminate|].
  intros [= <-]. split.
  - exists (String c tail). now repeat split.
  - exists post. split; [|exact Hstop].
    rewrite Hp at 1. rewrite Hrest at 1.
    generalize Links.link_prefix. intros p.
    induction p as [|a p IH]; [reflexivity|]. rewrite !append_cons.
    now f_equal.
Qed.

Lemma findall_from_spec s skip url :
  url ∈ Links.findall_from s skip ->
  Props.is_link url
  /\ exists pre post, s = pre ++ url ++ post /\ Props.stops post.
Proof.
  revert skip. induction s as [|c r IH]; intros skip; cbn [Links.findall_from].
  - now intros ?%elem_of_nil.
  - assert (Hrest : forall k, url ∈ Links.findall_from r k ->
               Props.is_link url
               /\ exists pre post,
                    String c r = pre ++ url ++ post /\ Props.stops post).
    { intros k [Hlink (pre & post & -> & Hstop)]%IH. split; [exact Hlink|].
      now exists (String c pre), post. }
    destruct skip as [|k]; [|apply Hrest].
    destruct (Links.match_here (String c r)) as [u|] eqn:Hm; [|apply Hrest].
    intros [->|Hin]%elem_of_cons; [|now apply (Hrest _ Hin)].
    destruct (match_here_spec _ _ Hm) as [Hlink (post & Hs & Hstop)].
    split; [exact Hlink|]. now exists "", post.
Qed.

Lemma contains_cons_false p c r :
  Str.contains p (String c r) = false ->
  String.prefix p (String c r) = false /\ Str.contains p r = false.
Proof.
  cbn [Str.contains]. now destruct (String.prefix p (String c r)).
Qed.

Lemma findall_from_none s skip :
  Str.contains Links.link_prefix s = false -> Links.findall_from s skip = [].
Proof.
  revert skip. induction s as [|c r IH]; intros skip; [reflexivity|].
  intros [Hp Hr]%contains_cons_false. cbn [Links.findall_from].
  destruct skip as [|k]; [|now apply IH].
  unfold Links.match_here. rewrite Hp. now apply IH.
Qed.
End LinkFacts.

(** X3. Every link [re.findall] extracts from the text of a part is the
    prefix "https://drive.google.com/" followed by at least one character,
    none of them white space or a quote; it occurs in the text, and is
    followed there by the end of the text or by white space or a quote.  A
    text that does not contain the prefix yields no link. *)
Theorem findall_links (text : string) :
  (forall url,
      url ∈ Links.findall text ->
      Props.is_link url
      /\ exists pre post, text = pre ++ url ++ post /\ Props.stops post)
  /\ (Str.contains Links.link_prefix text = false -> Links.findall text = []).
Proof.
  split.
  - intros url. apply findall_from_spec.
  - apply findall_from_none.
Qed.

Section PartFacts.
Variable C : collaborators.

Lemma scan_parts_links parts pdf_urls :
  forallb Spec.is_part parts = true ->
  scan_parts C parts pdf_urls
  = Ok (pdf_urls ++ concat (map (Props.part_links C) parts))%list.
Proof.
  revert pdf_urls. induction parts as [|part rest IH]; intros pdf_urls.
  - intros _. cbn. now rewrite app_nil_r.
  - cbn [forallb]. intros [Hpart Hrest]%andb_true_iff.
    cbn [map concat scan_parts]. unfold Props.part_links at 1.
    destruct part as [| | | | |q]; try discriminate.
    cbn [Spec.is_part Spec.is_pdf_part] in *. cbn [Py.get res_bind].
    destruct (dict_get_default q "filename" (VStr "")) as [| | |filename| |];
      try discriminate.
    cbn [Py.endswith res_bind].
    destruct (Str.endswith filename ".pdf"); cbn [andb].
    + destruct (Str.contains "drive.google.com" (py_str C (VDict q))).
      * rewrite (IH _ Hrest). now rewrite app_assoc.
      * now rewrite (IH _ Hrest).
    + now rewrite (IH _ Hrest).
Qed.
End PartFacts.

(** The body of [_parse_email] on a well-formed payload. *)
Lemma parse_email_data_run (C : collaborators) (email_data : pyval) :
  Spec.well_formed email_data = true ->
  exists d s parts,
    email_data = VDict d
    /\ dict_get_default d "sender" (VDict []) = VDict s
    /\ Spec.payload_parts email_data = Some parts
    /\ let urls := concat (map (Props.part_links C) parts) in
       parse_email_data C email_data
       = Ok [("status", VStr "success");
             ("sender", dict_get_default s "email" (VStr ""));
             ("subject", dict_get_default d "subject" (VStr ""));
             ("pdf_count", VInt (Z.of_nat (length urls)));
             ("pdf_urls", VList (map VStr urls))].
Proof.
  intros Hwf. unfold Spec.well_formed in Hwf.
  destruct email_data as [| | | | |d]; try discriminate.
  apply andb_true_iff in Hwf as [Hsender Hparts].
  destruct (dict_get_default d "sender" (VDict [])) as [| | | | |s] eqn:Hs;
    try discriminate.
  destruct (Spec.payload_parts (VDict d)) as [parts|] eqn:Hpayload;
    [|discriminate].
  exists d, s, parts.
  split; [reflexivity|]. split; [exact Hs|]. split; [reflexivity|].
  cbn zeta.
  unfold Spec.payload_parts in Hpayload. unfold parse_email_data.
  cbn [Py.get res_bind]. rewrite Hs.
  destruct (dict_get_default d "payload" (VDict [])) as [| | | | |p];
    try discriminate.
  cbn [Py.get res_bind].
  destruct (Py.iter (dict_get_default p "parts" (VList []))) as [l|msg];
    [|discriminate].
  injection Hpayload as ->. cbn [res_bind].
  rewrite (scan_parts_links C parts [] Hparts). reflexivity.
Qed.

(** X4. On a well-formed payload [_parse_email] returns the sender's email
    and the subject (empty strings when absent) and, as [pdf_urls], the links
    of the parts in the order of the parts, each part giving the links of
    its text when its filename ends in ".pdf" and its text mentions
    "drive.google.com", and none otherwise; [pdf_count] is their number. *)
Theorem parse_email_urls (C : collaborators) (email_json_url : string)
    (st : state) (response : response) (email_data : pyval) :
  httpx_get C false email_json_url = Ok response ->
  json response = Ok email_data ->
  Spec.well_formed email_data = true ->
  exists d s parts,
    email_data = VDict d
    /\ dict_get_default d "sender" (VDict []) = VDict s
    /\ Spec.payload_parts email_data = Some parts
    /\ let urls := concat (map (Props.part_links C) parts) in
       _parse_email C email_json_url st
       = (Ok [("status", VStr "success");
              ("sender", dict_get_default s "email" (VStr ""));
              ("subject", dict_get_default d "subject" (VStr ""));
              ("pdf_count", VInt (Z.of_nat (length urls)));
              ("pdf_urls", VList (map VStr urls))],
          st).
Proof.
  intros Hget Hjson Hwf. rewrite parse_email_run, Hget, Hjson.
  destruct (parse_email_data_run C email_data Hwf)
    as (d & s & parts & Hd & Hs & Hp & Hdata).
  exists d, s, parts. split; [exact Hd|]. split; [exact Hs|].
  split; [exact Hp|]. cbn zeta in *. now rewrite Hdata.
Qed.

(** The sample email: one part "contract.pdf" with one link. *)
Lemma parse_email_urls_witness :
  httpx_get Example.happy false Example.email_url
  = Ok {| content := Unreadable 0; json := Ok Example.email |}
  /\ Spec.well_formed Example.email = true
  /\ _parse_email Example.happy Example.email_url Example.start
     = (Ok [("status", VStr "success");
            ("sender", VStr "agent@example.com");
            ("subject", VStr "Bill of sale");
            ("pdf_count", VInt 1);
            ("pdf_urls", VList [VStr Example.drive_link])],
        Example.start).
Proof.
  assert (H1 : httpx_get Example.happy false Example.email_url
               = Ok {| content := Unreadable 0; json := Ok Example.email |})
    by reflexivity.
  assert (H2 : Spec.well_formed Example.email = true) by reflexivity.
  split; [exact H1|]. split; [exact H2|].
  destruct (parse_email_urls Example.happy Example.email_url Example.start
              _ _ H1 eq_refl H2) as (d & s & parts & Hd & Hs & Hp & Hrun).
  rewrite Hrun. injection Hd as <-.
  vm_compute in Hs. injection Hs as <-.
  vm_compute in Hp. injection Hp as <-.
  vm_compute. reflexivity.
Defined.

(** ** [_extract_form_fields]: what is recorded *)

Section InspectLast.
Variable name : string.

(** The entry recorded for a widget of page [n]. *)
Let entry (n : nat) (w : widget) : pyval :=
  VDict [("type", VStr (field_type_string w));
         ("value", VStr (field_value w));
         ("page", VInt (Z.of_nat n))].

Lemma record_widget_entry n fields w :
  record_widget n fields w = dict_set fields (field_name w) (entry n w).
Proof. unfold record_widget, entry. now rewrite or_empty. Qed.

Lemma record_fold_last n (widgets : page) fields e :
  dict_get (fold_left (record_widget n) widgets fields) name = Some e ->
((name ∉ map field_name widgets) /\ dict_get fields name = Some e)
  \/ exists j w,
       widgets !! j = Some w /\ field_name w = name /\ e = entry n w
       /\ forall j' w', widgets !! j' = Some w' -> field_name w' = name ->
                        j' <= j.
Proof.
  revert fields. induction widgets as [|w ws IH]; intros fields;
    cbn [fold_left map].
  - intros He. left. split; [apply not_elem_of_nil | exact He].
  - intros [[Hnotin He] | (j & w0 & Hj & Hname & He & Hlast)]%IH.
    + rewrite record_widget_entry, dict_get_set in He.
      destruct (String.eqb_spec (field_name w) name) as [Heq|Hne].
      * right. exists 0, w. injection He as <-.
        repeat split; [exact Heq|].
        intros [|j'] w' Hj' Hw'; [lia|].
        exfalso. apply Hnotin. cbn in Hj'.
        apply list_elem_of_In, in_map_iff. exists w'.
        split; [exact Hw'|]. apply list_elem_of_In.
        eapply list_elem_of_lookup_2, Hj'.
      * left. split; [|exact He].
        apply not_elem_of_cons. split; [congruence | exact Hnotin].
    + right. exists (S j), w0. repeat split; try assumption.
      intros [|j'] w' Hj' Hw'; [lia|]. cbn in Hj'.
      specialize (Hlast j' w' Hj' Hw'). lia.
Qed.

Lemma inspect_pages_last (pages : document) n fields e :
  dict_get (inspect_pages pages n fields) name = Some e ->
((name ∉ Spec.field_names pages) /\ dict_get fields name = Some e)
  \/ exists i j w,
       Spec.widget_at pages i j = Some w /\ field_name w = name
       /\ e = entry (n + i) w
       /\ forall i' j' w', Spec.widget_at pages i' j' = Some w' ->
                           field_name w' = name ->
                           i' < i \/ (i' = i /\ j' <= j).
Proof.
  unfold Spec.field_names.
  revert n fields. induction pages as [|widgets rest IH]; intros n fields;
    cbn [inspect_pages concat map].
  - intros He. left. split; [apply not_elem_of_nil | exact He].
  - rewrite map_app.
    intros [[Hnotin He] | (i & j & w & Hw & Hname & He & Hlast)]%IH.
    + apply record_fold_last in He
        as [[Hnotin' He] | (j & w & Hj & Hname & He & Hlast)].
      * left. split; [|exact He]. rewrite elem_of_app. tauto.
      * right. exists 0, j, w. rewrite Nat.add_0_r.
        repeat split; try assumption.
        intros [|i'] j' w' Hw' Hname'.
        -- right. split; [reflexivity|]. now apply (Hlast j' w').
        -- exfalso. apply Hnotin. unfold Spec.widget_at in Hw'. cbn in Hw'.
           destruct (rest !! i') as [p|] eqn:Hp; [|discriminate].
           apply list_elem_of_In, in_map_iff. exists w'.
           split; [exact Hname'|]. apply in_concat. exists p.
           split; apply list_elem_of_In; eapply list_elem_of_lookup_2; eauto.
    + right. exists (S i), j, w.
      replace (n + S i) with (S n + i) by lia.
      repeat split; try assumption.
      intros [|i'] j' w' Hw' Hname'; [left; lia|].
      destruct (Hlast i' j' w' Hw' Hname') as [Hlt|[-> Hle]];
        [left; lia | right; now split].
Qed.
End InspectLast.

Section InspectKeysAll.
Lemma inspect_pages_wf (pages : document) n (fields : dict pyval) :
  dict_wf fields -> dict_wf (inspect_pages pages n fields).
Proof.
  revert n fields. induction pages as [|widgets rest IH]; intros n fields Hwf;
    cbn [inspect_pages]; [exact Hwf|].
  apply IH. clear IH. revert fields Hwf.
  induction widgets as [|w ws IHw]; intros fields Hwf; cbn [fold_left];
    [exact Hwf|].
  apply IHw. unfold record_widget. now apply dict_set_wf.
Qed.
End InspectKeysAll.

(** X5. On a readable document [_extract_form_fields] succeeds and leaves
    the state as it was.  The fields it reports are exactly the field names
    of the document, each once, and [num_fields] is their number; the entry
    of a name gives the type, the value and the page of the last widget of
    that name, in page order. *)
Theorem extract_form_fields_fields (C : collaborators) (st : state)
    (pdf_path : string) (doc : document) :
  files st !! pdf_path = Some (Pdf doc) ->
  exists fields,
    _extract_form_fields C pdf_path st
    = (Ok [("status", VStr "success");
           ("filepath", VStr pdf_path);
           ("num_fields", VInt (Z.of_nat (length fields)));
           ("fields", VDict fields)],
       st)
    /\ NoDup (dict_keys fields)
    /\ (forall name, name ∈ dict_keys fields <-> name ∈ Spec.field_names doc)
    /\ (forall name e,
          dict_get fields name = Some e ->
          exists i j w,
            Spec.widget_at doc i j = Some w /\ field_name w = name
            /\ e = VDict [("type", VStr (field_type_string w));
                          ("value", VStr (field_value w));
                          ("page", VInt (Z.of_nat i))]
            /\ forall i' j' w', Spec.widget_at doc i' j' = Some w' ->
                                field_name w' = name ->
                                i' < i \/ (i' = i /\ j' <= j)).
Proof.
  intros Hfile. exists (inspect_pages doc 0 []).
  split; [now apply extract_form_fields_run|].
  split; [apply inspect_pages_wf, NoDup_nil_2|].
  assert (Hlast : forall name e,
             dict_get (inspect_pages doc 0 []) name = Some e ->
             exists i j w,
               Spec.widget_at doc i j = Some w /\ field_name w = name
               /\ e = VDict [("type", VStr (field_type_string w));
                             ("value", VStr (field_value w));
                             ("page", VInt (Z.of_nat i))]
               /\ forall i' j' w', Spec.widget_at doc i' j' = Some w' ->
                                   field_name w' = name ->
                                   i' < i \/ (i' = i /\ j' <= j)).
  { intros name e He.
    apply inspect_pages_last in He as [[_ He] | H]; [discriminate|exact H]. }
  split; [|exact Hlast].
  intros name. split.
  - intros Hin. apply dict_contains_elem in Hin. unfold dict_contains in Hin.
    destruct (dict_get (inspect_pages doc 0 []) name) as [e|] eqn:He;
      [|discriminate].
    destruct (Hlast name e He) as (i & j & w & Hw & Hname & _).
    unfold Spec.widget_at in Hw.
    destruct (doc !! i) as [p|] eqn:Hp; [|discriminate].
    unfold Spec.field_names.
    apply list_elem_of_In, in_map_iff. exists w.
    split; [exact Hname|]. apply in_concat. exists p.
    split; apply list_elem_of_In; eapply list_elem_of_lookup_2; eauto.
  - intros Hin.
    destruct (inspect_pages_some name doc 0 []) as [e He]; [now left|].
    eapply elem_dict_keys, dict_get_Some_elem, He.
Qed.

(** The form of the sample run has six fields. *)
Lemma extract_form_fields_fields_witness :
  files Example.office !! Example.pdf_path = Some (Pdf Example.form)
  /\ exists fields,
       _extract_form_fields Example.happy Example.pdf_path Example.office
       = (Ok [("status", VStr "success");
              ("filepath", VStr Example.pdf_path);
              ("num_fields", VInt (Z.of_nat (length fields)));
              ("fields", VDict fields)],
          Example.office)
       /\ length fields = 6.
Proof.
  assert (H : files Example.office !! Example.pdf_path = Some (Pdf Example.form))
    by (vm_compute; reflexivity).
  split; [exact H|].
  destruct (extract_form_fields_fields Example.happy Example.office
              Example.pdf_path Example.form H) as (fields & Hrun & _).
  exists fields. split; [exact Hrun|].
  rewrite (extract_form_fields_run Example.happy _ _ _ H) in Hrun.
  assert (fields = inspect_pages Example.form 0 []) as -> by congruence.
  reflexivity.
Defined.

(** ** Step 4 of the orchestrator: the names to fill *)

Section SelectFacts.
Lemma select_field_names_filter (fields : dict pyval) names :
  (forall name, name ∈ names ->
     exists entry type,
       dict_get fields name = Some (VDict entry)
       /\ dict_get entry "type" = Some type) ->
  select_field_names (VDict fields) names
  = Ok (List.filter (Props.fillable fields) names).
Proof.
  induction names as [|name rest IH]; intros Hall; [reflexivity|].
  cbn [select_field_names List.filter].
  destruct (Hall name) as (entry & type & Hentry & Htype); [now left|].
  unfold Py.subscript at 1, Py.getitem. rewrite Hentry. cbn [res_bind].
  unfold Py.subscript at 1, Py.getitem. rewrite Htype. cbn [res_bind].
  rewrite IH by (intros n Hn; apply Hall; now right). cbn [res_bind].
  unfold Props.fillable. rewrite Hentry, Htype.
  now destruct (Py.ne_str type "Button"
                && negb (existsb (String.eqb name) excluded_patterns)).
Qed.

Lemma last_named_unique doc name i j w i0 j0 w0 :
  Props.last_named doc name i j w ->
  Props.last_named doc name i0 j0 w0 ->
  w = w0.
Proof.
  intros (Hw & Hname & Hlast) (Hw0 & Hname0 & Hlast0).
  destruct (Hlast i0 j0 w0 Hw0 Hname0) as [Hlt|[-> Hle]];
    destruct (Hlast0 i j w Hw Hname) as [Hlt0|[Heq Hle0]]; try lia.
  assert (j = j0) as -> by lia. congruence.
Qed.
End SelectFacts.

(** X6. On the fields [_extract_form_fields] reports for a document, the
    selection of step 4 never raises, and keeps a name exactly when it is
    not one of Year-1 .. Year-4 and the last widget of that name is not a
    "Button". *)
Theorem field_selection (doc : document) :
  let fields := inspect_pages doc 0 [] in
  exists selected,
    select_field_names (VDict fields) (dict_keys fields) = Ok selected
    /\ forall name,
         name ∈ selected
         <-> (name ∉ excluded_patterns)
             /\ exists i j w,
                  Props.last_named doc name i j w
                  /\ field_type_string w <> "Button".
Proof.
  intros fields.
  assert (Hentry : forall name e,
             dict_get fields name = Some e ->
             exists i j w,
               Props.last_named doc name i j w
               /\ e = VDict [("type", VStr (field_type_string w));
                             ("value", VStr (field_value w));
                             ("page", VInt (Z.of_nat i))]).
  { intros name e He.
    apply inspect_pages_last in He as [[_ He] | (i & j & w & H1 & H2 & H3 & H4)];
      [discriminate|].
    exists i, j, w. now repeat split. }
  exists (List.filter (Props.fillable fields) (dict_keys fields)). split.
  - apply select_field_names_filter. intros name Hin.
    apply dict_contains_elem in Hin. unfold dict_contains in Hin.
    destruct (dict_get fields name) as [e|] eqn:He; [|discriminate].
    destruct (Hentry name e He) as (i & j & w & _ & ->).
    now eexists _, _.
  - intros name.
    rewrite list_elem_of_In, filter_In, <- list_elem_of_In.
    unfold Props.fillable. rewrite andb_true_iff, negb_true_iff.
    assert (Hexcl : existsb (String.eqb name) excluded_patterns = false
                    <-> name ∉ excluded_patterns).
    { rewrite <- not_true_iff_false, existsb_exists, list_elem_of_In.
      split; intros H Hin; apply H.
      - exists name. split; [exact Hin | apply String.eqb_refl].
      - destruct Hin as (x & Hx & ->%String.eqb_eq). exact Hx. }
    rewrite Hexcl. split.
    + intros (Hin & Htype & Hnot). split; [exact Hnot|].
      destruct (dict_get fields name) as [e|] eqn:He; [|discriminate].
      destruct (Hentry name e He) as (i & j & w & Hlast & ->).
      exists i, j, w. split; [exact Hlast|].
      cbn in Htype. intros Hbutton. rewrite Hbutton in Htype. discriminate.
    + intros (Hnot & i & j & w & Hlast & Hbutton).
      assert (Hnames : name ∈ Spec.field_names doc).
      { destruct Hlast as (Hw & Hname & _). unfold Spec.widget_at in Hw.
        destruct (doc !! i) as [p|] eqn:Hp; [|discriminate].
        apply list_elem_of_In, in_map_iff. exists w.
        split; [exact Hname|]. apply in_concat. exists p.
        split; apply list_elem_of_In; eapply list_elem_of_lookup_2; eauto. }
      destruct (inspect_pages_some name doc 0 []) as [e He]; [now left|].
      fold fields in He.
      split; [eapply elem_dict_keys, dict_get_Some_elem, He|].
      split; [|exact Hnot].
      rewrite He.
      destruct (Hentry name e He) as (i0 & j0 & w0 & Hlast0 & ->).
      rewrite <- (last_named_unique _ _ _ _ _ _ _ _ Hlast Hlast0).
      cbn. apply negb_true_iff. now apply String.eqb_neq.
Qed.

(** ** [_fill_pdf_form]: what is written, and when *)

Section FillCases.
Variable C : collaborators.


(** A readable document whose output path cannot be derived or written:
    the store has the normalized mapping, and no path but the output path
    has changed. *)
Lemma fill_pdf_form_not_saved st pdf_path field_values doc msg :
  files st !! pdf_path = Some (Pdf doc) ->
  filled_path C pdf_path = Raise msg
  \/ (exists output_path,
        filled_path C pdf_path = Ok output_path
        /\ write_error C output_path = Some msg) ->
  exists pv files',
    Props.normalized C (default [] (objects st !! field_values)) pv
    /\ _fill_pdf_form C pdf_path field_values st
       = (Ok (error_result "Failed to fill PDF: " msg),
          {| files := files'; objects := (objects st ++ [pv])%list |})
    /\ (filled_path C pdf_path = Raise msg -> files' = files st)
    /\ (forall output_path path,
          filled_path C pdf_path = Ok output_path -> path <> output_path ->
          files' !! path = files st !! path).
Proof.
  intros Hfile Hfail.
  destruct (split_year_total C
              (Normalizer.normalize_months
                 (default [] (objects st !! field_values)) []))
    as [pv1 Hpv1].
  assert (Hrun : forall files',
             (let '(doc', _) :=
                fill_pages C (Normalizer.clear_duplicate_seller
                                (Normalizer.backfill_defaults pv1)) doc 0 in
              match filled_path C pdf_path with
              | Ok output_path =>
                  match write_error C output_path with
                  | Some _ =>
                      partial_alter (failed_write C output_path (Pdf doc'))
                        output_path (files st)
                  | None => files st
                  end
              | Raise _ => files st
              end) = files' ->
             _fill_pdf_form C pdf_path field_values st
             = (Ok (error_result "Failed to fill PDF: " msg),
                {| files := files';
                   objects := (objects st
                               ++ [Normalizer.clear_duplicate_seller
                                     (Normalizer.backfill_defaults pv1)])%list |})).
  { intros files' <-.
    unfold _fill_pdf_form, try_except, bind, pymupdf_open.
    rewrite Hfile.
    unfold new_object, read_object, update_object, lift, write_file, read_file,
      ret.
    cbn [files objects].
    rewrite read_past_new_object, lookup_new_object. cbn [from_option id].
    rewrite insert_new_object, lookup_new_object. cbn [from_option id].
    rewrite Hpv1.
    cbn [files objects].
    rewrite insert_new_object, lookup_new_object. cbn [from_option id].
    rewrite insert_new_object, lookup_new_object. cbn [from_option id].
    rewrite insert_new_object, lookup_new_object. cbn [from_option id].
    rewrite fill_pages_spec.
    destruct Hfail as [-> | (output_path & -> & ->)]; reflexivity. }
  eexists _, _. split; [exists pv1; split; [exact Hpv1 | reflexivity]|].
  split; [apply Hrun; reflexivity|].
  rewrite fill_pages_spec. split.
  - now intros ->.
  - intros output_path path -> Hne.
    destruct (write_error C output_path); [|reflexivity].
    now apply lookup_partial_alter_ne.
Qed.
End FillCases.

Section FillMapping.
Variable C : collaborators.

(** Once the document is open, the store gets one new object, the
    normalized mapping, whatever becomes of the output. *)
Lemma fill_pdf_form_mapping st pdf_path field_values doc :
  files st !! pdf_path = Some (Pdf doc) ->
  exists pv,
    Props.normalized C (default [] (objects st !! field_values)) pv
    /\ objects (snd (_fill_pdf_form C pdf_path field_values st))
       = (objects st ++ [pv])%list.
Proof.
  intros Hfile.
  destruct (filled_path C pdf_path) as [output_path|msg] eqn:Hpath.
  - destruct (write_error C output_path) as [msg|] eqn:Hwrite.
    + destruct (fill_pdf_form_not_saved C st pdf_path field_values doc msg
                  Hfile) as (pv & files' & Hpv & Hrun & _); [right; eauto|].
      exists pv. now rewrite Hrun.
    + destruct (fill_pdf_form_run C st pdf_path field_values doc output_path
                  Hfile Hpath Hwrite) as (pv1 & pv & Hpv1 & Hpv & Hrun).
      exists pv. rewrite Hrun. split; [now exists pv1 | reflexivity].
  - destruct (fill_pdf_form_not_saved C st pdf_path field_values doc msg
                Hfile) as (pv & files' & Hpv & Hrun & _); [now left|].
    exists pv. now rewrite Hrun.
Qed.
End FillMapping.


(** X8. A successful [_fill_pdf_form] writes the output path and nothing
    else: every other path holds what it held, the source document included
    when the output path differs from it. *)
Theorem fill_success_frame (C : collaborators) (st : state)
    (pdf_path : string) (field_values : nat)
    (doc : document) (output_path : string) :
  files st !! pdf_path = Some (Pdf doc) ->
  filled_path C pdf_path = Ok output_path ->
  write_error C output_path = None ->
  exists r st',
    _fill_pdf_form C pdf_path field_values st = (Ok r, st')
    /\ Spec.succeeded r
    /\ (forall path, path <> output_path ->
                     files st' !! path = files st !! path)
    /\ (pdf_path <> output_path -> files st' !! pdf_path = Some (Pdf doc)).
Proof.
  intros Hfile Hpath Hwrite.
  destruct (fill_pdf_form_run C st pdf_path field_values doc output_path
              Hfile Hpath Hwrite) as (pv1 & pv & _ & _ & Hrun).
  eexists _, _. split; [exact Hrun|]. split; [reflexivity|].
  cbn [files]. split.
  - intros path Hne. now apply lookup_insert_ne.
  - intros Hne. rewrite lookup_insert_ne by congruence. exact Hfile.
Qed.

Lemma fill_success_frame_witness :
  exists r st',
    _fill_pdf_form Example.happy Example.pdf_path 0 Example.office = (Ok r, st')
    /\ Spec.succeeded r
    /\ files st' !! Example.pdf_path = Some (Pdf Example.form).
Proof.
  destruct (fill_success_frame Example.happy Example.office Example.pdf_path 0
              Example.form "/tmp/mcp_pdfs/contract_filled.pdf")
    as (r & st' & Hrun & Hok & _ & Hsource); [vm_compute; reflexivity ..|].
  exists r, st'. split; [exact Hrun|]. split; [exact Hok|].
  apply Hsource. vm_compute. discriminate.
Defined.

(** ** The passes of the normalizer, composed *)

Section PassFacts.
Import Normalizer.
Variable C : collaborators.

Lemma dict_get_map_values {V} (f : string -> V -> V) (d : dict V) k :
  dict_get (map (fun '(key, value) => (key, f key value)) d) k
  = f k <$> dict_get d k.
Proof.
  induction d as [|[k' v] d IH]; [reflexivity|]. cbn [map dict_get].
  destruct (String.eqb_spec k' k) as [->|_]; [reflexivity | exact IH].
Qed.

(** A byte that lower-cases to one of the letters a to z is no digit and
    continues no character. *)
Lemma lower_char_letter c :
  Props.lower_letter (Str.lower_char c) = true ->
  Str.is_digit_char c = false /\ Str.is_continuation c = false.
Proof.
  destruct c as [[] [] [] [] [] [] [] []]; vm_compute; intros H;
    first [discriminate H | split; reflexivity].
Qed.

Lemma chars_cons c r :
  Str.chars (String c r)
  = match Str.chars r with
    | ch :: rest =>
        if Str.continues r then String c ch :: rest
        else String c EmptyString :: ch :: rest
    | [] => [String c EmptyString]
    end.
Proof. reflexivity. Qed.

(** A string that lower-cases to a word of two letters or more is not made
    of digits. *)
Lemma isdigit_word db v x y r :
  Str.lower v = String x (String y r) ->
  Props.lower_letter x = true -> Props.lower_letter y = true ->
  Str.isdigit db v = false.
Proof.
  intros Hv Hx Hy. destruct v as [|c [|c' v']]; try discriminate.
  cbn [Str.lower] in Hv. injection Hv as <- <- _.
  apply lower_char_letter in Hx as [Hdigit _].
  apply lower_char_letter in Hy as [_ Hcont].
  unfold Str.isdigit. rewrite chars_cons. cbn [Str.continues].
  rewrite Hcont.
  destruct (Str.chars (String c' v')); cbn [forallb Str.is_digit];
    now rewrite Hdigit.
Qed.

Lemma month_name_no_year value :
  Str.lower value ∈ Spec.full_month_names -> is_year_value C value = false.
Proof.
  intros E. unfold is_year_value, str. apply andb_false_iff. right.
  apply month_name_cases in E.
  repeat (destruct E as [E|E];
          [eapply isdigit_word; [exact E | reflexivity | reflexivity]|]).
  eapply isdigit_word; [exact E | reflexivity | reflexivity].
Qed.

(** A month name is no year, and neither is a month number. *)
Lemma month_value_year key value :
  is_year_value C (month_value key value) = is_year_value C value.
Proof.
  unfold month_value, str.
  destruct (Str.contains "month" (Str.lower key)); [|reflexivity]. cbn [andb].
  destruct (dict_contains month_map (Str.lower value)) eqn:E; [|reflexivity].
  apply dict_contains_elem in E. rewrite month_map_keys in E.
  rewrite (month_name_no_year value E).
  apply month_name_cases in E.
  repeat (destruct E as [E|E]; [rewrite E; reflexivity|]).
  rewrite E; reflexivity.
Qed.

Lemma scan_year_months items current_year :
  scan_year C (map (fun '(key, value) => (key, month_value key value)) items)
            current_year
  = scan_year C items current_year.
Proof.
  induction items as [|[k v] items IH]; [reflexivity|].
  cbn [map scan_year]. rewrite month_value_year, IH.
  destruct (is_year_key k); [|reflexivity].
  destruct (is_year_value C v) eqn:Hv; [|reflexivity].
  unfold str, month_value.
  destruct (Str.contains "month" (Str.lower k)); [|reflexivity]. cbn [andb].
  destruct (dict_contains month_map (Str.lower (str v))) eqn:E; [|reflexivity].
  exfalso. apply dict_contains_elem in E. rewrite month_map_keys in E.
  unfold str in E. rewrite (month_name_no_year v E) in Hv. discriminate.
Qed.

Lemma backfill_defaults_get pv field default_value :
  (field, default_value) ∈ defaults ->
  dict_get (backfill_defaults pv) field
  = Some (Spec.backfilled pv field default_value).
Proof.
  intros Hin. unfold backfill_defaults, defaults in *.
  rewrite !elem_of_cons, elem_of_nil in Hin. cbn [fold_left].
  unfold Spec.backfilled.
  repeat (destruct Hin as [Hin|Hin];
          [injection Hin as -> ->;
           rewrite !backfill_step_get; cbn [String.eqb Ascii.eqb Bool.eqb];
           unfold Spec.backfilled; rewrite ?backfill_step_get;
           cbn [String.eqb Ascii.eqb Bool.eqb]; reflexivity|]).
  contradiction.
Qed.

Lemma backfill_defaults_other pv k :
  k ∉ dict_keys defaults ->
  dict_get (backfill_defaults pv) k = dict_get pv k.
Proof.
  intros Hk. unfold backfill_defaults, defaults in *.
  cbn [dict_keys map fst] in Hk. rewrite !not_elem_of_cons in Hk.
  cbn [fold_left]. rewrite !backfill_step_get.
  repeat (destruct Hk as [Hne Hk];
          apply not_eq_sym, String.eqb_neq in Hne; rewrite Hne; clear Hne).
  reflexivity.
Qed.

Lemma clear_duplicate_seller_other pv k :
  Str.endswith k " 2" = false ->
  dict_get (clear_duplicate_seller pv) k = dict_get pv k.
Proof.
  intros Hk. unfold clear_duplicate_seller.
  destruct (duplicate_row pv); [|reflexivity].
  now rewrite clear_second_row_get, Hk, andb_false_r.
Qed.

Lemma split_year_get pv out k :
  split_year C pv = Ok out -> k ∉ Spec.year_fields ->
  dict_get out k = dict_get pv k.
Proof.
  intros Hout Hk.
  destruct (scan_year_four_digit C pv "2025" (default_year_four_digit C))
    as (a & b & c & d & HY & _).
  rewrite (split_year_chars C pv a b c d HY) in Hout. injection Hout as <-.
  unfold Spec.year_fields in Hk. rewrite !not_elem_of_cons in Hk.
  destruct Hk as (H1 & H2 & H3 & H4 & _). rewrite !dict_get_set.
  apply not_eq_sym, String.eqb_neq in H1, H2, H3, H4.
  now rewrite H1, H2, H3, H4.
Qed.
End PassFacts.

Section NormalizedFacts.
Import Normalizer.
Variable C : collaborators.

Lemma keeps_keys_refl d : Props.keeps_keys d d.
Proof. exists []. now rewrite app_nil_r. Qed.

Lemma keeps_keys_trans d1 d2 d3 :
  Props.keeps_keys d1 d2 -> Props.keeps_keys d2 d3 -> Props.keeps_keys d1 d3.
Proof.
  intros [e1 H1] [e2 H2]. exists (e1 ++ e2)%list.
  now rewrite H2, H1, app_assoc.
Qed.

Lemma keeps_keys_set d k v : Props.keeps_keys d (dict_set d k v).
Proof.
  unfold Props.keeps_keys. rewrite dict_keys_set.
  destruct (dict_contains d k); [exists []; now rewrite app_nil_r | now exists [k]].
Qed.

Lemma backfill_defaults_shape pv :
  dict_wf pv ->
  dict_wf (backfill_defaults pv) /\ Props.keeps_keys pv (backfill_defaults pv).
Proof.
  unfold backfill_defaults. generalize defaults. intros table.
  revert pv. induction table as [|[field dflt] table IH]; intros pv Hwf;
    cbn [fold_left].
  - split; [exact Hwf | apply keeps_keys_refl].
  - assert (Hstep : dict_wf (backfill_step pv (field, dflt))
                    /\ Props.keeps_keys pv (backfill_step pv (field, dflt))).
    { unfold backfill_step.
      destruct (negb (dict_contains pv field) || not_get pv field).
      - split; [now apply dict_set_wf | apply keeps_keys_set].
      - split; [exact Hwf | apply keeps_keys_refl]. }
    destruct Hstep as [Hwf' Hkeys'].
    destruct (IH _ Hwf') as [Hwf'' Hkeys''].
    split; [exact Hwf'' | eapply keeps_keys_trans; eauto].
Qed.

Lemma clear_duplicate_seller_keys pv :
  dict_keys (clear_duplicate_seller pv) = dict_keys pv.
Proof.
  unfold clear_duplicate_seller. destruct (duplicate_row pv); [|reflexivity].
  now apply clear_second_row_keys.
Qed.

Lemma month_value_truthy key value :
  Str.truthy (month_value key value) = Str.truthy value.
Proof.
  unfold month_value, str.
  destruct (Str.contains "month" (Str.lower key)); [|reflexivity]. cbn [andb].
  destruct (dict_contains month_map (Str.lower value)) eqn:E; [|reflexivity].
  destruct value as [|c value]; [discriminate|].
  apply dict_contains_elem in E. rewrite month_map_keys in E.
  apply month_name_cases in E.
  repeat (destruct E as [E|E]; [rewrite E; reflexivity|]).
  rewrite E; reflexivity.
Qed.

(** The mapping committed for well-formed items. *)
Lemma normalized_unfold items pv :
  dict_wf items -> Props.normalized C items pv ->
  exists a b c d,
    Str.chars (scan_year C items "2025") = [a; b; c; d]
    /\ pv = clear_duplicate_seller
             (backfill_defaults
                (dict_set (dict_set (dict_set (dict_set
                   (map (fun '(key, value) => (key, month_value key value)) items)
                   "Year-1" a) "Year-2" b) "Year-3" c) "Year-4" d)).
Proof.
  intros Hwf (pv1 & Hpv1 & ->).
  rewrite (normalize_months_map _ Hwf) in Hpv1.
  destruct (scan_year_four_digit C items "2025" (default_year_four_digit C))
    as (a & b & c & d & HY & _).
  exists a, b, c, d. split; [exact HY|].
  rewrite <- scan_year_months in HY.
  rewrite (split_year_chars C _ a b c d HY) in Hpv1.
  now injection Hpv1 as <-.
Qed.
End NormalizedFacts.

(** X9. Once the document is open, the mapping [_fill_pdf_form] commits
    keeps the keys of the caller's mapping, in their order and before any
    other, has no repeated key, and always has the keys Year-1 .. Year-4 and
    the eight keys of the table of defaults. *)
Theorem normalized_keys (C : collaborators) (st : state)
    (pdf_path : string) (field_values : nat)
    (doc : document) (items : strdict) :
  files st !! pdf_path = Some (Pdf doc) ->
  objects st !! field_values = Some items ->
  dict_wf items ->
  exists pv extra,
    objects (snd (_fill_pdf_form C pdf_path field_values st))
    = (objects st ++ [pv])%list
    /\ dict_wf pv
    /\ dict_keys pv = (dict_keys items ++ extra)%list
    /\ forall k,
         k ∈ Spec.year_fields \/ k ∈ dict_keys Normalizer.defaults ->
         k ∈ dict_keys pv.
Proof.
  intros Hfile Hitems Hwf.
  destruct (fill_pdf_form_mapping C st pdf_path field_values doc Hfile)
    as (pv & Hnorm & Hobjects).
  rewrite Hitems in Hnorm. cbn [from_option id] in Hnorm.
  destruct (normalized_unfold C items pv Hwf Hnorm) as (a & b & c & d & _ & Hpv).
  set (months := map (fun '(key, value) =>
                        (key, Normalizer.month_value key value)) items) in *.
  set (years := dict_set (dict_set (dict_set (dict_set months
                   "Year-1" a) "Year-2" b) "Year-3" c) "Year-4" d) in *.
  assert (Hmonths : dict_wf months /\ Props.keeps_keys items months).
  { unfold dict_wf, Props.keeps_keys, months. rewrite map_month_keys.
    split; [exact Hwf | exists []; now rewrite app_nil_r]. }
  assert (Hyears : dict_wf years /\ Props.keeps_keys items years).
  { destruct Hmonths as [Hw Hk]. split.
    - unfold years. now repeat apply dict_set_wf.
    - unfold years.
      repeat (eapply keeps_keys_trans; [|apply keeps_keys_set]). exact Hk. }
  destruct Hyears as [Hwy Hky].
  destruct (backfill_defaults_shape years Hwy) as [Hwb Hkb].
  assert (Hkeys : Props.keeps_keys items pv).
  { eapply keeps_keys_trans; [exact Hky|].
    eapply keeps_keys_trans; [exact Hkb|].
    rewrite Hpv. unfold Props.keeps_keys. rewrite clear_duplicate_seller_keys.
    exists []. now rewrite app_nil_r. }
  destruct Hkeys as [extra Hextra].
  exists pv, extra. split; [exact Hobjects|].
  split; [|split; [exact Hextra|]].
  - unfold dict_wf. rewrite Hpv, clear_duplicate_seller_keys. exact Hwb.
  - intros k Hk. rewrite Hpv, clear_duplicate_seller_keys.
    apply dict_contains_elem. unfold dict_contains.
    destruct Hk as [Hk|Hk].
    + rewrite backfill_defaults_other.
      * unfold Spec.year_fields in Hk.
        rewrite !elem_of_cons, elem_of_nil in Hk. unfold years.
        destruct Hk as [->|[->|[->|[->|[]]]]]; rewrite !dict_get_set;
          reflexivity.
      * unfold Spec.year_fields in Hk.
        rewrite !elem_of_cons, elem_of_nil in Hk.
        destruct Hk as [->|[->|[->|[->|[]]]]];
          unfold Normalizer.defaults; cbn [dict_keys map fst];
          rewrite !not_elem_of_cons; repeat split; try discriminate;
          apply not_elem_of_nil.
    + apply dict_contains_elem in Hk. unfold dict_contains in Hk.
      destruct (dict_get Normalizer.defaults k) as [dflt|] eqn:E;
        [|discriminate].
      apply dict_get_Some_elem in E.
      now rewrite (backfill_defaults_get years k dflt E).
Qed.

(** The caller's mapping of the sample run. *)
Lemma normalized_keys_witness :
  exists pv extra,
    objects (snd (_fill_pdf_form Example.happy Example.pdf_path 0 Example.office))
    = (objects Example.office ++ [pv])%list
    /\ dict_keys pv = (dict_keys Example.answers ++ extra)%list
    /\ "Year-3" ∈ dict_keys pv.
Proof.
  destruct (normalized_keys Example.happy Example.office Example.pdf_path 0
              Example.form Example.answers)
    as (pv & extra & Hobjects & _ & Hkeys & Hall).
  - vm_compute; reflexivity.
  - reflexivity.
  - unfold dict_wf. apply NoDup_ListNoDup. vm_compute.
    repeat constructor; simpl; intuition discriminate.
  - exists pv, extra. split; [exact Hobjects|]. split; [exact Hkeys|].
    apply Hall. left. unfold Spec.year_fields. rewrite !elem_of_cons. tauto.
Defined.

(** X10. The year committed is read from the caller's own values: the month
    pass does not change which year the scan finds, and the later passes do
    not touch Year-1 .. Year-4, which hold in the committed mapping the four
    characters of the year scanned in the caller's mapping. *)
Theorem year_fields_from_input (C : collaborators) (st : state)
    (pdf_path : string) (field_values : nat)
    (doc : document) (items : strdict) :
  files st !! pdf_path = Some (Pdf doc) ->
  objects st !! field_values = Some items ->
  dict_wf items ->
  exists pv a b c d,
    objects (snd (_fill_pdf_form C pdf_path field_values st))
    = (objects st ++ [pv])%list
    /\ Normalizer.scan_year C (Normalizer.normalize_months items []) "2025"
       = Normalizer.scan_year C items "2025"
    /\ Str.chars (Normalizer.scan_year C items "2025") = [a; b; c; d]
    /\ dict_get pv "Year-1" = Some a
    /\ dict_get pv "Year-2" = Some b
    /\ dict_get pv "Year-3" = Some c
    /\ dict_get pv "Year-4" = Some d.
Proof.
  intros Hfile Hitems Hwf.
  destruct (fill_pdf_form_mapping C st pdf_path field_values doc Hfile)
    as (pv & Hnorm & Hobjects).
  rewrite Hitems in Hnorm. cbn [from_option id] in Hnorm.
  destruct (normalized_unfold C items pv Hwf Hnorm)
    as (a & b & c & d & HY & Hpv).
  exists pv, a, b, c, d. split; [exact Hobjects|].
  split; [rewrite (normalize_months_map _ Hwf); apply scan_year_months|].
  split; [exact HY|].
  assert (Hyear : forall k,
             k ∈ Spec.year_fields ->
             Str.endswith k " 2" = false /\ k ∉ dict_keys Normalizer.defaults).
  { intros k Hk. unfold Spec.year_fields in Hk.
    rewrite !elem_of_cons, elem_of_nil in Hk.
    destruct Hk as [->|[->|[->|[->|[]]]]];
      (split; [reflexivity|]);
      unfold Normalizer.defaults; cbn [dict_keys map fst];
      rewrite !not_elem_of_cons; repeat split; try discriminate;
      apply not_elem_of_nil. }
  assert (Hget : forall k,
             k ∈ Spec.year_fields ->
             dict_get pv k
             = dict_get
                 (dict_set (dict_set (dict_set (dict_set
                    (map (fun '(key, value) =>
                            (key, Normalizer.month_value key value)) items)
                    "Year-1" a) "Year-2" b) "Year-3" c) "Year-4" d) k).
  { intros k Hk. destruct (Hyear k Hk) as [Hends Hnot]. rewrite Hpv.
    rewrite clear_duplicate_seller_other by exact Hends.
    now rewrite backfill_defaults_other by exact Hnot. }
  unfold Spec.year_fields in Hget.
  repeat split;
    (rewrite Hget by (rewrite !elem_of_cons; tauto));
    rewrite !dict_get_set; reflexivity.
Qed.

(** The sample answers give the year under "Sale year". *)
Lemma year_fields_from_input_witness :
  exists pv,
    objects (snd (_fill_pdf_form Example.happy Example.pdf_path 0 Example.office))
    = (objects Example.office ++ [pv])%list
    /\ dict_get pv "Year-1" = Some "2" /\ dict_get pv "Year-4" = Some "4".
Proof.
  destruct (year_fields_from_input Example.happy Example.office
              Example.pdf_path 0 Example.form Example.answers)
    as (pv & a & b & c & d & Hobjects & _ & HY & H1 & _ & _ & H4).
  - vm_compute; reflexivity.
  - reflexivity.
  - unfold dict_wf. apply NoDup_ListNoDup. vm_compute.
    repeat constructor; simpl; intuition discriminate.
  - exists pv. split; [exact Hobjects|].
    vm_compute in HY. injection HY as <- <- <- <-. now split.
Defined.

(** X11. For every field of the table of defaults whose default is not
    empty (Month, Day, the two states, the two zip codes, Sell date 1), the
    committed mapping holds a value that is not empty: the caller's value
    when it gave one that is not empty (for Month, after the month pass), and
    the default otherwise.  A widget of one of these names is therefore
    never written empty. *)
Theorem defaults_never_empty (C : collaborators) (st : state)
    (pdf_path : string) (field_values : nat)
    (doc : document) (items : strdict) (field default_value : string) :
  files st !! pdf_path = Some (Pdf doc) ->
  objects st !! field_values = Some items ->
  dict_wf items ->
  (field, default_value) ∈ Normalizer.defaults ->
  default_value <> "" ->
  exists pv v,
    objects (snd (_fill_pdf_form C pdf_path field_values st))
    = (objects st ++ [pv])%list
    /\ dict_get pv field = Some v
    /\ v <> ""
    /\ (dict_get items field = None \/ dict_get items field = Some "" ->
        v = default_value)
    /\ (forall given,
          dict_get items field = Some given -> given <> "" ->
          v = if String.eqb field "Month"
              then Normalizer.month_value "Month" given
              else given).
Proof.
  intros Hfile Hitems Hwf Hin Hdflt.
  destruct (fill_pdf_form_mapping C st pdf_path field_values doc Hfile)
    as (pv & Hnorm & Hobjects).
  rewrite Hitems in Hnorm. cbn [from_option id] in Hnorm.
  destruct (normalized_unfold C items pv Hwf Hnorm) as (a & b & c & d & _ & Hpv).
  assert (Hfield : Str.endswith field " 2" = false
                   /\ (field ∉ Spec.year_fields)
                   /\ (String.eqb field "Month" = false ->
                       forall given, Normalizer.month_value field given = given)).
  { unfold Normalizer.defaults in Hin.
    rewrite !elem_of_cons, elem_of_nil in Hin.
    repeat (destruct Hin as [Hin|Hin];
            [injection Hin as -> ->;
             try congruence;
             (split; [reflexivity|]);
             (split; [unfold Spec.year_fields; rewrite !not_elem_of_cons;
                      repeat split; try discriminate; apply not_elem_of_nil|]);
             first [discriminate | intros _ given; reflexivity]|]).
    contradiction. }
  destruct Hfield as (Hends & Hnotyear & Hplain).
  assert (Hget : dict_get pv field
                 = Some (Spec.backfilled
                           (map (fun '(key, value) =>
                                   (key, Normalizer.month_value key value)) items)
                           field default_value)).
  { rewrite Hpv, clear_duplicate_seller_other by exact Hends.
    rewrite (backfill_defaults_get _ field default_value Hin).
    unfold Spec.backfilled. f_equal.
    unfold Spec.year_fields in Hnotyear. rewrite !not_elem_of_cons in Hnotyear.
    destruct Hnotyear as (H1 & H2 & H3 & H4 & _).
    apply not_eq_sym, String.eqb_neq in H1, H2, H3, H4.
    rewrite !dict_get_set. now rewrite H1, H2, H3, H4. }
  eexists pv, _. split; [exact Hobjects|]. split; [exact Hget|].
  unfold Spec.backfilled. rewrite dict_get_map_values.
  destruct (dict_get items field) as [given|]; cbn [fmap option_fmap option_map].
  - rewrite month_value_truthy.
    destruct given as [|ch given]; cbn [Str.truthy].
    + split; [exact Hdflt|]. split; [reflexivity|]. intros g [= <-]. congruence.
    + split.
      * intros Hempty.
        pose proof (month_value_truthy field (String ch given)) as Ht.
        rewrite Hempty in Ht. discriminate.
      * split; [intros [|]; discriminate|].
        intros g [= <-] _.
        destruct (String.eqb_spec field "Month") as [->|Hne]; [reflexivity|].
        now apply Hplain.
  - split; [exact Hdflt|]. split; [reflexivity|]. discriminate.
Qed.

(** The sample answers give "March" for the month and no day. *)
Lemma defaults_never_empty_witness :
  exists pv,
    objects (snd (_fill_pdf_form Example.happy Example.pdf_path 0 Example.office))
    = (objects Example.office ++ [pv])%list
    /\ dict_get pv "Month" = Some "03".
Proof.
  destruct (defaults_never_empty Example.happy Example.office
              Example.pdf_path 0 Example.form Example.answers "Month" "03")
    as (pv & v & Hobjects & Hget & _ & _ & Hgiven).
  - vm_compute; reflexivity.
  - reflexivity.
  - unfold dict_wf. apply NoDup_ListNoDup. vm_compute.
    repeat constructor; simpl; intuition discriminate.
  - now left.
  - discriminate.
  - exists pv. split; [exact Hobjects|].
    rewrite Hget. f_equal. apply (Hgiven "March"); [reflexivity|discriminate].
Defined.

(** ** Filling twice *)

Section CommitIdem.
Variable C : collaborators.

Lemma committed_idem pv w :
  Spec.committed C pv (Spec.committed C pv w) = Spec.committed C pv w.
Proof.
  unfold Spec.committed.
  destruct (dict_get pv (field_name w)) as [v|] eqn:E; cbn [field_name].
  - now rewrite E.
  - now rewrite E.
Qed.

Lemma committed_doc_idem pv (doc : document) :
  map (map (Spec.committed C pv)) (map (map (Spec.committed C pv)) doc)
  = map (map (Spec.committed C pv)) doc.
Proof.
  rewrite map_map. apply map_ext. intros widgets.
  rewrite map_map. apply map_ext. intros w. apply committed_idem.
Qed.

Lemma updates_committed pv (doc : document) :
  Spec.updates pv (map (map (Spec.committed C pv)) doc) = Spec.updates pv doc.
Proof.
  unfold Spec.updates. induction doc as [|widgets rest IH]; [reflexivity|].
  cbn [map concat]. rewrite !List.filter_app, !length_app, IH. f_equal.
  clear. induction widgets as [|w ws IHw]; [reflexivity|].
  cbn [map List.filter].
  assert (Hname : field_name (Spec.committed C pv w) = field_name w).
  { unfold Spec.committed. now destruct (dict_get pv (field_name w)). }
  rewrite Hname. destruct (dict_contains pv (field_name w)); cbn [length];
    now rewrite IHw.
Qed.
End CommitIdem.

(** X12. Filling is idempotent: when [_fill_pdf_form] has filled a document
    from the caller's mapping, filling its output again from the same mapping
    stores the same document and reports the same number of fields. *)
Theorem fill_twice (C : collaborators) (st : state)
    (pdf_path : string) (field_values : nat) (items : strdict)
    (doc : document) (output_path output_path' : string) :
  files st !! pdf_path = Some (Pdf doc) ->
  objects st !! field_values = Some items ->
  filled_path C pdf_path = Ok output_path ->
  write_error C output_path = None ->
  filled_path C output_path = Ok output_path' ->
  write_error C output_path' = None ->
  exists r st' r' st'',
    _fill_pdf_form C pdf_path field_values st = (Ok r, st')
    /\ _fill_pdf_form C output_path field_values st' = (Ok r', st'')
    /\ Spec.succeeded r /\ Spec.succeeded r'
    /\ files st'' !! output_path' = files st' !! output_path
    /\ dict_get r' "fields_filled" = dict_get r "fields_filled"
    /\ objects st !! field_values = objects st'' !! field_values.
Proof.
  intros Hfile Hitems Hpath Hwrite Hpath' Hwrite'.
  destruct (fill_pdf_form_run C st pdf_path field_values doc output_path
              Hfile Hpath Hwrite) as (pv1 & pv & Hpv1 & Hpv & Hrun).
  rewrite Hitems in Hpv1. cbn [from_option id] in Hpv1.
  match type of Hrun with _ = (_, ?s) => set (st' := s) in * end.
  assert (Hfile' : files st' !! output_path
                   = Some (Pdf (map (map (Spec.committed C pv)) doc))).
  { unfold st'. cbn [files]. apply lookup_insert_eq. }
  assert (Hitems' : objects st' !! field_values = Some items).
  { unfold st'. cbn [objects]. now apply lookup_app_l_Some. }
  destruct (fill_pdf_form_run C st' output_path field_values _ output_path'
              Hfile' Hpath' Hwrite') as (pv1' & pv' & Hpv1' & Hpv' & Hrun').
  rewrite Hitems' in Hpv1'. cbn [from_option id] in Hpv1'.
  assert (pv1' = pv1) as -> by congruence.
  assert (pv' = pv) as -> by congruence.
  eexists _, st', _, _. split; [exact Hrun|]. split; [exact Hrun'|].
  split; [reflexivity|]. split; [reflexivity|]. cbn [files objects].
  split; [|split].
  - rewrite lookup_insert_eq, Hfile'. now rewrite committed_doc_idem.
  - cbn. now rewrite updates_committed.
  - rewrite Hitems. symmetry. apply lookup_app_l_Some. exact Hitems'.
Qed.

(** The sample form, filled and filled again. *)
Lemma fill_twice_witness :
  exists r st' r' st'',
    _fill_pdf_form Example.happy Example.pdf_path 0 Example.office = (Ok r, st')
    /\ _fill_pdf_form Example.happy "/tmp/mcp_pdfs/contract_filled.pdf" 0 st'
       = (Ok r', st'')
    /\ files st'' !! "/tmp/mcp_pdfs/contract_filled_filled.pdf"
       = files st' !! "/tmp/mcp_pdfs/contract_filled.pdf"
    /\ dict_get r' "fields_filled" = Some (VInt 4).
Proof.
  destruct (fill_twice Example.happy Example.office Example.pdf_path 0
              Example.answers Example.form
              "/tmp/mcp_pdfs/contract_filled.pdf"
              "/tmp/mcp_pdfs/contract_filled_filled.pdf")
    as (r & st' & r' & st'' & Hrun & Hrun' & _ & _ & Hsame & Hcount & _);
    [vm_compute; reflexivity ..|].
  exists r, st', r', st''. split; [exact Hrun|]. split; [exact Hrun'|].
  split; [exact Hsame|]. rewrite Hcount.
  assert (Hr : fst (_fill_pdf_form Example.happy Example.pdf_path 0
                      Example.office) = Ok r) by now rewrite Hrun.
  vm_compute in Hr. injection Hr as <-. reflexivity.
Defined.

(** ** What the orchestrator returns *)

Section Returns.
Context {A B : Type}.

Lemma returns_ret (a : A) (Q : A -> Prop) : Q a -> Props.returns (ret a) Q.
Proof. intros Ha st a' st' [= <- _]. exact Ha. Qed.

Lemma returns_bind (m : M A) (k : A -> M B) (P : A -> Prop) (Q : B -> Prop) :
  Props.returns m P ->
  (forall a, P a -> Props.returns (k a) Q) ->
  Props.returns (bind m k) Q.
Proof.
  intros Hm Hk st b st'. unfold bind.
  destruct (m st) as [[a|msg] st1] eqn:E; [|discriminate].
  apply (Hk a (Hm _ _ _ E)).
Qed.

Lemma returns_lift (r : res A) (k : A -> M B) (Q : B -> Prop) :
  (forall a, r = Ok a -> Props.returns (k a) Q) ->
  Props.returns (bind (lift r) k) Q.
Proof.
  intros Hk st b st'. unfold bind, lift.
  destruct r as [a|msg]; [|discriminate]. now apply Hk.
Qed.

Lemma returns_any (m : M A) : Props.returns m (fun _ => True).
Proof. now intros st a st' _. Qed.
End Returns.

Section Outcomes.
Variable C : collaborators.

Lemma error_not_success r status :
  Spec.succeeded r \/ Props.is_error r ->
  Py.getitem r "status" = Ok status ->
  Py.ne_str status "success" = true ->
  Props.is_error r.
Proof.
  intros [Hok|Herr] Hget Hne; [|exact Herr].
  unfold Py.getitem in Hget. rewrite Hok in Hget. injection Hget as <-.
  discriminate.
Qed.

Lemma download_pdf_outcome url :
  Props.returns (_download_pdf C url) (fun r => Spec.succeeded r \/ Props.is_error r).
Proof.
  intros st r st'. rewrite download_pdf_run.
  destruct (httpx_get C true url) as [response|msg];
    [|intros [= <- _]; right; now eexists _, _].
  cbn zeta.
  destruct (write_error C (WORK_DIR ++ "/" ++ download_filename url));
    intros [= <- _]; [right; now eexists _, _ | now left].
Qed.

Lemma extract_form_fields_outcome pdf_path :
  Props.returns (_extract_form_fields C pdf_path)
                (fun r => Spec.succeeded r \/ Props.is_error r).
Proof.
  intros st r st'.
  unfold _extract_form_fields, try_except, bind, pymupdf_open.
  destruct (files st !! pdf_path) as [[doc|tag]|];
    intros [= <- _]; [now left | right; now eexists _, _ ..].
Qed.

Lemma generate_form_values_outcome field_names :
  Props.returns (_generate_form_values C field_names)
                (fun r => Spec.succeeded r \/ Props.is_error r).
Proof.
  intros st r st'. rewrite generate_form_values_run. intros [= <- _].
  destruct (chat_completion C field_names);
    [now left | right; now eexists _, _].
Qed.

Lemma error_reportable r : Props.is_error r -> Props.reportable r.
Proof.
  intros (what & msg & ->). unfold Props.reportable, Spec.succeeded.
  cbn [error_result dict_get String.eqb Ascii.eqb Bool.eqb].
  split; [|split; [eauto | discriminate]].
  exists "error". split; [reflexivity|]. rewrite !elem_of_cons. tauto.
Qed.
End Outcomes.

Section TryExcept.
Context {A : Type}.

Lemma returns_try_except (body : M A) handler (Q : A -> Prop) :
  Props.returns body Q ->
  (forall msg, Props.returns (handler msg) Q) ->
  Props.returns (try_except body handler) Q.
Proof.
  intros Hbody Hhandler st a st'. unfold try_except.
  destruct (body st) as [[a0|msg] st1] eqn:E.
  - intros [= <- _]. exact (Hbody _ _ _ E).
  - apply Hhandler.
Qed.
End TryExcept.

Section OrchestratorReturns.
Variable C : collaborators.
Variable email_json_url : string.

Lemma process_email_automation_returns :
  Props.returns (_process_email_automation C email_json_url) Props.reportable.
Proof.
  unfold _process_email_automation.
  apply returns_try_except;
    [|intros msg; apply returns_ret, error_reportable; now eexists _, _].
  eapply returns_bind; [apply returns_any|]. intros email_result _.
  apply returns_lift. intros status _.
  match goal with |- Props.returns (if ?c then _ else _) _ => destruct c end.
  { apply returns_ret. unfold Props.reportable, Spec.succeeded.
    cbn [no_pdf_result dict_get String.eqb Ascii.eqb Bool.eqb].
    split; [|split; [eauto | discriminate]].
    exists "error". split; [reflexivity|]. rewrite !elem_of_cons. tauto. }
  apply returns_lift. intros pdf_urls _.
  apply returns_lift. intros pdf_url _.
  apply returns_lift. intros url _.
  eapply returns_bind; [apply download_pdf_outcome|].
  intros download_result Hdownload.
  apply returns_lift. intros status2 Hstatus2.
  destruct (Py.ne_str status2 "success") eqn:Hne2.
  { apply returns_ret, error_reportable.
    exact (error_not_success _ _ Hdownload Hstatus2 Hne2). }
  apply returns_lift. intros pdf_path _.
  apply returns_lift. intros path _.
  eapply returns_bind; [apply extract_form_fields_outcome|].
  intros extract_result Hextract.
  apply returns_lift. intros status3 Hstatus3.
  destruct (Py.ne_str status3 "success") eqn:Hne3.
  { apply returns_ret, error_reportable.
    exact (error_not_success _ _ Hextract Hstatus3 Hne3). }
  apply returns_lift. intros num_fields _.
  destruct (Py.eq_int num_fields 0).
  { apply returns_ret. unfold Props.reportable, Spec.succeeded.
    cbn [no_fields_result dict_get String.eqb Ascii.eqb Bool.eqb].
    split; [|split; [eauto | discriminate]].
    exists "info". split; [reflexivity|]. rewrite !elem_of_cons. tauto. }
  apply returns_lift. intros fields _.
  apply returns_lift. intros names _.
  apply returns_lift. intros field_names _.
  eapply returns_bind; [apply generate_form_values_outcome|].
  intros gen_result Hgenerate.
  apply returns_lift. intros status4 Hstatus4.
  destruct (Py.ne_str status4 "success") eqn:Hne4.
  { apply returns_ret, error_reportable.
    exact (error_not_success _ _ Hgenerate Hstatus4 Hne4). }
  apply returns_lift. intros generated_values _.
  apply returns_lift. intros values _.
  eapply returns_bind; [apply returns_any|]. intros field_values _.
  eapply returns_bind; [apply returns_any|]. intros fill_result _.
  apply returns_lift. intros subject _.
  apply returns_lift. intros output_path _.
  apply returns_lift. intros fields_filled _.
  apply returns_lift. intros fields_filled' _.
  apply returns_ret. unfold Props.reportable, Spec.succeeded.
  cbn [dict_get String.eqb Ascii.eqb Bool.eqb].
  split; [|split; [eauto | intros _; eauto]].
  exists "success". split; [reflexivity|]. rewrite !elem_of_cons. tauto.
Qed.

Lemma process_email_automation_total st :
  exists r st', _process_email_automation C email_json_url st = (Ok r, st').
Proof.
  unfold _process_email_automation, try_except.
  match goal with
  | |- context [match ?b st with _ => _ end] => destruct (b st) as [[a|m] s]
  end; now eexists _, _.
Qed.
End OrchestratorReturns.

(** X13. [_process_email_automation] never raises: every run returns a
    result with a status among "success", "error" and "info" and with a
    message, and a success result carries the path of the filled document,
    the number of fields filled and the subject of the email. *)
Theorem orchestrator_reportable (C : collaborators) (email_json_url : string)
    (st : state) :
  exists r st',
    _process_email_automation C email_json_url st = (Ok r, st')
    /\ Props.reportable r.
Proof.
  destruct (process_email_automation_total C email_json_url st)
    as (r & st' & Hrun).
  exists r, st'. split; [exact Hrun|].
  exact (process_email_automation_returns C email_json_url _ _ _ Hrun).
Qed.
